(** * Sonalex / Percolator SDK: wire codec, derived addresses, governance checks

    A shallow embedding of the TypeScript SDK (sdk/constants, sdk/pda,
    sdk/instructions/router.ts, sdk/instructions/oracle.ts) and of the Squads
    multisig helpers (lib/multisig), together with the properties of the
    binary protocol that the specification states about them.

    Conventions of the embedding:
    - a Node.js [Buffer] is a [list byte]; a write returns the updated buffer;
    - a JavaScript exception is the [Throw] case of [result];
    - a [bigint], and a [number] holding an integer, is a [Z];
    - a [PublicKey] is its 256-bit big number, a machine word of width 256;
    - a binding that TypeScript declares [PublicKey] holds, when the code
      runs, what its initialiser evaluated to: a key, or the promise of one
      where an async method was called and not awaited;
    - code that reads a buffer or talks to the ledger runs in [Eff], which
      also records every access it makes. *)

From Stdlib Require Import String Ascii.
From Stdlib Require Import ZArith List Lia Bool.
From coqutil Require Import Byte Word.LittleEndianList.
From coqutil Require Import Word.Interface Word.Properties Word.Naive.
From Bignums Require Import BigZ.
Import ListNotations.
Local Open Scope Z_scope.

(* ===================================================================== *)
(** ** Exceptions and effects *)
(* ===================================================================== *)

(** The three exception classes the modelled code can raise. *)
Inductive error : Type :=
| RangeError
| TypeError
| Error.

Inductive result (A : Type) : Type :=
| Ok (a : A)
| Throw (e : error).

Arguments Ok {A} a.
Arguments Throw {A} e.

Definition rbind {A B : Type} (m : result A) (k : A -> result B) : result B :=
  match m with
  | Ok a => k a
  | Throw e => Throw e
  end.

Declare Scope result_scope.
Delimit Scope result_scope with result.
Notation "x <- m ;; k" := (rbind m (fun x => k))
  (at level 61, m at next level, right associativity) : result_scope.

(** [Eff L A]: a computation that may throw and that logs events of type
    [L] (buffer accesses, ledger requests) in the order they happen. *)
Definition Eff (L A : Type) : Type := (list L * result A)%type.

Definition ret {L A : Type} (a : A) : Eff L A := ([], Ok a).

Definition lift {L A : Type} (r : result A) : Eff L A := ([], r).

Definition ebind {L A B : Type} (m : Eff L A) (k : A -> Eff L B) : Eff L B :=
  match m with
  | (l, Ok a) => let (l', r) := k a in (l ++ l', r)
  | (l, Throw e) => (l, Throw e)
  end.

Definition events {L A : Type} (m : Eff L A) : list L := fst m.

Definition outcome {L A : Type} (m : Eff L A) : result A := snd m.

Declare Scope eff_scope.
Delimit Scope eff_scope with eff.
Notation "x <~ m ;; k" := (ebind m (fun x => k))
  (at level 61, m at next level, right associativity) : eff_scope.

(* ===================================================================== *)
(** ** Node.js Buffer *)
(* ===================================================================== *)

Module Buffer.

Definition t : Type := list byte.

(** [Buffer.alloc(n)]: [n] zero bytes. *)
Definition alloc (n : nat) : t := repeat Byte.x00 n.

(** [Buffer.from(str)] for the ASCII tags the SDK uses. *)
Definition from_string (s : string) : t := list_byte_of_string s.

(** The [n] bytes starting at [off] (fewer when the buffer ends before). *)
Definition window (b : t) (off n : nat) : list byte := firstn n (skipn off b).

Definition in_bounds (b : t) (off n : nat) : bool := (off + n <=? length b)%nat.

(** Replace the bytes at [off .. off + length bs). *)
Definition splice (b : t) (off : nat) (bs : list byte) : t :=
  firstn off b ++ bs ++ skipn (off + length bs) b.

(** Two's complement reading of an unsigned [8 * n]-bit value. *)
Definition to_signed (n : nat) (u : Z) : Z :=
  if u <? 2 ^ (8 * Z.of_nat n - 1) then u else u - 2 ^ (8 * Z.of_nat n).

(** A read access: the length of the buffer read, the offset and the
    width in bytes. *)
Record access : Type := mkAccess {
  buffer_length : nat;
  offset : nat;
  width : nat
}.

Definition within (a : access) : Prop := (offset a + width a <= buffer_length a)%nat.

(** A fixed-width little-endian read: throws [RangeError] when the range
    leaves the buffer, as Node's bounds check does. *)
Definition readLE (b : t) (off n : nat) : Eff access Z :=
  if in_bounds b off n
  then ([mkAccess (length b) off n], Ok (le_combine (window b off n)))
  else ([mkAccess (length b) off n], Throw RangeError).

Definition readUInt8 (b : t) (off : nat) : Eff access Z := readLE b off 1.

Definition readBigUInt64LE (b : t) (off : nat) : Eff access Z := readLE b off 8.

Definition readBigInt64LE (b : t) (off : nat) : Eff access Z :=
  (u <~ readLE b off 8 ;; ret (to_signed 8 u))%eff.

(** [buf.subarray(s, e)]: both ends are clamped to the buffer, it never
    throws; the access recorded is the clamped range. *)
Definition subarray (b : t) (s e : nat) : Eff access t :=
  ([mkAccess (length b) (Nat.min s (length b))
      (Nat.min e (length b) - Nat.min s (length b))],
   Ok (window b s (e - s))).

(** A fixed-width little-endian write of [v], accepted when
    [lo <= v <= hi]; the value is checked before the offset, and both
    failures are a [RangeError]. *)
Definition writeLE (lo hi : Z) (n : nat) (b : t) (v : Z) (off : nat) : result t :=
  if negb ((lo <=? v) && (v <=? hi)) then Throw RangeError
  else if negb (in_bounds b off n) then Throw RangeError
  else Ok (splice b off (le_split n v)).

Definition writeUInt8 : t -> Z -> nat -> result t := writeLE 0 255 1.

Definition writeUInt32LE : t -> Z -> nat -> result t := writeLE 0 (2 ^ 32 - 1) 4.

Definition writeBigUInt64LE : t -> Z -> nat -> result t := writeLE 0 (2 ^ 64 - 1) 8.

Definition writeBigInt64LE : t -> Z -> nat -> result t :=
  writeLE (- 2 ^ 63) (2 ^ 63 - 1) 8.

(** [Buffer.from(new Uint32Array([x]).buffer)]: the element is [x] reduced
    modulo 2^32 (ToUint32) and the four bytes are in the byte order of the
    host, little-endian on every platform the SDK runs on. *)
Inductive endianness : Type := LittleEndian | BigEndian.

Definition from_Uint32Array (host : endianness) (x : Z) : t :=
  match host with
  | LittleEndian => le_split 4 (x mod 2 ^ 32)
  | BigEndian => rev (le_split 4 (x mod 2 ^ 32))
  end.

(** [source.copy(target, targetStart)]: the bytes of [source] that fit
    are written over [target] from [targetStart] on; nothing is written at
    or past the end of [target], and it never throws. *)
Definition copy (source target : t) (targetStart : nat) : t :=
  splice target targetStart (firstn (length target - targetStart) source).

End Buffer.

(* ===================================================================== *)
(** ** PublicKey of @solana/web3.js *)
(* ===================================================================== *)

Module PublicKey.

(** The class wraps a big number of at most 32 bytes. *)
Definition t : Type := Naive.word 256.

Definition be_combine (bs : list byte) : Z := le_combine (rev bs).

Definition be_split (n : nat) (z : Z) : list byte := rev (le_split n z).

(** [new PublicKey(bytes)]: big-endian; rejected when the number needs
    more than 32 bytes. *)
Definition new (bs : list byte) : result t :=
  if 2 ^ 256 <=? be_combine bs then Throw Error
  else Ok (word.of_Z (be_combine bs)).

(** [toBuffer()]: 32 bytes, big-endian, zero-padded on the left. *)
Definition toBuffer (k : t) : Buffer.t := be_split 32 (word.unsigned k).

Definition equals (a b : t) : bool := word.unsigned a =? word.unsigned b.

(** [PublicKey.default], which is also [SystemProgram.programId]. *)
Definition default : t := word.of_Z 0.

End PublicKey.

#[local] Instance word256_ok : word.ok (Naive.word 256) := Naive.ok 256 eq_refl.

(* ===================================================================== *)
(** ** Platform primitives behind the derived addresses *)
(* ===================================================================== *)

(** SHA-256 (FIPS 180-4) on byte strings, with 32-bit words as [Z]. *)
Module Sha256.

Definition w32 (x : Z) : Z := x mod 2 ^ 32.

Definition rotr (n x : Z) : Z :=
  Z.lor (Z.shiftr x n) (w32 (Z.shiftl x (32 - n))).

Definition Ch (x y z : Z) : Z :=
  Z.lxor (Z.land x y) (Z.land (2 ^ 32 - 1 - x) z).

Definition Maj (x y z : Z) : Z :=
  Z.lxor (Z.lxor (Z.land x y) (Z.land x z)) (Z.land y z).

Definition Sigma0 (x : Z) : Z := Z.lxor (Z.lxor (rotr 2 x) (rotr 13 x)) (rotr 22 x).

Definition Sigma1 (x : Z) : Z := Z.lxor (Z.lxor (rotr 6 x) (rotr 11 x)) (rotr 25 x).

Definition sigma0 (x : Z) : Z := Z.lxor (Z.lxor (rotr 7 x) (rotr 18 x)) (Z.shiftr x 3).

Definition sigma1 (x : Z) : Z := Z.lxor (Z.lxor (rotr 17 x) (rotr 19 x)) (Z.shiftr x 10).

(** The primes below 312, by trial division: there are 64 of them. *)
Fixpoint primes_upto (n : nat) (found : list Z) : list Z :=
  match n with
  | O => found
  | S n' =>
      let found' := primes_upto n' found in
      let c := Z.of_nat n + 1 in
      if forallb (fun q => negb (c mod q =? 0)) found' then found' ++ [c] else found'
  end.

Definition primes : list Z := Eval vm_compute in primes_upto 310 [].

(** The largest [r] with [r ^ 3 <= n], fixed from bit [bits - 1] down. *)
Fixpoint cube_root (bits : nat) (n r : Z) : Z :=
  match bits with
  | O => r
  | S bits' =>
      let r' := r + 2 ^ Z.of_nat bits' in
      cube_root bits' n (if r' ^ 3 <=? n then r' else r)
  end.

(** Round constants: the first 32 bits of the fractional part of the cube
    roots of the 64 primes. *)
Definition K : list Z :=
  Eval vm_compute in map (fun q => w32 (cube_root 36 (q * 2 ^ 96) 0)) primes.

(** Initial hash value: the same of the square roots of the first 8. *)
Definition H0 : list Z :=
  Eval vm_compute in map (fun q => w32 (Z.sqrt (q * 2 ^ 64))) (firstn 8 primes).

(** Message padding: a one bit, zeros, and the bit length on 64 bits. *)
Definition pad (msg : list byte) : list byte :=
  let len := Z.of_nat (length msg) in
  msg ++ [Byte.x80] ++ repeat Byte.x00 (Z.to_nat ((55 - len) mod 64))
      ++ PublicKey.be_split 8 (8 * len).

(** Big-endian 32-bit words of a byte string. *)
Fixpoint words (fuel : nat) (bs : list byte) : list Z :=
  match fuel, bs with
  | S fuel', _ :: _ =>
      PublicKey.be_combine (firstn 4 bs) :: words fuel' (skipn 4 bs)
  | _, _ => []
  end.

(** One round on the working variables [a .. h], listed in that order. *)
Definition round (st : list Z) (k w : Z) : list Z :=
  match st with
  | [a; b; c; d; e; f; g; h] =>
      let T1 := h + Sigma1 e + Ch e f g + k + w in
      let T2 := Sigma0 a + Maj a b c in
      [w32 (T1 + T2); a; b; c; w32 (d + T1); e; f; g]
  | _ => st
  end.

(** The 64 rounds; [w] is the sliding window W_t .. W_(t+15) of the
    message schedule. *)
Fixpoint rounds (ks : list Z) (w : list Z) (st : list Z) : list Z :=
  match ks with
  | [] => st
  | k :: ks' =>
      let wnew := w32 (sigma1 (nth 14 w 0) + nth 9 w 0 + sigma0 (nth 1 w 0) + nth 0 w 0) in
      rounds ks' (tl w ++ [wnew]) (round st k (nth 0 w 0))
  end.

Definition compress (h : list Z) (block : list Z) : list Z :=
  map (fun p => w32 (fst p + snd p)) (combine h (rounds K block h)).

Fixpoint blocks (fuel : nat) (ws : list Z) (h : list Z) : list Z :=
  match fuel, ws with
  | S fuel', _ :: _ => blocks fuel' (skipn 16 ws) (compress h (firstn 16 ws))
  | _, _ => h
  end.

Definition sha256 (msg : list byte) : list byte :=
  let padded := pad msg in
  let ws := words (length padded) padded in
  flat_map (PublicKey.be_split 4) (blocks (length ws) ws H0).

End Sha256.

(** The Ed25519 test behind [PublicKey.isOnCurve]: do 32 bytes decode to
    a point of the curve -x^2 + y^2 = 1 + d x^2 y^2 over GF(2^255 - 19). *)
Module Ed25519.

Definition p : Z := 2 ^ 255 - 19.

Definition d : Z :=
  37095705934669439343138083508754565189542113879843219016388785533085940283555.

(** Modular exponentiation by squaring, on [bigZ] so that it runs fast. *)
Fixpoint pow_mod_pos (b : bigZ) (e : positive) (m : bigZ) : bigZ :=
  match e with
  | xH => BigZ.modulo b m
  | xO e' => let r := pow_mod_pos b e' m in BigZ.modulo (BigZ.mul r r) m
  | xI e' =>
      let r := pow_mod_pos b e' m in
      BigZ.modulo (BigZ.mul (BigZ.modulo (BigZ.mul r r) m) b) m
  end.

Definition pow_mod (b e m : Z) : Z :=
  match e with
  | Zpos e' => BigZ.to_Z (pow_mod_pos (BigZ.of_Z b) e' (BigZ.of_Z m))
  | _ => 1 mod m
  end.

(** The encoding holds y on 255 bits and the sign of x in the top bit;
    x^2 = (y^2 - 1) / (d y^2 + 1) must have a root, and x = 0 must not
    carry a sign. *)
Definition isOnCurve (bs : list byte) : bool :=
  let n := le_combine bs in
  let y := n mod 2 ^ 255 in
  let sign := Z.testbit n 255 in
  if p <=? y then false
  else
    let y2 := y * y mod p in
    let u := (y2 - 1) mod p in
    let v := (d * y2 + 1) mod p in
    if u =? 0 then negb sign
    else pow_mod (u * v mod p) ((p - 1) / 2) p =? 1.

End Ed25519.

(** Base58 (Bitcoin alphabet), the textual form of a public key. *)
Module Base58.

Definition alphabet : string :=
  "123456789ABCDEFGHJKLMNPQRSTUVWXYZabcdefghijkmnopqrstuvwxyz".

Fixpoint index_of (c : ascii) (s : string) (i : Z) : option Z :=
  match s with
  | EmptyString => None
  | String c' s' => if Ascii.eqb c c' then Some i else index_of c s' (i + 1)
  end.

(** The number a string denotes, or [None] on a foreign character. *)
Fixpoint value (s : string) (acc : Z) : option Z :=
  match s with
  | EmptyString => Some acc
  | String c s' =>
      match index_of c alphabet 0 with
      | Some i => value s' (acc * 58 + i)
      | None => None
      end
  end.

Fixpoint leading_ones (s : string) : nat :=
  match s with
  | String "1" s' => S (leading_ones s')
  | _ => O
  end.

(** Number of bytes of a non-negative number (0 for 0). *)
Definition byte_length (z : Z) : nat := Z.to_nat ((Z.log2_up (z + 1) + 7) / 8).

(** [bs58.decode]: one zero byte per leading '1', then the number in
    big-endian without padding. *)
Definition decode (s : string) : result (list byte) :=
  match value s 0 with
  | Some z => Ok (repeat Byte.x00 (leading_ones s) ++ PublicKey.be_split (byte_length z) z)
  | None => Throw Error
  end.

Fixpoint leading_zeros (bs : list byte) : nat :=
  match bs with
  | Byte.x00 :: rest => S (leading_zeros rest)
  | _ => O
  end.

(** The digits of [z] in base 58, most significant first, in front of
    [acc]; [fuel] bounds their number. *)
Fixpoint digits (fuel : nat) (z : Z) (acc : string) : string :=
  match fuel with
  | O => acc
  | S fuel' =>
      if z =? 0 then acc
      else
        match String.get (Z.to_nat (z mod 58)) alphabet with
        | Some c => digits fuel' (z / 58) (String c acc)
        | None => acc
        end
  end.

(** [bs58.encode]: one '1' per leading zero byte, then the number the
    bytes denote in big-endian. *)
Definition encode (bs : list byte) : string :=
  string_of_list_ascii (repeat "1"%char (leading_zeros bs))
    ++ digits (2 * length bs) (PublicKey.be_combine bs) EmptyString.

End Base58.

(** [new PublicKey(str)]: the string must decode to exactly 32 bytes. *)
Definition PublicKey_of_base58 (s : string) : result PublicKey.t :=
  (decoded <- Base58.decode s ;;
   if negb (length decoded =? 32)%nat then Throw Error
   else PublicKey.new decoded)%result.

(** [key.toBase58()]. *)
Definition PublicKey_toBase58 (k : PublicKey.t) : string :=
  Base58.encode (PublicKey.toBuffer k).


(* ===================================================================== *)
(** ** sdk/constants *)
(* ===================================================================== *)

(** Instruction discriminators of the Router program. *)
Inductive RouterInstruction : Type :=
| Initialize
| InitializePortfolio
| InitializeVault
| Deposit
| Withdraw
| ExecuteCrossSlab
| LiquidateUser
| BurnLpShares
| CancelLpOrders
| RouterReserve
| RouterRelease
| RouterLiquidity
| TopUpInsurance
| WithdrawInsurance
| GlobalHaircut
| UpdateRiskParams.

(** The numeric value the TypeScript enum gives each member. *)
Definition discriminator (i : RouterInstruction) : Z :=
  match i with
  | Initialize => 0
  | InitializePortfolio => 1
  | InitializeVault => 2
  | Deposit => 3
  | Withdraw => 4
  | ExecuteCrossSlab => 5
  | LiquidateUser => 6
  | BurnLpShares => 7
  | CancelLpOrders => 8
  | RouterReserve => 9
  | RouterRelease => 10
  | RouterLiquidity => 11
  | TopUpInsurance => 12
  | WithdrawInsurance => 13
  | GlobalHaircut => 14
  | UpdateRiskParams => 15
  end.

(** The members in declaration order. *)
Definition all_RouterInstruction : list RouterInstruction :=
  [ Initialize; InitializePortfolio; InitializeVault; Deposit; Withdraw;
    ExecuteCrossSlab; LiquidateUser; BurnLpShares; CancelLpOrders;
    RouterReserve; RouterRelease; RouterLiquidity; TopUpInsurance;
    WithdrawInsurance; GlobalHaircut; UpdateRiskParams ].

Definition VAULT_SEED : Buffer.t := Buffer.from_string "vault".
Definition ESCROW_SEED : Buffer.t := Buffer.from_string "escrow".
Definition CAP_SEED : Buffer.t := Buffer.from_string "cap".
Definition PORTFOLIO_SEED : Buffer.t := Buffer.from_string "portfolio".
Definition REGISTRY_SEED : Buffer.t := Buffer.from_string "registry".
Definition AUTHORITY_SEED : Buffer.t := Buffer.from_string "authority".
Definition LP_SEAT_SEED : Buffer.t := Buffer.from_string "lp_seat".
Definition ROUTER_SIGNER_SEED : Buffer.t := Buffer.from_string "router_signer".
Definition INSURANCE_VAULT_SEED : Buffer.t := Buffer.from_string "insurance_vault".
Definition VENUE_PNL_SEED : Buffer.t := Buffer.from_string "venue_pnl".

(* ===================================================================== *)
(** ** Address derivation of @solana/web3.js *)
(* ===================================================================== *)

Definition MAX_SEED_LENGTH : nat := 32.

(** The [forEach] of [createProgramAddressSync]: append every seed to
    [buffer], a seed of more than 32 bytes is a [TypeError]. *)
Fixpoint concat_seeds (seeds : list Buffer.t) (buffer : Buffer.t) : result Buffer.t :=
  match seeds with
  | [] => Ok buffer
  | seed :: rest =>
      if (MAX_SEED_LENGTH <? length seed)%nat then Throw TypeError
      else concat_seeds rest (buffer ++ seed)
  end.

(** The byte string that is hashed for a list of seeds. *)
Definition pda_preimage (buffer : Buffer.t) (programId : PublicKey.t) : Buffer.t :=
  buffer ++ PublicKey.toBuffer programId ++ Buffer.from_string "ProgramDerivedAddress".

Definition createProgramAddressSync (seeds : list Buffer.t) (programId : PublicKey.t)
  : result PublicKey.t :=
  (buffer <- concat_seeds seeds [] ;;
   let publicKeyBytes := Sha256.sha256 (pda_preimage buffer programId) in
   if Ed25519.isOnCurve publicKeyBytes then Throw Error
   else PublicKey.new publicKeyBytes)%result.

Definition is_TypeError (e : error) : bool :=
  match e with
  | TypeError => true
  | _ => false
  end.

(** The loop of [findProgramAddressSync], by recursion on the nonce: it
    tries [nonce], [nonce - 1], ... , 1, throws a [TypeError] again, goes
    on after any other exception, and throws when no nonce is left. *)
Fixpoint find_from (nonce : nat) (seeds : list Buffer.t) (programId : PublicKey.t)
  : result (PublicKey.t * Z) :=
  match nonce with
  | O => Throw Error
  | S nonce' =>
      match createProgramAddressSync (seeds ++ [[byte.of_Z (Z.of_nat nonce)]]) programId with
      | Ok address => Ok (address, Z.of_nat nonce)
      | Throw err =>
          if is_TypeError err then Throw err
          else find_from nonce' seeds programId
      end
  end.

Definition findProgramAddressSync (seeds : list Buffer.t) (programId : PublicKey.t)
  : result (PublicKey.t * Z) :=
  find_from 255 seeds programId.

(** A promise, as an async method hands it back: an object of its own that
    settles, later, to a value or to an exception. A caller that does not
    await it holds the promise and not the value. *)
Record Promise (A : Type) : Type := mkPromise {
  settled : result A
}.

Arguments mkPromise {A} settled.
Arguments settled {A} p.

(** [PublicKey.createWithSeed]: a hash of base key, tag and owner, with no
    search for a nonce. The method is async: the call returns at once with
    the promise of the key. *)
Definition createWithSeed (fromPublicKey : PublicKey.t) (seed : string)
    (programId : PublicKey.t) : Promise PublicKey.t :=
  mkPromise
    (PublicKey.new
       (Sha256.sha256
          (PublicKey.toBuffer fromPublicKey ++ Buffer.from_string seed
             ++ PublicKey.toBuffer programId))).

(** What a binding declared [PublicKey] holds when the code runs. The
    declared types are erased: the binding holds whatever its initialiser
    evaluated to, a key or the promise of one. *)
Inductive KeySlot : Type :=
| Key (key : PublicKey.t)
| Pending (promise : Promise PublicKey.t).

Coercion Key : PublicKey.t >-> KeySlot.

(** [value.toBuffer()]: a promise has no such method, and the call is a
    [TypeError]. *)
Definition KeySlot_toBuffer (value : KeySlot) : result Buffer.t :=
  match value with
  | Key key => Ok (PublicKey.toBuffer key)
  | Pending _ => Throw TypeError
  end.

(* ===================================================================== *)
(** ** sdk/pda *)
(* ===================================================================== *)

Record PdaResult : Type := mkPdaResult {
  address : PublicKey.t;
  bump : Z
}.

Definition pdaResult (r : result (PublicKey.t * Z)) : result PdaResult :=
  (p <- r ;; Ok (mkPdaResult (fst p) (snd p)))%result.

Definition deriveAuthorityPda (programId : PublicKey.t) : result PdaResult :=
  pdaResult (findProgramAddressSync [AUTHORITY_SEED] programId).

Definition deriveVaultPda (mint programId : PublicKey.t) : result PdaResult :=
  pdaResult (findProgramAddressSync [VAULT_SEED; PublicKey.toBuffer mint] programId).

Definition deriveEscrowPda (user slab mint programId : PublicKey.t) : result PdaResult :=
  pdaResult
    (findProgramAddressSync
       [ESCROW_SEED; PublicKey.toBuffer user; PublicKey.toBuffer slab;
        PublicKey.toBuffer mint]
       programId).

Definition deriveRegistryPda (programId : PublicKey.t) : result PdaResult :=
  pdaResult (findProgramAddressSync [REGISTRY_SEED] programId).

(** The seed list of an LP seat; [contextIdBuffer] is the last component. *)
Definition lpSeatSeeds (routerId matcherState portfolio : PublicKey.t)
    (contextIdBuffer : Buffer.t) : list Buffer.t :=
  [LP_SEAT_SEED; PublicKey.toBuffer routerId; PublicKey.toBuffer matcherState;
   PublicKey.toBuffer portfolio; contextIdBuffer].

(** [contextIdBuffer] of [deriveLpSeatPda]: four bytes written with
    [writeUInt32LE] at offset 0. *)
Definition contextIdBuffer (contextId : Z) : result Buffer.t :=
  Buffer.writeUInt32LE (Buffer.alloc 4) contextId 0.

Definition deriveLpSeatPda (routerId matcherState portfolio : PublicKey.t)
    (contextId : Z) (programId : PublicKey.t) : result PdaResult :=
  (buf <- contextIdBuffer contextId ;;
   pdaResult
     (findProgramAddressSync (lpSeatSeeds routerId matcherState portfolio buf) programId))%result.

(** The return type is declared [PublicKey]; what is returned is the
    promise [PublicKey.createWithSeed] hands back, as no [await] stands
    between the two. *)
Definition createPortfolioAddress (user programId : PublicKey.t) : KeySlot :=
  let seed := "portfolio"%string in
  Pending (createWithSeed user seed programId).

Definition deriveRouterSignerPda (programId : PublicKey.t) : result PdaResult :=
  pdaResult (findProgramAddressSync [ROUTER_SIGNER_SEED] programId).

Definition deriveInsuranceVaultPda (programId : PublicKey.t) : result PdaResult :=
  pdaResult (findProgramAddressSync [INSURANCE_VAULT_SEED] programId).

(** [nonceBuffer] of [deriveCapPda]: eight bytes written with
    [writeBigUInt64LE] at offset 0. *)
Definition nonceBuffer (nonce : Z) : result Buffer.t :=
  Buffer.writeBigUInt64LE (Buffer.alloc 8) nonce 0.

Definition deriveCapPda (user slab mint : PublicKey.t) (nonce : Z)
    (programId : PublicKey.t) : result PdaResult :=
  (buf <- nonceBuffer nonce ;;
   pdaResult
     (findProgramAddressSync
        [CAP_SEED; PublicKey.toBuffer user; PublicKey.toBuffer slab;
         PublicKey.toBuffer mint; buf]
        programId))%result.

Definition derivePortfolioPda (user programId : PublicKey.t) : result PdaResult :=
  pdaResult (findProgramAddressSync [PORTFOLIO_SEED; PublicKey.toBuffer user] programId).

Definition deriveVenuePnlPda (routerId matcherState programId : PublicKey.t)
  : result PdaResult :=
  pdaResult
    (findProgramAddressSync
       [VENUE_PNL_SEED; PublicKey.toBuffer routerId; PublicKey.toBuffer matcherState]
       programId).

(* ===================================================================== *)
(** ** sdk/types and the instruction record *)
(* ===================================================================== *)

Inductive Side : Type := Buy | Sell.

Definition Side_value (s : Side) : Z :=
  match s with
  | Buy => 0
  | Sell => 1
  end.

Inductive TimeInForce : Type := GTC | IOC | FOK.

Inductive MakerClass : Type := REG | DLP.

Record DepositParams : Type := mkDepositParams {
  amount : Z;
  mint : PublicKey.t
}.

Record PlaceOrderParams : Type := mkPlaceOrderParams {
  instrumentIdx : Z;
  side : Side;
  size : Z;
  price : Z;
  timeInForce : TimeInForce;
  makerClass : option MakerClass
}.

Record AccountMeta : Type := mkAccountMeta {
  pubkey : KeySlot;
  isSigner : bool;
  isWritable : bool
}.

Record TransactionInstruction : Type := mkTransactionInstruction {
  programId : PublicKey.t;
  keys : list AccountMeta;
  data : Buffer.t
}.

(** [WithdrawParams] declares the fields of [DepositParams]; the two
    interfaces are one structural type. *)
Definition WithdrawParams : Type := DepositParams.

Module AddLiquidityParams.

Record t : Type := mk {
  amount : Z;
  priceRange : option (Z * Z)
}.

End AddLiquidityParams.

Module RemoveLiquidityParams.

Record t : Type := mk {
  amount : Z;
  isPercentage : option bool
}.

End RemoveLiquidityParams.

Module Portfolio.

Record t : Type := mk {
  owner : PublicKey.t;
  equity : Z;
  marginUsed : Z;
  availableBalance : Z;
  unrealizedPnl : Z;
  realizedPnl : Z;
  totalDeposits : Z;
  totalWithdrawals : Z;
  positionCount : Z;
  bump : Z
}.

End Portfolio.

(* ===================================================================== *)
(** ** SystemProgram of @solana/web3.js *)
(* ===================================================================== *)

(** The parameter objects of [SystemProgram.createAccount] and
    [SystemProgram.createAccountWithSeed]. The two encoders themselves are
    parameters of the builders that call them. *)
Module CreateAccountParams.

Record t : Type := mk {
  fromPubkey : PublicKey.t;
  newAccountPubkey : PublicKey.t;
  lamports : Z;
  space : Z;
  programId : PublicKey.t
}.

End CreateAccountParams.

Module CreateAccountWithSeedParams.

Record t : Type := mk {
  fromPubkey : PublicKey.t;
  newAccountPubkey : KeySlot;
  basePubkey : PublicKey.t;
  seed : string;
  lamports : Z;
  space : Z;
  programId : PublicKey.t
}.

End CreateAccountWithSeedParams.

(** [array.map(f)] with a callback that may throw: the first exception
    ends the loop and no array is returned. *)
Fixpoint map_result {A B : Type} (f : A -> result B) (l : list A) : result (list B) :=
  match l with
  | [] => Ok []
  | a :: rest =>
      (b <- f a ;;
       bs <- map_result f rest ;;
       Ok (b :: bs))%result
  end.

(* ===================================================================== *)
(** ** sdk/instructions/router.ts *)
(* ===================================================================== *)

Definition createDepositInstruction (user : PublicKey.t) (params : DepositParams)
    (programId : PublicKey.t) : result TransactionInstruction :=
  (let portfolioAddress := createPortfolioAddress user programId in
   let instructionData := Buffer.alloc 9 in
   instructionData <- Buffer.writeUInt8 instructionData (discriminator Deposit) 0 ;;
   instructionData <- Buffer.writeBigUInt64LE instructionData (amount params) 1 ;;
   Ok (mkTransactionInstruction programId
         [ mkAccountMeta portfolioAddress false true;
           mkAccountMeta user true true;
           mkAccountMeta PublicKey.default false false ]
         instructionData))%result.

(** The wrapped SOL mint the cross-slab builder hard-codes. *)
Definition SOL_MINT : string := "So11111111111111111111111111111111111111112".

(** The seed list of the receipt is an array literal: its elements are
    evaluated in order, and [portfolioAddress.toBuffer()] is one of them. *)
Definition createExecuteCrossSlabInstruction (user slabPubkey oraclePubkey : PublicKey.t)
    (params : PlaceOrderParams) (programId : PublicKey.t) : result TransactionInstruction :=
  (let portfolioAddress := createPortfolioAddress user programId in
   solMint <- PublicKey_of_base58 SOL_MINT ;;
   vault <- deriveVaultPda solMint programId ;;
   registry <- deriveRegistryPda programId ;;
   authority <- deriveAuthorityPda programId ;;
   portfolioBytes <- KeySlot_toBuffer portfolioAddress ;;
   receipt <- findProgramAddressSync
                [ Buffer.from_string "receipt"; portfolioBytes;
                  PublicKey.toBuffer slabPubkey ]
                programId ;;
   let numSplits := 1 in
   let instructionData := Buffer.alloc (1 + 1 + 17) in
   instructionData <- Buffer.writeUInt8 instructionData (discriminator ExecuteCrossSlab) 0 ;;
   instructionData <- Buffer.writeUInt8 instructionData numSplits 1 ;;
   let sideByte := if Side_value (side params) =? 0 then 0 else 1 in
   instructionData <- Buffer.writeUInt8 instructionData sideByte 2 ;;
   instructionData <- Buffer.writeBigInt64LE instructionData (size params) 3 ;;
   instructionData <- Buffer.writeBigInt64LE instructionData (price params) 11 ;;
   Ok (mkTransactionInstruction programId
         [ mkAccountMeta portfolioAddress false true;
           mkAccountMeta user true false;
           mkAccountMeta (address vault) false true;
           mkAccountMeta (address registry) false true;
           mkAccountMeta (address authority) false false;
           mkAccountMeta PublicKey.default false false;
           mkAccountMeta oraclePubkey false false;
           mkAccountMeta slabPubkey false true;
           mkAccountMeta (fst receipt) false true ]
         instructionData))%result.

(** The seed list the reserve builder writes out for the LP seat, an array
    literal evaluated in order: the fourth seed is
    [portfolioAddress.toBuffer()], and the context id goes through a
    [Uint32Array] of the host. *)
Definition reserveLpSeatSeeds (host : Buffer.endianness)
    (programId matcherState : PublicKey.t) (portfolioAddress : KeySlot) (contextId : Z)
  : result (list Buffer.t) :=
  (portfolioBytes <- KeySlot_toBuffer portfolioAddress ;;
   Ok [ Buffer.from_string "lp_seat"; PublicKey.toBuffer programId;
        PublicKey.toBuffer matcherState; portfolioBytes;
        Buffer.from_Uint32Array host contextId ])%result.

Definition createRouterReserveInstruction (host : Buffer.endianness)
    (user matcherState : PublicKey.t) (amount contextId : Z) (programId : PublicKey.t)
  : result TransactionInstruction :=
  (let portfolioAddress := createPortfolioAddress user programId in
   seeds <- reserveLpSeatSeeds host programId matcherState portfolioAddress contextId ;;
   lpSeat <- findProgramAddressSync seeds programId ;;
   let instructionData := Buffer.alloc 13 in
   instructionData <- Buffer.writeUInt8 instructionData (discriminator RouterReserve) 0 ;;
   instructionData <- Buffer.writeBigUInt64LE instructionData amount 1 ;;
   instructionData <- Buffer.writeUInt32LE instructionData contextId 9 ;;
   Ok (mkTransactionInstruction programId
         [ mkAccountMeta portfolioAddress false true;
           mkAccountMeta user true false;
           mkAccountMeta matcherState false false;
           mkAccountMeta (fst lpSeat) false true;
           mkAccountMeta PublicKey.default false false ]
         instructionData))%result.

Definition createWithdrawInstruction (user : PublicKey.t) (params : WithdrawParams)
    (programId : PublicKey.t) : result TransactionInstruction :=
  (let portfolioAddress := createPortfolioAddress user programId in
   let instructionData := Buffer.alloc 9 in
   instructionData <- Buffer.writeUInt8 instructionData (discriminator Withdraw) 0 ;;
   instructionData <- Buffer.writeBigUInt64LE instructionData (amount params) 1 ;;
   Ok (mkTransactionInstruction programId
         [ mkAccountMeta portfolioAddress false true;
           mkAccountMeta user true true;
           mkAccountMeta PublicKey.default false false ]
         instructionData))%result.

Definition createRouterReleaseInstruction (host : Buffer.endianness)
    (user matcherState : PublicKey.t) (contextId : Z) (programId : PublicKey.t)
  : result TransactionInstruction :=
  (let portfolioAddress := createPortfolioAddress user programId in
   portfolioBytes <- KeySlot_toBuffer portfolioAddress ;;
   lpSeat <- findProgramAddressSync
               [ Buffer.from_string "lp_seat"; PublicKey.toBuffer programId;
                 PublicKey.toBuffer matcherState; portfolioBytes;
                 Buffer.from_Uint32Array host contextId ]
               programId ;;
   let instructionData := Buffer.alloc 5 in
   instructionData <- Buffer.writeUInt8 instructionData (discriminator RouterRelease) 0 ;;
   instructionData <- Buffer.writeUInt32LE instructionData contextId 1 ;;
   Ok (mkTransactionInstruction programId
         [ mkAccountMeta portfolioAddress false true;
           mkAccountMeta user true false;
           mkAccountMeta matcherState false false;
           mkAccountMeta (fst lpSeat) false true ]
         instructionData))%result.

Definition createLiquidateUserInstruction (liquidator targetUser programId : PublicKey.t)
  : result TransactionInstruction :=
  (let liquidatorPortfolio := createPortfolioAddress liquidator programId in
   let targetPortfolio := createPortfolioAddress targetUser programId in
   let instructionData := Buffer.alloc 33 in
   instructionData <- Buffer.writeUInt8 instructionData (discriminator LiquidateUser) 0 ;;
   let instructionData := Buffer.copy (PublicKey.toBuffer targetUser) instructionData 1 in
   Ok (mkTransactionInstruction programId
         [ mkAccountMeta liquidatorPortfolio false true;
           mkAccountMeta liquidator true false;
           mkAccountMeta targetPortfolio false true;
           mkAccountMeta PublicKey.default false false ]
         instructionData))%result.

Section PortfolioAccount.

(** [SystemProgram.createAccountWithSeed]. *)
Variable createAccountWithSeed :
  CreateAccountWithSeedParams.t -> result TransactionInstruction.

Definition createInitializePortfolioInstructions (user programId : PublicKey.t)
    (portfolioSize rentLamports : Z) : result (list TransactionInstruction) :=
  (let seed := "portfolio"%string in
   let portfolioAddress := createPortfolioAddress user programId in
   createAccountIx <- createAccountWithSeed
                        (CreateAccountWithSeedParams.mk user portfolioAddress user seed
                           rentLamports portfolioSize programId) ;;
   let instructionData := Buffer.alloc 33 in
   instructionData <- Buffer.writeUInt8 instructionData (discriminator InitializePortfolio) 0 ;;
   let instructionData := Buffer.copy (PublicKey.toBuffer user) instructionData 1 in
   let initializeIx :=
     mkTransactionInstruction programId
       [ mkAccountMeta portfolioAddress false true;
         mkAccountMeta user true true ]
       instructionData in
   Ok [createAccountIx; initializeIx])%result.

End PortfolioAccount.

(* ===================================================================== *)
(** ** The ledger as the SDK sees it *)
(* ===================================================================== *)

Record AccountInfo : Type := mkAccountInfo {
  owner : PublicKey.t;
  account_data : Buffer.t
}.

(** A snapshot of the ledger: the accounts with their addresses. *)
Definition Connection : Type := list (PublicKey.t * AccountInfo).

(** [connection.getProgramAccounts(programId, { filters: [{ dataSize }] })]. *)
Definition getProgramAccounts (connection : Connection) (programId : PublicKey.t)
    (dataSize : nat) : list (PublicKey.t * AccountInfo) :=
  filter
    (fun entry =>
       PublicKey.equals (owner (snd entry)) programId
       && (length (account_data (snd entry)) =? dataSize)%nat)
    connection.

(** [connection.getAccountInfo(address)]. *)
Definition getAccountInfo (connection : Connection) (address : PublicKey.t)
  : option AccountInfo :=
  option_map snd (find (fun entry => PublicKey.equals (fst entry) address) connection).

(* ===================================================================== *)
(** ** sdk/instructions/oracle.ts *)
(* ===================================================================== *)

Module Oracle.

Record PriceOracle : Type := mkPriceOracle {
  magic : Z;
  version : Z;
  bump : Z;
  authority : PublicKey.t;
  instrument : PublicKey.t;
  price : Z;
  timestamp : Z;
  confidence : Z
}.

Definition PRICE_ORACLE_SIZE : nat := 128.

(** "PRCLORCL" read as a little-endian 64-bit number. *)
Definition ORACLE_MAGIC : Z := 0x4c43524f4c435250.

(** [null] is [None]. *)
Definition parseOracleData (data : Buffer.t) : Eff Buffer.access (option PriceOracle) :=
  if (length data <? PRICE_ORACLE_SIZE)%nat then ret None
  else
    (magic <~ Buffer.readBigUInt64LE data 0 ;;
     if negb (magic =? ORACLE_MAGIC) then ret None
     else
       version <~ Buffer.readUInt8 data 8 ;;
       bump <~ Buffer.readUInt8 data 9 ;;
       authorityBytes <~ Buffer.subarray data 16 48 ;;
       authority <~ lift (PublicKey.new authorityBytes) ;;
       instrumentBytes <~ Buffer.subarray data 48 80 ;;
       instrument <~ lift (PublicKey.new instrumentBytes) ;;
       price <~ Buffer.readBigInt64LE data 80 ;;
       timestamp <~ Buffer.readBigInt64LE data 88 ;;
       confidence <~ Buffer.readBigInt64LE data 96 ;;
       ret (Some (mkPriceOracle magic version bump authority instrument
                    price timestamp confidence)))%eff.

(** The loop of [fetchAllOracles] over the accounts the ledger returned;
    [oracles] is the array built so far. *)
Fixpoint collect (accounts : list (PublicKey.t * AccountInfo))
    (oracles : list (PublicKey.t * PriceOracle))
  : Eff Buffer.access (list (PublicKey.t * PriceOracle)) :=
  match accounts with
  | [] => ret oracles
  | (pubkey, account) :: rest =>
      (parsed <~ parseOracleData (account_data account) ;;
       match parsed with
       | Some record => collect rest (oracles ++ [(pubkey, record)])
       | None => collect rest oracles
       end)%eff
  end.

Definition fetchAllOracles (connection : Connection) (programId : PublicKey.t)
  : Eff Buffer.access (list (PublicKey.t * PriceOracle)) :=
  collect (getProgramAccounts connection programId PRICE_ORACLE_SIZE) [].

Definition fetchOracle (connection : Connection) (oracleAddress : PublicKey.t)
  : Eff Buffer.access (option PriceOracle) :=
  match getAccountInfo connection oracleAddress with
  | None => ret None
  | Some accountInfo => parseOracleData (account_data accountInfo)
  end.

(** Instruction discriminators of the oracle program. *)
Inductive OracleInstruction : Type :=
| Initialize
| UpdatePrice.

Definition OracleInstruction_value (i : OracleInstruction) : Z :=
  match i with
  | Initialize => 0
  | UpdatePrice => 1
  end.

Definition createUpdatePriceInstruction (oracleAccount authority : PublicKey.t)
    (price confidence : Z) (programId : PublicKey.t) : result TransactionInstruction :=
  (let instructionData := Buffer.alloc 17 in
   instructionData <- Buffer.writeUInt8 instructionData
                        (OracleInstruction_value UpdatePrice) 0 ;;
   instructionData <- Buffer.writeBigInt64LE instructionData price 1 ;;
   instructionData <- Buffer.writeBigInt64LE instructionData confidence 9 ;;
   Ok (mkTransactionInstruction programId
         [ mkAccountMeta oracleAccount false true;
           mkAccountMeta authority true false ]
         instructionData))%result.

(** One element of the array given to the batch builder. *)
Module Update.

Record t : Type := mk {
  oracleAccount : PublicKey.t;
  authority : PublicKey.t;
  price : Z;
  confidence : Z
}.

End Update.

Definition createBatchUpdatePriceInstructions (updates : list Update.t)
    (programId : PublicKey.t) : result (list TransactionInstruction) :=
  map_result
    (fun u =>
       createUpdatePriceInstruction (Update.oracleAccount u) (Update.authority u)
         (Update.price u) (Update.confidence u) programId)
    updates.

Section OracleAccount.

(** [SystemProgram.createAccount]. *)
Variable createAccount : CreateAccountParams.t -> result TransactionInstruction.

Definition createInitializeOracleInstructions
    (oracleKeypair authority instrument : PublicKey.t) (initialPrice : Z)
    (programId : PublicKey.t) (rentLamports : Z) : result (list TransactionInstruction) :=
  (createAccountIx <- createAccount
                        (CreateAccountParams.mk authority oracleKeypair rentLamports
                           (Z.of_nat PRICE_ORACLE_SIZE) programId) ;;
   let bump := 0 in
   let instructionData := Buffer.alloc 10 in
   instructionData <- Buffer.writeUInt8 instructionData
                        (OracleInstruction_value Initialize) 0 ;;
   instructionData <- Buffer.writeBigInt64LE instructionData initialPrice 1 ;;
   instructionData <- Buffer.writeUInt8 instructionData bump 9 ;;
   let initializeIx :=
     mkTransactionInstruction programId
       [ mkAccountMeta oracleKeypair false true;
         mkAccountMeta authority true false;
         mkAccountMeta instrument false false ]
       instructionData in
   Ok [createAccountIx; initializeIx])%result.

End OracleAccount.

End Oracle.

(* ===================================================================== *)
(** ** lib/multisig: Squads governance *)
(* ===================================================================== *)

Module Multisig.

Record Member : Type := mkMember {
  key : PublicKey.t;
  permissions : Z
}.

(** The fields of a Squads multisig account that the helpers read. *)
Record MultisigAccount : Type := mkMultisigAccount {
  threshold : Z;
  members : list Member;
  transactionIndex : Z;
  rentCollector : option PublicKey.t
}.

(** The object [getMultisigInfo] returns. *)
Module MultisigInfo.

Record t : Type := mk {
  address : PublicKey.t;
  threshold : Z;
  members : list Member;
  transactionIndex : Z;
  rentCollector : option PublicKey.t
}.

End MultisigInfo.

(** The JavaScript values the proposal loop handles. The loop reads the
    properties of the objects it is given by name, so these objects are
    modelled as they are when the code runs. *)
#[warnings="-register-all"]
Inductive Value : Type :=
| Undefined
| Text (s : string)
| Number (n : Z)
| Bytes (b : Buffer.t)
| KeyOf (k : PublicKey.t)
| Array (items : list Value)
| Object (properties : list (string * Value)).

(** [value[name]], for the names the loop reads: [status], [approved] and
    [transactionIndex] of an account object, [__kind] of its status, and
    [length] of what [some] was called on, an array or a byte array.
    Reading a property of [undefined] is a [TypeError]; a property a value
    does not have reads as [undefined]. *)
Definition get (value : Value) (name : string) : result Value :=
  match value with
  | Undefined => Throw TypeError
  | Object properties =>
      match find (fun property => String.eqb (fst property) name) properties with
      | Some property => Ok (snd property)
      | None => Ok Undefined
      end
  | Array items =>
      if String.eqb name "length" then Ok (Number (Z.of_nat (length items)))
      else Ok Undefined
  | Bytes b =>
      if String.eqb name "length" then Ok (Number (Z.of_nat (length b)))
      else Ok Undefined
  | Text _ | Number _ | KeyOf _ => Ok Undefined
  end.

(** [value === text]. *)
Definition is_text (value : Value) (text : string) : bool :=
  match value with
  | Text s => String.eqb s text
  | _ => false
  end.

(** [approval.equals(walletAddress)]: a key compares; the [equals] of a
    buffer rejects a key with a [TypeError]; no other value has the
    method. *)
Definition approval_equals (approval : Value) (walletAddress : PublicKey.t)
  : result bool :=
  match approval with
  | KeyOf k => Ok (PublicKey.equals k walletAddress)
  | _ => Throw TypeError
  end.

(** [items.some(approval => approval.equals(walletAddress))] on the
    elements of an array: it stops at the first [true]. *)
Fixpoint some_equals (items : list Value) (walletAddress : PublicKey.t) : result bool :=
  match items with
  | [] => Ok false
  | approval :: rest =>
      (found <- approval_equals approval walletAddress ;;
       if (found : bool) then Ok true else some_equals rest walletAddress)%result
  end.

(** [approved.some(...)]: arrays and byte arrays have the method, whose
    callback then meets the elements; on anything else the call is a
    [TypeError]. *)
Definition approved_some (approved : Value) (walletAddress : PublicKey.t)
  : result bool :=
  match approved with
  | Array items => some_equals items walletAddress
  | Bytes b => some_equals (map (fun x => Number (byte.unsigned x)) b) walletAddress
  | _ => Throw TypeError
  end.

(** The object [getProgramAccounts] returns for an account; of its
    properties ([data], [executable], [lamports], [owner], [rentEpoch])
    the model keeps the two that [AccountInfo] has. *)
Definition account_object (info : AccountInfo) : Value :=
  Object [ ("data"%string, Bytes (account_data info));
           ("owner"%string, KeyOf (owner info)) ].

Module PendingProposal.

Record t : Type := mk {
  address : PublicKey.t;
  transactionIndex : Value;
  approved : Value;
  required : Z
}.

End PendingProposal.

Section Squads.

(** The account codec of @sqds/multisig: it throws on bytes that are not a
    multisig account. *)
Variable deserialize : Buffer.t -> result MultisigAccount.

(** [multisig.accounts.Multisig.fromAccountAddress]: one request to the
    ledger, logged with the address asked for; a missing account and bytes
    that do not decode both throw. *)
Definition fromAccountAddress (connection : Connection) (address : PublicKey.t)
  : Eff PublicKey.t MultisigAccount :=
  ([address],
   match getAccountInfo connection address with
   | Some info => deserialize (account_data info)
   | None => Throw Error
   end).

(** [try { ... return multisigAccount !== null } catch { return false }]. *)
Definition isSquadsMultisig (connection : Connection) (address : PublicKey.t)
  : Eff PublicKey.t bool :=
  match fromAccountAddress connection address with
  | (log, Ok _) => (log, Ok true)
  | (log, Throw _) => (log, Ok false)
  end.

Definition isMultisigMember (connection : Connection)
    (multisigAddress walletAddress : PublicKey.t) : Eff PublicKey.t bool :=
  match fromAccountAddress connection multisigAddress with
  | (log, Ok multisigAccount) =>
      (log, Ok (existsb (fun member => PublicKey.equals (key member) walletAddress)
                  (members multisigAccount)))
  | (log, Throw _) => (log, Ok false)
  end.

Definition hasGovernancePermission (connection : Connection)
    (governanceAddress walletAddress : PublicKey.t) : Eff PublicKey.t bool :=
  if PublicKey.equals walletAddress governanceAddress then ret true
  else
    (isMultisig <~ isSquadsMultisig connection governanceAddress ;;
     if (isMultisig : bool)
     then isMultisigMember connection governanceAddress walletAddress
     else ret false)%eff.

Definition getMultisigInfo (connection : Connection) (multisigAddress : PublicKey.t)
  : Eff PublicKey.t (option MultisigInfo.t) :=
  match fromAccountAddress connection multisigAddress with
  | (log, Ok multisigAccount) =>
      (log,
       Ok (Some
             (MultisigInfo.mk multisigAddress (threshold multisigAccount)
                (map (fun member => mkMember (key member) (permissions member))
                   (members multisigAccount))
                (transactionIndex multisigAccount) (rentCollector multisigAccount))))
  | (log, Throw _) => (log, Ok None)
  end.

(** [Proposal.gpaBuilder().addFilter('multisig', multisigAddress).run]:
    the builder hands back what [connection.getProgramAccounts] returns,
    the proposal accounts of a multisig with their addresses, not
    decoded. *)
Variable proposalAccounts :
  Connection -> PublicKey.t -> result (list (PublicKey.t * AccountInfo)).

(** The loop of [getPendingProposals]; [pending] is the array built so
    far and [required] the threshold of the multisig. The properties of
    the pushed object are evaluated in the order they are written. *)
Fixpoint pendingLoop (proposals : list (PublicKey.t * AccountInfo))
    (walletAddress : PublicKey.t) (required : Z) (pending : list PendingProposal.t)
  : result (list PendingProposal.t) :=
  match proposals with
  | [] => Ok pending
  | (pubkey, account) :: rest =>
      (let proposal := account_object account in
       status <- get proposal "status" ;;
       kind <- get status "__kind" ;;
       pending <-
         (if is_text kind "Active"
          then
            approved <- get proposal "approved" ;;
            hasApproved <- approved_some approved walletAddress ;;
            if negb hasApproved
            then
              transactionIndex <- get proposal "transactionIndex" ;;
              approvedLength <- get approved "length" ;;
              Ok (pending
                    ++ [PendingProposal.mk pubkey transactionIndex approvedLength
                          required])
            else Ok pending
          else Ok pending) ;;
       pendingLoop rest walletAddress required pending)%result
  end.

(** The second request is logged with the multisig address it filters
    on; any exception, of either request or of the loop, gives the empty
    array. *)
Definition getPendingProposals (connection : Connection)
    (multisigAddress walletAddress : PublicKey.t)
  : Eff PublicKey.t (list PendingProposal.t) :=
  match fromAccountAddress connection multisigAddress with
  | (log, Ok multisigAccount) =>
      match proposalAccounts connection multisigAddress with
      | Ok proposals =>
          (log ++ [multisigAddress],
           match pendingLoop proposals walletAddress (threshold multisigAccount) [] with
           | Ok pending => Ok pending
           | Throw _ => Ok []
           end)
      | Throw _ => (log ++ [multisigAddress], Ok [])
      end
  | (log, Throw _) => (log, Ok [])
  end.

(** It makes no request and always throws. *)
Definition createMultisigProposal {Message : Type} (connection : Connection)
    (multisigAddress creator : PublicKey.t) (transactionMessage : Message)
    (memo : option string) : Eff PublicKey.t unit :=
  lift (Throw Error).

End Squads.

End Multisig.

(* ===================================================================== *)
(** ** sdk/client.ts *)
(* ===================================================================== *)

Module PercolatorClient.

(** A signer is a key pair; the client reads its public key only. *)
Record Signer : Type := mkSigner {
  publicKey : PublicKey.t;
  secretKey : list byte
}.

(** A transaction: its instructions in order and, once set, a recent
    blockhash. *)
Record Transaction : Type := mkTransaction {
  instructions : list TransactionInstruction;
  recentBlockhash : option string
}.

(** [new Transaction()]. *)
Definition Transaction_new : Transaction := mkTransaction [] None.

(** [transaction.add(...items)]: with no item it throws. *)
Definition add (transaction : Transaction) (items : list TransactionInstruction)
  : result Transaction :=
  match items with
  | [] => Throw Error
  | _ => Ok (mkTransaction (instructions transaction ++ items)
               (recentBlockhash transaction))
  end.

(** What the client asks of the cluster, with the commitment it passes. *)
Inductive Request : Type :=
| GetAccountInfo (address : PublicKey.t) (commitment : string)
| GetMinimumBalanceForRentExemption (dataLength : Z) (commitment : string)
| GetLatestBlockhash (commitment : string)
| SendAndConfirmTransaction (transaction : Transaction) (signers : list Signer)
    (commitment : string).

Module Config.

Record t : Type := mk {
  connection : Connection;
  routerProgramId : PublicKey.t;
  slabProgramId : option PublicKey.t;
  ammProgramId : option PublicKey.t;
  oracleProgramId : option PublicKey.t;
  commitment : option string
}.

End Config.

Record t : Type := mk {
  connection : Connection;
  routerProgramId : PublicKey.t;
  slabProgramId : option PublicKey.t;
  ammProgramId : option PublicKey.t;
  oracleProgramId : option PublicKey.t;
  commitment : string
}.

(** The constructor; [config.commitment || 'confirmed']. *)
Definition new (config : Config.t) : t :=
  mk (Config.connection config) (Config.routerProgramId config)
    (Config.slabProgramId config) (Config.ammProgramId config)
    (Config.oracleProgramId config)
    match Config.commitment config with
    | Some c => if String.eqb c EmptyString then "confirmed"%string else c
    | None => "confirmed"%string
    end.

Section Cluster.

(** The answers of the cluster that the ledger snapshot does not hold,
    the system-program encoder and the byte order of the host. *)
Variable minimumBalanceForRentExemption : Z -> Z.
Variable latestBlockhash : string.
Variable confirm : Transaction -> list Signer -> result string.
Variable createAccountWithSeed :
  CreateAccountWithSeedParams.t -> result TransactionInstruction.
Variable host : Buffer.endianness.

Definition getPortfolioAddress (client : t) (user : PublicKey.t) : KeySlot :=
  createPortfolioAddress user (routerProgramId client).

(** [this.connection.getAccountInfo(address, this.commitment)]: the
    connection encodes the address in base 58 before it sends anything,
    and a value without [toBase58] is a [TypeError] with no request
    made. *)
Definition requestAccountInfo (client : t) (address : KeySlot)
  : Eff Request (option AccountInfo) :=
  match address with
  | Key key =>
      ([GetAccountInfo key (commitment client)],
       Ok (getAccountInfo (connection client) key))
  | Pending _ => lift (Throw TypeError)
  end.

Definition sendAndConfirmTransaction (client : t) (transaction : Transaction)
    (signers : list Signer) : Eff Request string :=
  ([SendAndConfirmTransaction transaction signers (commitment client)],
   confirm transaction signers).

Definition portfolioExists (client : t) (user : PublicKey.t) : Eff Request bool :=
  (let portfolioAddress := getPortfolioAddress client user in
   accountInfo <~ requestAccountInfo client portfolioAddress ;;
   ret match accountInfo with
       | Some info => PublicKey.equals (owner info) (routerProgramId client)
       | None => false
       end)%eff.

Definition initializePortfolio (client : t) (signer : Signer) : Eff Request string :=
  (let user := publicKey signer in
   exists_ <~ portfolioExists client user ;;
   if (exists_ : bool) then lift (Throw Error)
   else
     let portfolioSize := 135000 in
     rentLamports <~ ([GetMinimumBalanceForRentExemption portfolioSize (commitment client)],
                      Ok (minimumBalanceForRentExemption portfolioSize)) ;;
     instructions <~ lift (createInitializePortfolioInstructions createAccountWithSeed
                             user (routerProgramId client) portfolioSize rentLamports) ;;
     transaction <~ lift (add Transaction_new instructions) ;;
     sendAndConfirmTransaction client transaction [signer])%eff.

Definition getPortfolio (client : t) (user : PublicKey.t)
  : Eff Request (option Portfolio.t) :=
  (let portfolioAddress := getPortfolioAddress client user in
   accountInfo <~ requestAccountInfo client portfolioAddress ;;
   ret match accountInfo with
       | Some info =>
           if negb (PublicKey.equals (owner info) (routerProgramId client)) then None
           else Some (Portfolio.mk user 0 0 0 0 0 0 0 0 0)
       | None => None
       end)%eff.

Definition deposit (client : t) (signer : Signer) (params : DepositParams)
  : Eff Request string :=
  (let user := publicKey signer in
   exists_ <~ portfolioExists client user ;;
   if negb exists_ then lift (Throw Error)
   else
     instruction <~ lift (createDepositInstruction user params (routerProgramId client)) ;;
     transaction <~ lift (add Transaction_new [instruction]) ;;
     sendAndConfirmTransaction client transaction [signer])%eff.

Definition withdraw (client : t) (signer : Signer) (params : WithdrawParams)
  : Eff Request string :=
  (let user := publicKey signer in
   exists_ <~ portfolioExists client user ;;
   if negb exists_ then lift (Throw Error)
   else
     instruction <~ lift (createWithdrawInstruction user params (routerProgramId client)) ;;
     transaction <~ lift (add Transaction_new [instruction]) ;;
     sendAndConfirmTransaction client transaction [signer])%eff.

Definition placeOrder (client : t) (signer : Signer) (slabPubkey oraclePubkey : PublicKey.t)
    (params : PlaceOrderParams) : Eff Request string :=
  (let user := publicKey signer in
   exists_ <~ portfolioExists client user ;;
   if negb exists_ then lift (Throw Error)
   else
     instruction <~ lift (createExecuteCrossSlabInstruction user slabPubkey oraclePubkey
                            params (routerProgramId client)) ;;
     transaction <~ lift (add Transaction_new [instruction]) ;;
     sendAndConfirmTransaction client transaction [signer])%eff.

(** [contextId] is optional and defaults to 0. *)
Definition addLiquidity (client : t) (signer : Signer) (matcherState : PublicKey.t)
    (params : AddLiquidityParams.t) (contextId : option Z) : Eff Request string :=
  (let contextId := match contextId with Some c => c | None => 0 end in
   let user := publicKey signer in
   exists_ <~ portfolioExists client user ;;
   if negb exists_ then lift (Throw Error)
   else
     reserveIx <~ lift (createRouterReserveInstruction host user matcherState
                          (AddLiquidityParams.amount params) contextId
                          (routerProgramId client)) ;;
     transaction <~ lift (add Transaction_new [reserveIx]) ;;
     sendAndConfirmTransaction client transaction [signer])%eff.

Definition removeLiquidity (client : t) (signer : Signer) (matcherState : PublicKey.t)
    (params : RemoveLiquidityParams.t) (contextId : option Z) : Eff Request string :=
  (let contextId := match contextId with Some c => c | None => 0 end in
   let user := publicKey signer in
   releaseIx <~ lift (createRouterReleaseInstruction host user matcherState contextId
                        (routerProgramId client)) ;;
   transaction <~ lift (add Transaction_new [releaseIx]) ;;
   sendAndConfirmTransaction client transaction [signer])%eff.

Definition liquidateUser (client : t) (liquidator : Signer) (targetUser : PublicKey.t)
  : Eff Request string :=
  (instruction <~ lift (createLiquidateUserInstruction (publicKey liquidator) targetUser
                          (routerProgramId client)) ;;
   transaction <~ lift (add Transaction_new [instruction]) ;;
   sendAndConfirmTransaction client transaction [liquidator])%eff.

Definition buildTransaction (client : t) (instructions : list TransactionInstruction)
  : Eff Request Transaction :=
  (transaction <~ lift (add Transaction_new instructions) ;;
   blockhash <~ ([GetLatestBlockhash (commitment client)], Ok latestBlockhash) ;;
   ret (mkTransaction (PercolatorClient.instructions transaction) (Some blockhash)))%eff.

End Cluster.

End PercolatorClient.

(* ===================================================================== *)
(** ** app/admin/components/OracleMonitor.tsx *)
(* ===================================================================== *)

Module OracleMonitor.

(** The numbers of the component: integers held in doubles, and
    [Infinity]. *)
Inductive number : Type :=
| Finite (z : Z)
| Infinity.

Definition ltb (a b : number) : bool :=
  match a, b with
  | Finite x, Finite y => x <? y
  | Finite _, Infinity => true
  | Infinity, _ => false
  end.

Definition leb (a b : number) : bool :=
  match a, b with
  | Finite x, Finite y => x <=? y
  | _, Infinity => true
  | Infinity, Finite _ => false
  end.

(** The double nearest to an integer, ties to the even mantissa: what
    [Number(bigint)] returns, and what a subtraction of two integers held
    in doubles returns. It is the integer itself below 2^53. *)
Definition round53 (z : Z) : Z :=
  let a := Z.abs z in
  if a <? 2 ^ 53 then z
  else
    let e := Z.log2 a - 52 in
    let q := Z.shiftr a e in
    let r := a - Z.shiftl q e in
    let half := Z.shiftl 1 (e - 1) in
    let q' := if r <? half then q
              else if half <? r then q + 1
              else if Z.even q then q else q + 1 in
    Z.sgn z * Z.shiftl q' e.

Inductive Status : Type :=
| healthy
| warning
| stale
| error_.

Definition Status_eqb (a b : Status) : bool :=
  match a, b with
  | healthy, healthy | warning, warning | stale, stale | error_, error_ => true
  | _, _ => false
  end.

Record OracleDisplayStatus : Type := mkOracleDisplayStatus {
  instrument : string;
  address : PublicKey.t;
  price : Z;
  timestamp : Z;
  confidence : Z;
  authority : PublicKey.t;
  isStale : bool;
  age : number;
  status : Status
}.

Definition HEALTHY_THRESHOLD : Z := 30.
Definition WARNING_THRESHOLD : Z := 60.

Definition classifyStatus (age : number) : Status :=
  if ltb age (Finite 0) then error_
  else if leb age (Finite HEALTHY_THRESHOLD) then healthy
  else if leb age (Finite WARNING_THRESHOLD) then warning
  else stale.

(** The callback that [loadOracles] maps over the fetched oracles; [now]
    is [Math.floor(Date.now() / 1000)]. *)
Definition displayOracle (now : Z) (entry : PublicKey.t * Oracle.PriceOracle)
  : OracleDisplayStatus :=
  let (address, data) := entry in
  let timestamp := round53 (Oracle.timestamp data) in
  let age := if 0 <? timestamp then Finite (round53 (now - timestamp)) else Infinity in
  let status := classifyStatus age in
  let instrumentName :=
    (String.substring 0 8 (PublicKey_toBase58 (Oracle.instrument data)) ++ "...")%string in
  mkOracleDisplayStatus instrumentName address (Oracle.price data) timestamp
    (Oracle.confidence data) (Oracle.authority data)
    (Status_eqb status stale)
    match age with
    | Infinity => Finite (-1)
    | Finite _ => age
    end
    status.

End OracleMonitor.

(* ===================================================================== *)
(** ** app/admin/components/PermissionGuard.tsx *)
(* ===================================================================== *)

Module PermissionGuard.

Inductive Permission : Type :=
| PUBLIC
| GOVERNANCE
| INSURANCE.

(** The two settings of [process.env] that the component reads. *)
Record Env : Type := mkEnv {
  NEXT_PUBLIC_GOVERNANCE_WALLET : option string;
  NEXT_PUBLIC_INSURANCE_AUTHORITY : option string
}.

(** [value ? new PublicKey(value) : null]: an unset or empty setting is
    [null], any other string is decoded and may throw. *)
Definition env_key (value : option string) : result (option PublicKey.t) :=
  match value with
  | Some text =>
      if String.eqb text EmptyString then Ok None
      else (k <- PublicKey_of_base58 text ;; Ok (Some k))%result
  | None => Ok None
  end.

(** [authority !== null && wallet.publicKey.equals(authority)]. *)
Definition is_authority (publicKey : PublicKey.t) (authority : option PublicKey.t)
  : bool :=
  match authority with
  | Some a => PublicKey.equals publicKey a
  | None => false
  end.

(** The two state variables of the component. *)
Record State : Type := mkState {
  hasPermission : bool;
  loading : bool
}.

(** [useState(false)] and [useState(true)]. *)
Definition initial : State := mkState false true.

Definition setHasPermission (b : bool) (st : State) : State := mkState b (loading st).

Definition setLoading (b : bool) (st : State) : State := mkState (hasPermission st) b.

(** The effect [checkPermission], as the state it leaves; [publicKey] is
    [wallet.publicKey], [None] without a connected wallet. *)
Definition checkPermission (env : Env) (publicKey : option PublicKey.t)
    (requiredPermission : Permission) (st : State) : State :=
  let st := setLoading true st in
  match requiredPermission with
  | PUBLIC => setLoading false (setHasPermission true st)
  | _ =>
      match publicKey with
      | None => setLoading false (setHasPermission false st)
      | Some publicKey =>
          let attempt :=
            (governanceWallet <- env_key (NEXT_PUBLIC_GOVERNANCE_WALLET env) ;;
             insuranceAuthority <- env_key (NEXT_PUBLIC_INSURANCE_AUTHORITY env) ;;
             Ok match requiredPermission with
                | GOVERNANCE =>
                    setHasPermission (is_authority publicKey governanceWallet) st
                | INSURANCE =>
                    setHasPermission (is_authority publicKey insuranceAuthority) st
                | PUBLIC => st
                end)%result in
          setLoading false
            match attempt with
            | Ok st' => st'
            | Throw _ => setHasPermission false st
            end
      end
  end.

(** What the component renders. *)
Inductive View : Type :=
| Spinner
| Fallback
| AccessRestricted
| Children.

Definition render (hasFallback : bool) (st : State) : View :=
  if loading st then Spinner
  else if negb (hasPermission st)
       then if hasFallback then Fallback else AccessRestricted
       else Children.

(** The state of the hook [usePermissions]. *)
Record Permissions : Type := mkPermissions {
  isGovernance : bool;
  isInsuranceAuth : bool;
  permissions_loading : bool
}.

(** The effect [checkPermissions] of the hook, as the state it sets. *)
Definition checkPermissions (env : Env) (publicKey : option PublicKey.t) : Permissions :=
  match publicKey with
  | None => mkPermissions false false false
  | Some publicKey =>
      let attempt :=
        (governanceWallet <- env_key (NEXT_PUBLIC_GOVERNANCE_WALLET env) ;;
         insuranceAuthority <- env_key (NEXT_PUBLIC_INSURANCE_AUTHORITY env) ;;
         Ok (mkPermissions (is_authority publicKey governanceWallet)
               (is_authority publicKey insuranceAuthority) false))%result in
      match attempt with
      | Ok permissions => permissions
      | Throw _ => mkPermissions false false false
      end
  end.

(** What [AuthorityBadge] shows; [NoBadge] is [null]. *)
Inductive Badge : Type :=
| NoBadge
| GovernanceBadge
| InsuranceAuthorityBadge
| ViewOnlyBadge.

Definition AuthorityBadge (permissions : Permissions) : Badge :=
  if permissions_loading permissions then NoBadge
  else if isGovernance permissions then GovernanceBadge
  else if isInsuranceAuth permissions then InsuranceAuthorityBadge
  else ViewOnlyBadge.

End PermissionGuard.

(* ===================================================================== *)
(** ** app/admin/components/ConfirmationModal.tsx *)
(* ===================================================================== *)

Module ConfirmationModal.

(** The two state variables of the modal. *)
Record State : Type := mkState {
  typedText : string;
  loading : bool
}.

(** [useState('')] and [useState(false)]. *)
Definition initial : State := mkState EmptyString false.

(** The callbacks of the properties that a handler invokes. *)
Inductive Callback : Type :=
| OnConfirm
| OnClose.

(** [requireTyping ? typedText === requireTyping : true]; an unset or
    empty [requireTyping] asks for nothing. *)
Definition isConfirmEnabled (requireTyping : option string) (st : State) : bool :=
  match requireTyping with
  | Some text => if String.eqb text EmptyString then true else String.eqb (typedText st) text
  | None => true
  end.

(** [onChange] of the input. *)
Definition setTypedText (text : string) (st : State) : State := mkState text (loading st).

(** [handleConfirm]: the callbacks it invokes, in order, and the state it
    leaves; [onConfirm] is the outcome of the action of the caller. *)
Definition handleConfirm (requireTyping : option string) (onConfirm : result unit)
    (st : State) : list Callback * State :=
  if negb (isConfirmEnabled requireTyping st) then ([], st)
  else
    let st := mkState (typedText st) true in
    let invoked :=
      match onConfirm with
      | Ok _ => [OnConfirm; OnClose]
      | Throw _ => [OnConfirm]
      end in
    (invoked, mkState EmptyString false).

Definition handleClose (st : State) : list Callback * State :=
  ([OnClose], mkState EmptyString (loading st)).

End ConfirmationModal.

(* ===================================================================== *)
(** ** Notions used to state the properties *)
(* ===================================================================== *)

(** Did a computation return, rather than throw? *)
Definition is_ok {A : Type} (r : result A) : bool :=
  match r with
  | Ok _ => true
  | Throw _ => false
  end.

(** The payload of the instruction a builder returned. *)
Definition payload (r : result TransactionInstruction) : option Buffer.t :=
  match r with
  | Ok ix => Some (data ix)
  | Throw _ => None
  end.

(** What the fixed layout of the oracle record prescribes for each field. *)
Definition layout_record (data : Buffer.t) : Oracle.PriceOracle :=
  Oracle.mkPriceOracle
    (le_combine (Buffer.window data 0 8))
    (le_combine (Buffer.window data 8 1))
    (le_combine (Buffer.window data 9 1))
    (word.of_Z (PublicKey.be_combine (Buffer.window data 16 32)))
    (word.of_Z (PublicKey.be_combine (Buffer.window data 48 32)))
    (Buffer.to_signed 8 (le_combine (Buffer.window data 80 8)))
    (Buffer.to_signed 8 (le_combine (Buffer.window data 88 8)))
    (Buffer.to_signed 8 (le_combine (Buffer.window data 96 8))).

(** The decoder as a pure function: the two guards, then the layout. *)
Definition decodeOracle (data : Buffer.t) : option Oracle.PriceOracle :=
  if (length data <? Oracle.PRICE_ORACLE_SIZE)%nat then None
  else if le_combine (Buffer.window data 0 8) =? Oracle.ORACLE_MAGIC
       then Some (layout_record data)
       else None.

(** The accesses of a successful decode of a buffer of [len] bytes. *)
Definition oracle_accesses (len : nat) : list Buffer.access :=
  map (fun p => Buffer.mkAccess len (fst p) (snd p))
    [ (0, 8); (8, 1); (9, 1); (16, 32); (48, 32); (80, 8); (88, 8); (96, 8) ]%nat.

(** What one account contributes to a batch: its address with the record
    when the decoder returns one, nothing otherwise. *)
Definition oracle_entry (entry : PublicKey.t * AccountInfo)
  : list (PublicKey.t * Oracle.PriceOracle) :=
  match outcome (Oracle.parseOracleData (account_data (snd entry))) with
  | Ok (Some record) => [(fst entry, record)]
  | _ => []
  end.

(** Membership as a proposition. *)
Definition is_member (k : PublicKey.t) (acc : Multisig.MultisigAccount) : Prop :=
  In k (map Multisig.key (Multisig.members acc)).

(** The codec with every decoded threshold replaced through [f]. *)
Definition retarget (f : Z -> Z) (deserialize : Buffer.t -> result Multisig.MultisigAccount)
    (bs : Buffer.t) : result Multisig.MultisigAccount :=
  match deserialize bs with
  | Ok acc =>
      Ok (Multisig.mkMultisigAccount (f (Multisig.threshold acc)) (Multisig.members acc)
            (Multisig.transactionIndex acc) (Multisig.rentCollector acc))
  | Throw e => Throw e
  end.

(** The key that [SOL_MINT] spells. *)
Definition sol_mint : PublicKey.t :=
  word.of_Z 0x069b8857feab8184fb687f634618c035dac439dc1aeb3b5598a0f00000000001.

(** Did two derivations both succeed, on different addresses? *)
Definition distinct_addresses (a b : result PdaResult) : bool :=
  match a, b with
  | Ok r1, Ok r2 => negb (PublicKey.equals (address r1) (address r2))
  | _, _ => false
  end.

(** The bump a derivation found. *)
Definition bump_of (r : result PdaResult) : option Z :=
  match r with
  | Ok p => Some (bump p)
  | Throw _ => None
  end.

(** The three accounts of a deposit or a withdrawal, for what the
    portfolio place holds. *)
Definition collateral_keys (user : PublicKey.t) (portfolio : KeySlot)
  : list AccountMeta :=
  [ mkAccountMeta portfolio false true;
    mkAccountMeta user true true;
    mkAccountMeta PublicKey.default false false ].

(** A value that [writeBigInt64LE] accepts. *)
Definition is_i64 (v : Z) : bool := (- 2 ^ 63 <=? v) && (v <=? 2 ^ 63 - 1).

(** The two accounts of a price update. *)
Definition update_keys (oracleAccount authority : PublicKey.t) : list AccountMeta :=
  [ mkAccountMeta oracleAccount false true;
    mkAccountMeta authority true false ].

(** The instruction of one element of a batch. *)
Definition update_instruction (pid : PublicKey.t) (u : Oracle.Update.t)
  : result TransactionInstruction :=
  Oracle.createUpdatePriceInstruction (Oracle.Update.oracleAccount u)
    (Oracle.Update.authority u) (Oracle.Update.price u) (Oracle.Update.confidence u) pid.

(** Are the price and the confidence of an update 64-bit signed? *)
Definition update_in_range (u : Oracle.Update.t) : bool :=
  is_i64 (Oracle.Update.price u) && is_i64 (Oracle.Update.confidence u).

(** No two accounts of a ledger snapshot share an address. *)
Fixpoint unique_addresses (c : Connection) : bool :=
  match c with
  | [] => true
  | entry :: rest =>
      negb (existsb (fun other => PublicKey.equals (fst other) (fst entry)) rest)
      && unique_addresses rest
  end.

(** The bytes of an oracle account that holds the record [r]: the fields
    at the offsets of the layout, around the paddings [pad1] and [pad2]. *)
Definition oracle_layout (r : Oracle.PriceOracle) (pad1 pad2 : list byte) : Buffer.t :=
  le_split 8 (Oracle.magic r) ++ le_split 1 (Oracle.version r)
    ++ le_split 1 (Oracle.bump r) ++ pad1
    ++ PublicKey.toBuffer (Oracle.authority r)
    ++ PublicKey.toBuffer (Oracle.instrument r)
    ++ le_split 8 (Oracle.price r) ++ le_split 8 (Oracle.timestamp r)
    ++ le_split 8 (Oracle.confidence r) ++ pad2.

(** The records an oracle account can hold: the magic of the program,
    one-byte version and bump, 64-bit signed price, timestamp and
    confidence. *)
Definition oracle_record_ok (r : Oracle.PriceOracle) : Prop :=
  Oracle.magic r = Oracle.ORACLE_MAGIC /\
  0 <= Oracle.version r < 256 /\
  0 <= Oracle.bump r < 256 /\
  - 2 ^ 63 <= Oracle.price r < 2 ^ 63 /\
  - 2 ^ 63 <= Oracle.timestamp r < 2 ^ 63 /\
  - 2 ^ 63 <= Oracle.confidence r < 2 ^ 63.

(** The ten kinds of derived address of [sdk/pda], with their arguments. *)
Inductive PdaRequest : Type :=
| AuthorityPda
| RouterSignerPda
| InsuranceVaultPda
| VaultPda (mint : PublicKey.t)
| EscrowPda (user slab mint : PublicKey.t)
| CapPda (user slab mint : PublicKey.t) (nonce : Z)
| PortfolioPda (user : PublicKey.t)
| RegistryPda
| LpSeatPda (routerId matcherState portfolio : PublicKey.t) (contextId : Z)
| VenuePnlPda (routerId matcherState : PublicKey.t).

(** The helper of [sdk/pda] that serves a request. *)
Definition derive (q : PdaRequest) (pid : PublicKey.t) : result PdaResult :=
  match q with
  | AuthorityPda => deriveAuthorityPda pid
  | RouterSignerPda => deriveRouterSignerPda pid
  | InsuranceVaultPda => deriveInsuranceVaultPda pid
  | VaultPda mint => deriveVaultPda mint pid
  | EscrowPda user slab mint => deriveEscrowPda user slab mint pid
  | CapPda user slab mint nonce => deriveCapPda user slab mint nonce pid
  | PortfolioPda user => derivePortfolioPda user pid
  | RegistryPda => deriveRegistryPda pid
  | LpSeatPda routerId matcherState portfolio contextId =>
      deriveLpSeatPda routerId matcherState portfolio contextId pid
  | VenuePnlPda routerId matcherState => deriveVenuePnlPda routerId matcherState pid
  end.

(** The seed list that helper hands to [findProgramAddressSync]. *)
Definition request_seeds (q : PdaRequest) : result (list Buffer.t) :=
  match q with
  | AuthorityPda => Ok [AUTHORITY_SEED]
  | RouterSignerPda => Ok [ROUTER_SIGNER_SEED]
  | InsuranceVaultPda => Ok [INSURANCE_VAULT_SEED]
  | VaultPda mint => Ok [VAULT_SEED; PublicKey.toBuffer mint]
  | EscrowPda user slab mint =>
      Ok [ESCROW_SEED; PublicKey.toBuffer user; PublicKey.toBuffer slab;
          PublicKey.toBuffer mint]
  | CapPda user slab mint nonce =>
      (buf <- nonceBuffer nonce ;;
       Ok [CAP_SEED; PublicKey.toBuffer user; PublicKey.toBuffer slab;
           PublicKey.toBuffer mint; buf])%result
  | PortfolioPda user => Ok [PORTFOLIO_SEED; PublicKey.toBuffer user]
  | RegistryPda => Ok [REGISTRY_SEED]
  | LpSeatPda routerId matcherState portfolio contextId =>
      (buf <- contextIdBuffer contextId ;;
       Ok (lpSeatSeeds routerId matcherState portfolio buf))%result
  | VenuePnlPda routerId matcherState =>
      Ok [VENUE_PNL_SEED; PublicKey.toBuffer routerId; PublicKey.toBuffer matcherState]
  end.

(** The bytes of a request that are hashed, before the bump, the program
    and the marker: tag and arguments one after the other. *)
Definition request_bytes (q : PdaRequest) : list byte :=
  match q with
  | AuthorityPda => AUTHORITY_SEED
  | RouterSignerPda => ROUTER_SIGNER_SEED
  | InsuranceVaultPda => INSURANCE_VAULT_SEED
  | VaultPda mint => VAULT_SEED ++ PublicKey.toBuffer mint
  | EscrowPda user slab mint =>
      ESCROW_SEED ++ PublicKey.toBuffer user ++ PublicKey.toBuffer slab
        ++ PublicKey.toBuffer mint
  | CapPda user slab mint nonce =>
      CAP_SEED ++ PublicKey.toBuffer user ++ PublicKey.toBuffer slab
        ++ PublicKey.toBuffer mint ++ le_split 8 nonce
  | PortfolioPda user => PORTFOLIO_SEED ++ PublicKey.toBuffer user
  | RegistryPda => REGISTRY_SEED
  | LpSeatPda routerId matcherState portfolio contextId =>
      LP_SEAT_SEED ++ PublicKey.toBuffer routerId ++ PublicKey.toBuffer matcherState
        ++ PublicKey.toBuffer portfolio ++ le_split 4 contextId
  | VenuePnlPda routerId matcherState =>
      VENUE_PNL_SEED ++ PublicKey.toBuffer routerId ++ PublicKey.toBuffer matcherState
  end.

(** The transactions a log of requests sends, with their signers. *)
Definition sent (log : list PercolatorClient.Request)
  : list (PercolatorClient.Transaction * list PercolatorClient.Signer) :=
  flat_map
    (fun request =>
       match request with
       | PercolatorClient.SendAndConfirmTransaction transaction signers _ =>
           [(transaction, signers)]
       | _ => []
       end)
    log.

(** The transaction that holds one instruction. *)
Definition single (ix : TransactionInstruction) : PercolatorClient.Transaction :=
  PercolatorClient.mkTransaction [ix] None.

(** The operations of the client that end in a transaction. *)
Inductive Operation : Type :=
| DoInitializePortfolio
| DoDeposit (params : DepositParams)
| DoWithdraw (params : WithdrawParams)
| DoPlaceOrder (slabPubkey oraclePubkey : PublicKey.t) (params : PlaceOrderParams)
| DoAddLiquidity (matcherState : PublicKey.t) (params : AddLiquidityParams.t)
    (contextId : option Z)
| DoRemoveLiquidity (matcherState : PublicKey.t) (params : RemoveLiquidityParams.t)
    (contextId : option Z)
| DoLiquidateUser (targetUser : PublicKey.t).

Section Operations.

Variable minimumBalanceForRentExemption : Z -> Z.
Variable confirm :
  PercolatorClient.Transaction -> list PercolatorClient.Signer -> result string.
Variable createAccountWithSeed :
  CreateAccountWithSeedParams.t -> result TransactionInstruction.
Variable host : Buffer.endianness.

(** The method of the client that carries out an operation for a signer. *)
Definition perform (client : PercolatorClient.t) (signer : PercolatorClient.Signer)
    (op : Operation) : Eff PercolatorClient.Request string :=
  match op with
  | DoInitializePortfolio =>
      PercolatorClient.initializePortfolio minimumBalanceForRentExemption confirm
        createAccountWithSeed client signer
  | DoDeposit params => PercolatorClient.deposit confirm client signer params
  | DoWithdraw params => PercolatorClient.withdraw confirm client signer params
  | DoPlaceOrder slabPubkey oraclePubkey params =>
      PercolatorClient.placeOrder confirm client signer slabPubkey oraclePubkey params
  | DoAddLiquidity matcherState params contextId =>
      PercolatorClient.addLiquidity confirm host client signer matcherState params contextId
  | DoRemoveLiquidity matcherState params contextId =>
      PercolatorClient.removeLiquidity confirm host client signer matcherState params
        contextId
  | DoLiquidateUser targetUser =>
      PercolatorClient.liquidateUser confirm client signer targetUser
  end.

End Operations.

(* ===================================================================== *)
(** ** Sample data for the concrete scenarios *)
(* ===================================================================== *)

(** The key whose 32 bytes all equal [b]. *)
Definition sample_key (b : byte) : PublicKey.t :=
  word.of_Z (PublicKey.be_combine (repeat b 32)).

Definition alice : PublicKey.t := sample_key Byte.x0a.
Definition bob : PublicKey.t := sample_key Byte.x0b.
Definition carol : PublicKey.t := sample_key Byte.x0c.
Definition dave : PublicKey.t := sample_key Byte.x0d.
Definition router_program : PublicKey.t := sample_key Byte.x50.
Definition usdc_mint : PublicKey.t := sample_key Byte.x55.

Definition matcher_state : PublicKey.t := sample_key Byte.x4d.

Definition slab_address : PublicKey.t := sample_key Byte.x5b.
Definition oracle_address : PublicKey.t := sample_key Byte.x31.

(** A deposit of 1_000_000_000 by [alice]. *)
Definition sample_deposit : result TransactionInstruction :=
  createDepositInstruction alice (mkDepositParams 1000000000 usdc_mint) router_program.

(** A reservation of 250_000_000 by [alice] under the context id 7. *)
Definition sample_reserve : result TransactionInstruction :=
  createRouterReserveInstruction Buffer.LittleEndian alice matcher_state
    250000000 7 router_program.

(** A sell of 1_000_000 at 50_000_000_000. *)
Definition sample_order : PlaceOrderParams :=
  mkPlaceOrderParams 3 Sell 1000000 50000000000 IOC (Some DLP).

Definition sample_cross_slab : result TransactionInstruction :=
  createExecuteCrossSlabInstruction alice slab_address oracle_address
    sample_order router_program.

(** An oracle account image with the given content: the layout that
    [parseOracleData] reads, with zero padding at 10..15 and 104..127. *)
Definition oracle_image (magicBytes : list byte) (version bump : byte)
    (authority instrument : PublicKey.t) (price timestamp confidence : Z) : Buffer.t :=
  magicBytes ++ [version; bump] ++ repeat Byte.x00 6
    ++ PublicKey.toBuffer authority ++ PublicKey.toBuffer instrument
    ++ le_split 8 price ++ le_split 8 timestamp ++ le_split 8 confidence
    ++ repeat Byte.x00 24.

(** "PRCLORCL". *)
Definition magic_bytes : list byte := Buffer.from_string "PRCLORCL".

(** The same with its fifth byte flipped. *)
Definition corrupt_magic_bytes : list byte := Buffer.from_string "PRCLXRCL".

(** Three oracle accounts of one program; the second has a corrupt magic. *)
Definition oracle_1 : Buffer.t :=
  oracle_image magic_bytes Byte.x01 Byte.xfe alice bob 50000000000 1700000000 25000.

Definition oracle_2 : Buffer.t :=
  oracle_image corrupt_magic_bytes Byte.x01 Byte.xfd alice carol 3000000000 1700000001 900.

Definition oracle_3 : Buffer.t :=
  oracle_image magic_bytes Byte.x01 Byte.xfc alice dave (-7) 1700000002 0.

Definition oracle_program : PublicKey.t := sample_key Byte.x4f.

Definition oracle_ledger : Connection :=
  [ (sample_key Byte.x31, mkAccountInfo oracle_program oracle_1);
    (sample_key Byte.x32, mkAccountInfo oracle_program oracle_2);
    (sample_key Byte.x33, mkAccountInfo oracle_program oracle_3) ].

(** An oracle account with a correct magic and the version byte 255. *)
Definition oracle_v255 : Buffer.t :=
  oracle_image magic_bytes Byte.xff Byte.xfe alice bob 50000000000 1700000000 25000.

(** A small account codec standing in for the one of @sqds/multisig in the
    concrete scenarios: a threshold byte, a member count, then the member
    keys; any other shape throws. *)
Fixpoint sample_members (n : nat) (bs : list byte) : list Multisig.Member :=
  match n with
  | O => []
  | S n' =>
      Multisig.mkMember (word.of_Z (PublicKey.be_combine (firstn 32 bs))) 7
        :: sample_members n' (skipn 32 bs)
  end.

Definition sample_deserialize (bs : Buffer.t) : result Multisig.MultisigAccount :=
  match bs with
  | t :: n :: keys =>
      if (length keys =? 32 * Z.to_nat (byte.unsigned n))%nat
      then Ok (Multisig.mkMultisigAccount (byte.unsigned t)
                 (sample_members (Z.to_nat (byte.unsigned n)) keys) 0 None)
      else Throw Error
  | _ => Throw Error
  end.

Definition committee_address : PublicKey.t := sample_key Byte.x60.

Definition squads_program : PublicKey.t := sample_key Byte.x53.

(** A ledger holding a 2-of-3 committee of [alice], [bob] and [carol] at
    [committee_address], and a plain wallet account for [dave]. *)
Definition governance_ledger : Connection :=
  [ (committee_address,
     mkAccountInfo squads_program
       ([Byte.x02; Byte.x03] ++ PublicKey.toBuffer alice ++ PublicKey.toBuffer bob
          ++ PublicKey.toBuffer carol));
    (dave, mkAccountInfo PublicKey.default []) ].

(** A stand-in for the system-program encoder in the concrete scenarios:
    it keeps the two accounts of the request and encodes nothing. *)
Definition sample_createAccount (p : CreateAccountParams.t)
  : result TransactionInstruction :=
  Ok (mkTransactionInstruction PublicKey.default
        [ mkAccountMeta (CreateAccountParams.fromPubkey p) true true;
          mkAccountMeta (CreateAccountParams.newAccountPubkey p) true true ]
        []).

(** Three proposal accounts of the committee, as the cluster returns
    them: addresses with the bytes and the owner of each account. *)
Definition sample_proposals (c : Connection) (multisigAddress : PublicKey.t)
  : result (list (PublicKey.t * AccountInfo)) :=
  if PublicKey.equals multisigAddress committee_address
  then Ok [ (sample_key Byte.x71, mkAccountInfo squads_program [Byte.x01]);
            (sample_key Byte.x72, mkAccountInfo squads_program [Byte.x01]);
            (sample_key Byte.x73, mkAccountInfo squads_program [Byte.x03]) ]
  else Ok [].

(** A cluster that confirms every transaction and asks the rent of the
    main network. *)
Definition sample_confirm (transaction : PercolatorClient.Transaction)
    (signers : list PercolatorClient.Signer) : result string :=
  Ok "signature"%string.

Definition sample_rent (dataLength : Z) : Z := (dataLength + 128) * 6960.

Definition alice_signer : PercolatorClient.Signer := PercolatorClient.mkSigner alice [].

(** A client of [router_program] on a given ledger. *)
Definition client_on (ledger : Connection) : PercolatorClient.t :=
  PercolatorClient.new
    (PercolatorClient.Config.mk ledger router_program None None None None).

(* ===================================================================== *)
(** * Properties *)
(* ===================================================================== *)

(** ** Results *)

Lemma is_ok_inv {A : Type} (r : result A) : is_ok r = true -> exists a, r = Ok a.
Proof.
  destruct r as [a | e]; [intros _; now exists a | discriminate].
Qed.

Lemma Ok_inj {A : Type} (a b : A) : Ok a = Ok b -> a = b.
Proof. intros H. now injection H. Qed.

(** ** Buffers *)

Section BufferFacts.

Import Buffer.

Lemma length_alloc (n : nat) : length (alloc n) = n.
Proof. apply repeat_length. Qed.

Lemma length_splice (b : t) (off : nat) (bs : list byte) :
  (off + length bs <= length b)%nat -> length (splice b off bs) = length b.
Proof.
  intros H. unfold splice.
  rewrite !length_app, length_firstn, length_skipn. lia.
Qed.

Lemma window_splice_same (b : t) (off : nat) (bs : list byte) :
  (off + length bs <= length b)%nat ->
  window (splice b off bs) off (length bs) = bs.
Proof.
  intros H. unfold window, splice.
  rewrite skipn_app, length_firstn.
  rewrite (skipn_all2 (firstn off b)) by (rewrite length_firstn; lia).
  replace (off - Nat.min off (length b))%nat with 0%nat by lia.
  cbn [skipn app]. rewrite firstn_app, firstn_all, Nat.sub_diag.
  cbn [firstn]. apply app_nil_r.
Qed.

Lemma firstn_app_left {A : Type} (n : nat) (l r : list A) :
  (n <= length l)%nat -> firstn n (l ++ r) = firstn n l.
Proof.
  intros H. rewrite firstn_app.
  replace (n - length l)%nat with 0%nat by lia.
  cbn [firstn]. apply app_nil_r.
Qed.

Lemma skipn_app_left {A : Type} (n : nat) (l r : list A) :
  (n <= length l)%nat -> skipn n (l ++ r) = skipn n l ++ r.
Proof.
  intros H. rewrite skipn_app.
  now replace (n - length l)%nat with 0%nat by lia.
Qed.

Lemma window_app_left (l r : t) (off n : nat) :
  (off + n <= length l)%nat -> window (l ++ r) off n = window l off n.
Proof.
  intros H. unfold window.
  rewrite skipn_app_left by lia.
  apply firstn_app_left. rewrite length_skipn. lia.
Qed.

Lemma window_splice_before (b : t) (off : nat) (bs : list byte) (off' n' : nat) :
  (off' + n' <= off)%nat ->
  (off + length bs <= length b)%nat ->
  window (splice b off bs) off' n' = window b off' n'.
Proof.
  intros H Hb. unfold splice.
  rewrite window_app_left by (rewrite length_firstn; lia).
  rewrite <- (firstn_skipn off b) at 2.
  symmetry. apply window_app_left. rewrite length_firstn. lia.
Qed.

Lemma window_splice_after (b : t) (off : nat) (bs : list byte) (off' n' : nat) :
  (off + length bs <= off')%nat ->
  (off + length bs <= length b)%nat ->
  window (splice b off bs) off' n' = window b off' n'.
Proof.
  intros H Hb. unfold window, splice. f_equal.
  rewrite !skipn_app, length_firstn.
  rewrite (skipn_all2 (firstn off b)) by (rewrite length_firstn; lia).
  rewrite (skipn_all2 bs) by lia.
  cbn [app]. rewrite skipn_skipn. f_equal. lia.
Qed.

Lemma writeLE_Ok (lo hi : Z) (n : nat) (b : t) (v : Z) (off : nat) :
  lo <= v <= hi -> (off + n <= length b)%nat ->
  writeLE lo hi n b v off = Ok (splice b off (le_split n v)).
Proof.
  intros Hv Hoff. unfold writeLE, in_bounds.
  replace ((lo <=? v) && (v <=? hi)) with true
    by (symmetry; apply andb_true_intro; split; apply Z.leb_le; lia).
  replace (off + n <=? length b)%nat with true
    by (symmetry; apply Nat.leb_le; lia).
  reflexivity.
Qed.

Lemma writeLE_inv (lo hi : Z) (n : nat) (b b' : t) (v : Z) (off : nat) :
  writeLE lo hi n b v off = Ok b' ->
  lo <= v <= hi /\ (off + n <= length b)%nat /\ b' = splice b off (le_split n v).
Proof.
  unfold writeLE, in_bounds.
  destruct (lo <=? v) eqn:H1; destruct (v <=? hi) eqn:H2; cbn; try discriminate.
  destruct (off + n <=? length b)%nat eqn:H3; cbn; try discriminate.
  intros [= <-].
  apply Z.leb_le in H1, H2. apply Nat.leb_le in H3. auto.
Qed.

Lemma readLE_Ok (b : t) (off n : nat) :
  (off + n <= length b)%nat ->
  readLE b off n = ([mkAccess (length b) off n], Ok (le_combine (window b off n))).
Proof.
  intros H. unfold readLE, in_bounds.
  now replace (off + n <=? length b)%nat with true by (symmetry; apply Nat.leb_le; lia).
Qed.

Lemma length_window (b : t) (off n : nat) :
  (off + n <= length b)%nat -> length (window b off n) = n.
Proof.
  intros H. unfold window. rewrite length_firstn, length_skipn. lia.
Qed.

(** A fixed-width unsigned write is read back unchanged at its offset. *)
Lemma writeLE_readLE (n : nat) (b b' : t) (v : Z) (off : nat) :
  writeLE 0 (2 ^ (8 * Z.of_nat n) - 1) n b v off = Ok b' ->
  outcome (readLE b' off n) = Ok v.
Proof.
  intros H. apply writeLE_inv in H. destruct H as (Hv & Hoff & ->).
  assert (Hlen : length (le_split n v) = n) by apply length_le_split.
  rewrite readLE_Ok by (rewrite length_splice; lia).
  cbn [outcome snd]. rewrite <- Hlen at 2.
  rewrite window_splice_same by lia.
  rewrite le_combine_split. f_equal.
  apply Z.mod_small. replace (Z.of_nat n * 8) with (8 * Z.of_nat n) by lia. lia.
Qed.

(** So is a signed 64-bit one. *)
Lemma writeBigInt64LE_readBigInt64LE (b b' : t) (v : Z) (off : nat) :
  writeBigInt64LE b v off = Ok b' ->
  outcome (readBigInt64LE b' off) = Ok v.
Proof.
  intros H. apply writeLE_inv in H. destruct H as (Hv & Hoff & ->).
  unfold readBigInt64LE.
  rewrite readLE_Ok by (rewrite length_splice; rewrite ?length_le_split; lia).
  cbn [ebind ret app outcome snd].
  pose proof (window_splice_same b off (le_split 8 v)) as Hsame.
  rewrite length_le_split in Hsame. rewrite Hsame by lia.
  rewrite le_combine_split. f_equal. unfold to_signed.
  change (8 * Z.of_nat 8 - 1) with 63. change (8 * Z.of_nat 8) with 64.
  change (Z.of_nat 8 * 8) with 64.
  destruct (Z_lt_le_dec v 0) as [Hneg | Hpos].
  - replace (v mod 2 ^ 64) with (v + 2 ^ 64)
      by (apply Z.mod_unique with (q := -1); lia).
    destruct (v + 2 ^ 64 <? 2 ^ 63) eqn:E; [apply Z.ltb_lt in E |]; lia.
  - rewrite Z.mod_small by lia.
    destruct (v <? 2 ^ 63) eqn:E; [reflexivity | apply Z.ltb_ge in E; lia].
Qed.

(** A write leaves the fields before and after it as they were. *)
Lemma writeLE_frame (lo hi : Z) (n : nat) (b b' : t) (v : Z) (off off' n' : nat) :
  writeLE lo hi n b v off = Ok b' ->
  (off' + n' <= off)%nat \/ (off + n <= off')%nat ->
  window b' off' n' = window b off' n'.
Proof.
  intros H Hdisjoint. apply writeLE_inv in H. destruct H as (_ & Hoff & ->).
  assert (Hlen : length (le_split n v) = n) by apply length_le_split.
  destruct Hdisjoint as [Hbefore | Hafter].
  - apply window_splice_before; lia.
  - apply window_splice_after; lia.
Qed.

End BufferFacts.

(** ** Public keys and the hash *)

Lemma be_split_length (n : nat) (z : Z) : length (PublicKey.be_split n z) = n.
Proof. unfold PublicKey.be_split. now rewrite length_rev, length_le_split. Qed.

Lemma be_combine_split (n : nat) (z : Z) :
  PublicKey.be_combine (PublicKey.be_split n z) = z mod 2 ^ (Z.of_nat n * 8).
Proof.
  unfold PublicKey.be_combine, PublicKey.be_split.
  rewrite rev_involutive. apply le_combine_split.
Qed.

Lemma be_split_combine (bs : list byte) :
  PublicKey.be_split (length bs) (PublicKey.be_combine bs) = bs.
Proof.
  unfold PublicKey.be_combine, PublicKey.be_split.
  rewrite <- (length_rev bs), split_le_combine. apply rev_involutive.
Qed.

Lemma be_combine_bound (bs : list byte) :
  0 <= PublicKey.be_combine bs < 2 ^ (8 * Z.of_nat (length bs)).
Proof.
  unfold PublicKey.be_combine. rewrite <- (length_rev bs). apply le_combine_bound.
Qed.

Lemma toBuffer_length (k : PublicKey.t) : length (PublicKey.toBuffer k) = 32%nat.
Proof. apply be_split_length. Qed.

Lemma toBuffer_inj (a b : PublicKey.t) :
  PublicKey.toBuffer a = PublicKey.toBuffer b -> a = b.
Proof.
  unfold PublicKey.toBuffer. intros H.
  apply (f_equal PublicKey.be_combine) in H.
  rewrite !be_combine_split in H.
  pose proof (word.unsigned_range a) as Ha.
  pose proof (word.unsigned_range b) as Hb.
  change (2 ^ (Z.of_nat 32 * 8)) with (2 ^ 256) in H.
  rewrite !Z.mod_small in H by assumption.
  now apply word.unsigned_inj.
Qed.

Lemma equals_true_iff (a b : PublicKey.t) : PublicKey.equals a b = true <-> a = b.
Proof.
  unfold PublicKey.equals. rewrite Z.eqb_eq. split.
  - apply word.unsigned_inj.
  - now intros ->.
Qed.

Lemma equals_refl (a : PublicKey.t) : PublicKey.equals a a = true.
Proof. now apply equals_true_iff. Qed.

Lemma equals_false_iff (a b : PublicKey.t) : PublicKey.equals a b = false <-> a <> b.
Proof.
  rewrite <- equals_true_iff. destruct (PublicKey.equals a b); split; congruence.
Qed.

(** Thirty-two bytes always make a key, and the key gives them back. *)
Lemma new_32_bytes (bs : list byte) :
  length bs = 32%nat ->
  exists k, PublicKey.new bs = Ok k /\ PublicKey.toBuffer k = bs.
Proof.
  intros Hlen. unfold PublicKey.new.
  pose proof (be_combine_bound bs) as Hb. rewrite Hlen in Hb.
  change (2 ^ (8 * Z.of_nat 32)) with (2 ^ 256) in Hb.
  destruct (2 ^ 256 <=? PublicKey.be_combine bs) eqn:E.
  - apply Z.leb_le in E. lia.
  - eexists. split; [reflexivity |].
    unfold PublicKey.toBuffer. rewrite word.unsigned_of_Z.
    unfold word.wrap. rewrite Z.mod_small by assumption.
    rewrite <- Hlen at 1. apply be_split_combine.
Qed.

Lemma round_length (st : list Z) (k w : Z) :
  length st = 8%nat -> length (Sha256.round st k w) = 8%nat.
Proof.
  intros H.
  do 8 (destruct st as [| ? st]; [discriminate |]).
  destruct st; [reflexivity | discriminate].
Qed.

Lemma rounds_length (ks w st : list Z) :
  length st = 8%nat -> length (Sha256.rounds ks w st) = 8%nat.
Proof.
  revert w st. induction ks as [| k ks IH]; intros w st H; cbn [Sha256.rounds].
  - exact H.
  - apply IH, round_length, H.
Qed.

Lemma compress_length (h block : list Z) :
  length h = 8%nat -> length (Sha256.compress h block) = 8%nat.
Proof.
  intros H. unfold Sha256.compress.
  rewrite length_map, length_combine, rounds_length, H by exact H.
  reflexivity.
Qed.

Lemma blocks_length (fuel : nat) (ws h : list Z) :
  length h = 8%nat -> length (Sha256.blocks fuel ws h) = 8%nat.
Proof.
  revert ws h. induction fuel as [| fuel IH]; intros ws h H; cbn [Sha256.blocks].
  - exact H.
  - destruct ws; [exact H |]. apply IH, compress_length, H.
Qed.

Lemma flat_map_be_split_length (ws : list Z) :
  length (flat_map (PublicKey.be_split 4) ws) = (4 * length ws)%nat.
Proof.
  induction ws as [| w ws IH]; [reflexivity |].
  cbn [flat_map]. rewrite length_app, be_split_length, IH. cbn [length]. lia.
Qed.

(** The primitives on known values: the digest of "abc" of FIPS 180-4, and
    the all-zero key, a point of the curve. *)
Lemma sha256_abc :
  PublicKey.be_combine (Sha256.sha256 (Buffer.from_string "abc"))
  = 0xba7816bf8f01cfea414140de5dae2223b00361a396177a9cb410ff61f20015ad.
Proof. vm_compute. reflexivity. Qed.

Lemma default_key_on_curve :
  Ed25519.isOnCurve (PublicKey.toBuffer PublicKey.default) = true.
Proof. vm_compute. reflexivity. Qed.

(** A digest has 32 bytes. *)
Lemma sha256_length (msg : list byte) : length (Sha256.sha256 msg) = 32%nat.
Proof.
  unfold Sha256.sha256. cbv zeta.
  rewrite flat_map_be_split_length, blocks_length; reflexivity.
Qed.

(** The promise of [createWithSeed] settles to a key: the hash has 32
    bytes. *)
Lemma createWithSeed_total (from : PublicKey.t) (seed : string) (pid : PublicKey.t) :
  exists k, settled (createWithSeed from seed pid) = Ok k.
Proof.
  unfold createWithSeed. cbn [settled].
  destruct (new_32_bytes _ (sha256_length
    (PublicKey.toBuffer from ++ Buffer.from_string seed ++ PublicKey.toBuffer pid)))
    as [k [Hk _]].
  exists k. exact Hk.
Qed.

(** What the SDK holds as the portfolio address is a promise: it has no
    bytes to hand over. *)
Lemma portfolio_address_toBuffer (user pid : PublicKey.t) :
  KeySlot_toBuffer (createPortfolioAddress user pid) = Throw TypeError.
Proof. reflexivity. Qed.

(** The promise settles to the key of [createWithSeed]. *)
Lemma portfolio_address_pending (user pid : PublicKey.t) :
  createPortfolioAddress user pid = Pending (createWithSeed user "portfolio" pid).
Proof. reflexivity. Qed.

(** Bounds of a write into a buffer that earlier writes produced. *)
Ltac solve_len :=
  repeat rewrite ?length_le_split, ?length_alloc;
  repeat (rewrite length_splice by solve_len);
  repeat rewrite ?length_le_split, ?length_alloc;
  cbn; lia.

(** ** The deposit builder *)

(** The payload of a deposit: the discriminator, then the amount on eight
    little-endian bytes. *)
Lemma deposit_data_shape (amount : Z) :
  Buffer.splice
    (Buffer.splice (Buffer.alloc 9) 0 (le_split 1 (discriminator Deposit)))
    1 (le_split 8 amount)
  = Byte.x03 :: le_split 8 amount.
Proof. reflexivity. Qed.

Lemma createDepositInstruction_inv (user : PublicKey.t) (params : DepositParams)
    (pid : PublicKey.t) (ix : TransactionInstruction) :
  createDepositInstruction user params pid = Ok ix ->
  0 <= amount params < 2 ^ 64 /\ data ix = Byte.x03 :: le_split 8 (amount params).
Proof.
  unfold createDepositInstruction. cbv zeta. unfold Buffer.writeUInt8.
  rewrite writeLE_Ok by solve_len.
  cbn [rbind].
  destruct (Buffer.writeBigUInt64LE _ _ _) as [b |] eqn:E; [| discriminate].
  apply writeLE_inv in E. destruct E as (Hv & _ & ->).
  cbn [rbind]. intros [= <-]. cbn [data].
  split; [lia | apply deposit_data_shape].
Qed.

Lemma createDepositInstruction_total (user : PublicKey.t) (params : DepositParams)
    (pid : PublicKey.t) :
  0 <= amount params < 2 ^ 64 ->
  exists ix, createDepositInstruction user params pid = Ok ix.
Proof.
  intros Hv. unfold createDepositInstruction. cbv zeta.
  unfold Buffer.writeUInt8, Buffer.writeBigUInt64LE.
  rewrite writeLE_Ok by solve_len.
  cbn [rbind].
  rewrite writeLE_Ok by solve_len.
  cbn [rbind]. eauto.
Qed.

(** C5. For every 64-bit amount, the deposit builder returns an instruction
    whose payload has the deposit discriminator at offset 0 and the amount
    as an unsigned little-endian integer in the eight bytes at offset 1;
    reading that payload back with [readBigUInt64LE] at offset 1 returns
    the amount. *)
Theorem deposit_encode_decode (user : PublicKey.t) (params : DepositParams)
    (pid : PublicKey.t) :
  0 <= amount params < 2 ^ 64 ->
  exists ix,
    createDepositInstruction user params pid = Ok ix /\
    length (data ix) = 9%nat /\
    outcome (Buffer.readUInt8 (data ix) 0) = Ok (discriminator Deposit) /\
    Buffer.window (data ix) 1 8 = le_split 8 (amount params) /\
    outcome (Buffer.readBigUInt64LE (data ix) 1) = Ok (amount params).
Proof.
  intros Hv.
  destruct (createDepositInstruction_total user params pid Hv) as [ix Hix].
  exists ix. split; [exact Hix |].
  apply createDepositInstruction_inv in Hix. destruct Hix as [_ Hdata].
  assert (Hlen : length (data ix) = 9%nat)
    by (rewrite Hdata; cbn [length]; now rewrite length_le_split).
  assert (Hwin : Buffer.window (data ix) 1 8 = le_split 8 (amount params)).
  { rewrite Hdata. unfold Buffer.window. cbn [skipn].
    apply firstn_all2. now rewrite length_le_split. }
  repeat split.
  - exact Hlen.
  - unfold Buffer.readUInt8. rewrite readLE_Ok by lia.
    rewrite Hdata. reflexivity.
  - exact Hwin.
  - unfold Buffer.readBigUInt64LE. rewrite readLE_Ok by lia.
    cbn [outcome snd]. rewrite Hwin, le_combine_split.
    f_equal. apply Z.mod_small. cbn. lia.
Qed.

(** The property at the amount 1_000_000_000 of the specification. *)
Lemma deposit_encode_decode_witness :
  exists ix,
    createDepositInstruction PublicKey.default
      (mkDepositParams 1000000000 PublicKey.default) PublicKey.default = Ok ix /\
    length (data ix) = 9%nat /\
    outcome (Buffer.readUInt8 (data ix) 0) = Ok (discriminator Deposit) /\
    Buffer.window (data ix) 1 8 = le_split 8 1000000000 /\
    outcome (Buffer.readBigUInt64LE (data ix) 1) = Ok 1000000000.
Proof.
  apply (deposit_encode_decode PublicKey.default
           (mkDepositParams 1000000000 PublicKey.default) PublicKey.default).
  cbn. lia.
Defined.

(** ** Discriminators *)

(** C2, as stated, fails: the deposit discriminator is 3, not 1 (1 selects
    the initialisation of a portfolio), and a deposit payload starts with
    the byte 3. *)
Lemma deposit_discriminator_is_not_1 :
  discriminator Deposit <> 1 /\
  discriminator InitializePortfolio = 1 /\
  payload sample_deposit =
    Some [ Byte.x03; Byte.x00; Byte.xca; Byte.x9a; Byte.x3b;
           Byte.x00; Byte.x00; Byte.x00; Byte.x00 ].
Proof.
  split; [cbn; discriminate |].
  split; [reflexivity |].
  vm_compute. reflexivity.
Qed.

(** C2, amended. The router discriminators are the integers 0 to 15 in
    declaration order, so distinct operations have distinct values, with 0
    for initialize and 3 for deposit; every instruction the deposit builder
    returns carries the deposit discriminator at offset 0 of its payload. *)
Theorem router_discriminators :
  map discriminator all_RouterInstruction = map Z.of_nat (seq 0 16) /\
  (forall i, In i all_RouterInstruction) /\
  (forall i j, discriminator i = discriminator j -> i = j) /\
  discriminator Initialize = 0 /\
  discriminator Deposit = 3 /\
  (forall user params pid ix,
      createDepositInstruction user params pid = Ok ix ->
      nth_error (data ix) 0 = Some (byte.of_Z (discriminator Deposit))).
Proof.
  split; [reflexivity |].
  split; [intros []; cbn; tauto |].
  split; [intros [] []; cbn; intros H; first [reflexivity | discriminate H] |].
  split; [reflexivity |].
  split; [reflexivity |].
  intros user params pid ix H.
  apply createDepositInstruction_inv in H. destruct H as [_ ->].
  reflexivity.
Qed.

Lemma router_discriminators_witness :
  exists ix,
    createDepositInstruction alice (mkDepositParams 1000000000 usdc_mint)
      router_program = Ok ix /\
    nth_error (data ix) 0 = Some (byte.of_Z (discriminator Deposit)).
Proof.
  destruct (is_ok_inv (createDepositInstruction alice
                         (mkDepositParams 1000000000 usdc_mint) router_program))
    as [ix E]; [vm_compute; reflexivity |].
  exists ix. split; [exact E |].
  exact (proj2 (proj2 (proj2 (proj2 (proj2 router_discriminators))))
           alice (mkDepositParams 1000000000 usdc_mint) router_program ix E).
Defined.

(** ** The oracle decoder *)

Lemma new_32_bytes_eq (bs : list byte) :
  length bs = 32%nat -> PublicKey.new bs = Ok (word.of_Z (PublicKey.be_combine bs)).
Proof.
  intros Hlen. unfold PublicKey.new.
  pose proof (be_combine_bound bs) as Hb. rewrite Hlen in Hb.
  change (2 ^ (8 * Z.of_nat 32)) with (2 ^ 256) in Hb.
  destruct (2 ^ 256 <=? PublicKey.be_combine bs) eqn:E; [| reflexivity].
  apply Z.leb_le in E. lia.
Qed.

Lemma subarray_Ok (b : Buffer.t) (s e : nat) :
  (s <= e)%nat -> (e <= length b)%nat ->
  Buffer.subarray b s e =
    ([Buffer.mkAccess (length b) s (e - s)], Ok (Buffer.window b s (e - s))).
Proof.
  intros Hs He. unfold Buffer.subarray.
  now rewrite !Nat.min_l by lia.
Qed.

(** Below 128 bytes the decoder answers [null] and touches nothing. *)
Lemma parseOracleData_short (data : Buffer.t) :
  (length data < Oracle.PRICE_ORACLE_SIZE)%nat ->
  Oracle.parseOracleData data = ([], Ok None).
Proof.
  intros H. unfold Oracle.parseOracleData.
  now replace (length data <? Oracle.PRICE_ORACLE_SIZE)%nat with true
    by (symmetry; apply Nat.ltb_lt; exact H).
Qed.

(** With a wrong magic it answers [null] after reading the magic only. *)
Lemma parseOracleData_bad_magic (data : Buffer.t) :
  (Oracle.PRICE_ORACLE_SIZE <= length data)%nat ->
  le_combine (Buffer.window data 0 8) <> Oracle.ORACLE_MAGIC ->
  Oracle.parseOracleData data = ([Buffer.mkAccess (length data) 0 8], Ok None).
Proof.
  unfold Oracle.PRICE_ORACLE_SIZE. intros Hlen Hmagic. unfold Oracle.parseOracleData.
  replace (length data <? Oracle.PRICE_ORACLE_SIZE)%nat with false
    by (symmetry; apply Nat.ltb_ge; exact Hlen).
  unfold Buffer.readBigUInt64LE. rewrite readLE_Ok by lia.
  cbn [ebind].
  apply Z.eqb_neq in Hmagic. rewrite Hmagic.
  reflexivity.
Qed.

(** Otherwise it reads the eight fields, each inside the buffer, and
    returns the record of the layout. *)
Lemma parseOracleData_good (data : Buffer.t) :
  (Oracle.PRICE_ORACLE_SIZE <= length data)%nat ->
  le_combine (Buffer.window data 0 8) = Oracle.ORACLE_MAGIC ->
  Oracle.parseOracleData data =
    (oracle_accesses (length data), Ok (Some (layout_record data))).
Proof.
  unfold Oracle.PRICE_ORACLE_SIZE. intros Hlen Hmagic. unfold Oracle.parseOracleData.
  replace (length data <? Oracle.PRICE_ORACLE_SIZE)%nat with false
    by (symmetry; apply Nat.ltb_ge; exact Hlen).
  unfold Buffer.readBigUInt64LE, Buffer.readUInt8, Buffer.readBigInt64LE.
  rewrite !readLE_Ok by lia.
  rewrite !subarray_Ok by lia.
  cbn [ebind]. rewrite Hmagic, Z.eqb_refl.
  cbn [negb ebind ret lift app Nat.sub].
  rewrite new_32_bytes_eq by (apply length_window; lia).
  cbn [ebind ret lift app].
  rewrite new_32_bytes_eq by (apply length_window; lia).
  cbn [ebind ret lift app].
  unfold layout_record. rewrite Hmagic.
  reflexivity.
Qed.

(** The decoder never throws: its result is that of [decodeOracle]. *)
Lemma parseOracleData_outcome (data : Buffer.t) :
  outcome (Oracle.parseOracleData data) = Ok (decodeOracle data).
Proof.
  unfold decodeOracle.
  destruct (length data <? Oracle.PRICE_ORACLE_SIZE)%nat eqn:Hlen.
  - apply Nat.ltb_lt in Hlen. now rewrite parseOracleData_short.
  - apply Nat.ltb_ge in Hlen.
    destruct (le_combine (Buffer.window data 0 8) =? Oracle.ORACLE_MAGIC) eqn:Hm.
    + apply Z.eqb_eq in Hm. now rewrite parseOracleData_good.
    + apply Z.eqb_neq in Hm. now rewrite parseOracleData_bad_magic.
Qed.

(** Every access of the decoder lies inside the buffer. *)
Lemma parseOracleData_within (data : Buffer.t) :
  Forall Buffer.within (events (Oracle.parseOracleData data)).
Proof.
  destruct (Nat.lt_ge_cases (length data) Oracle.PRICE_ORACLE_SIZE) as [Hlen | Hlen].
  - rewrite parseOracleData_short by exact Hlen. constructor.
  - destruct (Z.eq_dec (le_combine (Buffer.window data 0 8)) Oracle.ORACLE_MAGIC) as [Hm | Hm].
    + rewrite parseOracleData_good by assumption.
      unfold Oracle.PRICE_ORACLE_SIZE in Hlen.
      repeat constructor; unfold Buffer.within; cbn; lia.
    + rewrite parseOracleData_bad_magic by assumption.
      unfold Oracle.PRICE_ORACLE_SIZE in Hlen.
      repeat constructor; unfold Buffer.within; cbn; lia.
Qed.

Lemma outcome_ebind {L A B : Type} (m : Eff L A) (k : A -> Eff L B) :
  outcome (ebind m k) =
    match outcome m with
    | Ok a => outcome (k a)
    | Throw e => Throw e
    end.
Proof.
  destruct m as [l [a | e]]; cbn; [| reflexivity].
  now destruct (k a).
Qed.

Lemma events_ebind {L A B : Type} (m : Eff L A) (k : A -> Eff L B) :
  events (ebind m k) =
    events m ++ match outcome m with
                | Ok a => events (k a)
                | Throw _ => []
                end.
Proof.
  destruct m as [l [a | e]]; cbn; [| now rewrite app_nil_r].
  now destruct (k a).
Qed.

Lemma collect_outcome (accounts : list (PublicKey.t * AccountInfo))
    (oracles : list (PublicKey.t * Oracle.PriceOracle)) :
  outcome (Oracle.collect accounts oracles) =
    Ok (oracles ++ flat_map oracle_entry accounts).
Proof.
  revert oracles.
  induction accounts as [| [pubkey account] rest IH]; intros oracles;
    cbn [Oracle.collect flat_map].
  - now rewrite app_nil_r.
  - rewrite outcome_ebind. unfold oracle_entry at 1. cbn [fst snd].
    rewrite parseOracleData_outcome.
    destruct (decodeOracle (account_data account)) as [record |].
    + rewrite IH, <- app_assoc. reflexivity.
    + rewrite IH. reflexivity.
Qed.

Lemma collect_within (accounts : list (PublicKey.t * AccountInfo))
    (oracles : list (PublicKey.t * Oracle.PriceOracle)) :
  Forall Buffer.within (events (Oracle.collect accounts oracles)).
Proof.
  revert oracles.
  induction accounts as [| [pubkey account] rest IH]; intros oracles;
    cbn [Oracle.collect].
  - constructor.
  - rewrite events_ebind. apply Forall_app. split.
    + apply parseOracleData_within.
    + rewrite parseOracleData_outcome.
      destruct (decodeOracle (account_data account)); apply IH.
Qed.

(** An image built with the right magic passes both guards, whatever its
    other bytes are. *)
Lemma oracle_image_decodes (v b : byte) (a i : PublicKey.t) (p t c : Z) :
  decodeOracle (oracle_image magic_bytes v b a i p t c)
  = Some (layout_record (oracle_image magic_bytes v b a i p t c)).
Proof.
  unfold decodeOracle.
  assert (Hlen : length (oracle_image magic_bytes v b a i p t c) = 128%nat).
  { unfold oracle_image.
    rewrite !length_app, !toBuffer_length, !length_le_split, !repeat_length.
    reflexivity. }
  rewrite Hlen.
  assert (Hmagic : Buffer.window (oracle_image magic_bytes v b a i p t c) 0 8 = magic_bytes).
  { unfold oracle_image. rewrite window_app_left by (cbn; lia). reflexivity. }
  rewrite Hmagic. reflexivity.
Qed.

(** C6. A buffer shorter than the 128 bytes of the oracle record is
    answered with [null], and the decoder reads nothing from it: no access
    at all, hence none past the end of the buffer. *)
Theorem parseOracleData_truncated (data : Buffer.t) :
  (length data < 128)%nat ->
  outcome (Oracle.parseOracleData data) = Ok None /\
  events (Oracle.parseOracleData data) = [].
Proof.
  intros H. now rewrite parseOracleData_short.
Qed.

(** A valid image cut after 127 bytes. *)
Lemma parseOracleData_truncated_witness :
  outcome (Oracle.parseOracleData (firstn 127 oracle_1)) = Ok None /\
  events (Oracle.parseOracleData (firstn 127 oracle_1)) = [].
Proof.
  apply (parseOracleData_truncated (firstn 127 oracle_1)).
  vm_compute. lia.
Defined.

(** C1, as stated, fails: no set of supported versions is consulted. An
    image of 128 bytes with the right magic and the version byte 255
    decodes to a record that reports version 255, and so does the same
    image with any other version byte. *)
Lemma no_version_is_rejected :
  length oracle_v255 = 128%nat /\
  nth_error oracle_v255 8 = Some Byte.xff /\
  outcome (Oracle.parseOracleData oracle_v255) = Ok (Some (layout_record oracle_v255)) /\
  Oracle.version (layout_record oracle_v255) = 255 /\
  (forall v : byte,
      outcome (Oracle.parseOracleData
                 (oracle_image magic_bytes v Byte.xfe alice bob
                    50000000000 1700000000 25000)) <> Ok None).
Proof.
  split; [reflexivity |].
  split; [reflexivity |].
  split; [rewrite parseOracleData_good; reflexivity |].
  split; [reflexivity |].
  intros v. rewrite parseOracleData_outcome, oracle_image_decodes.
  discriminate.
Qed.

(** C1, amended. The decoder validates in this order: a buffer shorter
    than 128 bytes gives [null] before anything is read; otherwise a magic
    that differs from the constant gives [null] after the magic alone was
    read; otherwise all eight fields are read from their fixed offsets,
    the version byte among them and whatever its value, and the record
    returned is fully populated. No access leaves the buffer. *)
Theorem parseOracleData_validation (data : Buffer.t) :
  ((length data < 128)%nat -> Oracle.parseOracleData data = ([], Ok None)) /\
  ((128 <= length data)%nat ->
   le_combine (Buffer.window data 0 8) <> Oracle.ORACLE_MAGIC ->
   Oracle.parseOracleData data = ([Buffer.mkAccess (length data) 0 8], Ok None)) /\
  ((128 <= length data)%nat ->
   le_combine (Buffer.window data 0 8) = Oracle.ORACLE_MAGIC ->
   Oracle.parseOracleData data =
     (oracle_accesses (length data), Ok (Some (layout_record data))) /\
   Oracle.version (layout_record data) = le_combine (Buffer.window data 8 1)) /\
  Forall Buffer.within (events (Oracle.parseOracleData data)).
Proof.
  split; [apply parseOracleData_short |].
  split; [apply parseOracleData_bad_magic |].
  split; [| apply parseOracleData_within].
  intros Hlen Hmagic. split; [now apply parseOracleData_good | reflexivity].
Qed.

(** The three cases on a truncated image, on a corrupt magic and on a
    valid image. *)
Lemma parseOracleData_validation_witness :
  Oracle.parseOracleData (firstn 127 oracle_1) = ([], Ok None) /\
  Oracle.parseOracleData oracle_2 = ([Buffer.mkAccess 128 0 8], Ok None) /\
  Oracle.parseOracleData oracle_1 =
    (oracle_accesses 128, Ok (Some (layout_record oracle_1))).
Proof.
  split; [| split].
  - apply (proj1 (parseOracleData_validation (firstn 127 oracle_1))).
    vm_compute. lia.
  - apply (proj1 (proj2 (parseOracleData_validation oracle_2))).
    + vm_compute. lia.
    + vm_compute. discriminate.
  - apply (proj1 (proj2 (proj2 (parseOracleData_validation oracle_1)))).
    + vm_compute. lia.
    + vm_compute. reflexivity.
Defined.

(** ** The batch of oracles *)

Lemma getProgramAccounts_app (c1 c2 : Connection) (pid : PublicKey.t) (n : nat) :
  getProgramAccounts (c1 ++ c2) pid n =
    getProgramAccounts c1 pid n ++ getProgramAccounts c2 pid n.
Proof. apply filter_app. Qed.

Lemma fetchAllOracles_outcome (connection : Connection) (pid : PublicKey.t) :
  outcome (Oracle.fetchAllOracles connection pid) =
    Ok (flat_map oracle_entry
          (getProgramAccounts connection pid Oracle.PRICE_ORACLE_SIZE)).
Proof. unfold Oracle.fetchAllOracles. apply collect_outcome. Qed.

Lemma oracle_entry_valid (a : PublicKey.t) (acc : AccountInfo) :
  length (account_data acc) = 128%nat ->
  le_combine (Buffer.window (account_data acc) 0 8) = Oracle.ORACLE_MAGIC ->
  oracle_entry (a, acc) = [(a, layout_record (account_data acc))].
Proof.
  intros Hlen Hmagic. unfold oracle_entry. cbn [fst snd].
  rewrite parseOracleData_good; [reflexivity | | exact Hmagic].
  unfold Oracle.PRICE_ORACLE_SIZE. lia.
Qed.

Lemma oracle_entry_corrupt (a : PublicKey.t) (acc : AccountInfo) :
  length (account_data acc) = 128%nat ->
  le_combine (Buffer.window (account_data acc) 0 8) <> Oracle.ORACLE_MAGIC ->
  oracle_entry (a, acc) = [].
Proof.
  intros Hlen Hmagic. unfold oracle_entry. cbn [fst snd].
  rewrite parseOracleData_bad_magic; [reflexivity | | exact Hmagic].
  unfold Oracle.PRICE_ORACLE_SIZE. lia.
Qed.

(** C7. The batch decodes every account of the program on its own: the
    result lists, in ledger order, what each account contributes, the loop
    never throws and never reads outside an account; an account whose
    decoding fails can be taken out of the ledger without changing the
    result, so it neither aborts the batch nor alters its siblings. For
    three accounts of which only the second has a corrupt magic, the result
    is exactly the first and the third with the records of their layout. *)
Theorem fetchAllOracles_isolation (connection : Connection) (pid : PublicKey.t) :
  outcome (Oracle.fetchAllOracles connection pid) =
    Ok (flat_map oracle_entry (getProgramAccounts connection pid 128)) /\
  Forall Buffer.within (events (Oracle.fetchAllOracles connection pid)) /\
  (forall before bad after,
      connection = before ++ bad :: after ->
      oracle_entry bad = [] ->
      outcome (Oracle.fetchAllOracles connection pid) =
        outcome (Oracle.fetchAllOracles (before ++ after) pid)) /\
  (forall a1 a2 a3 d1 d2 d3,
      connection = [ (a1, mkAccountInfo pid d1); (a2, mkAccountInfo pid d2);
                     (a3, mkAccountInfo pid d3) ] ->
      length d1 = 128%nat -> length d2 = 128%nat -> length d3 = 128%nat ->
      le_combine (Buffer.window d1 0 8) = Oracle.ORACLE_MAGIC ->
      le_combine (Buffer.window d2 0 8) <> Oracle.ORACLE_MAGIC ->
      le_combine (Buffer.window d3 0 8) = Oracle.ORACLE_MAGIC ->
      outcome (Oracle.fetchAllOracles connection pid) =
        Ok [ (a1, layout_record d1); (a3, layout_record d3) ]).
Proof.
  split; [apply fetchAllOracles_outcome |].
  split; [apply collect_within |].
  split.
  - intros before bad after -> Hbad.
    rewrite !fetchAllOracles_outcome, !getProgramAccounts_app, !flat_map_app.
    do 2 f_equal.
    change (bad :: after) with ([bad] ++ after).
    rewrite getProgramAccounts_app, flat_map_app.
    unfold getProgramAccounts at 1. cbn [filter].
    destruct (_ && _); cbn [flat_map]; now rewrite ?Hbad.
  - intros a1 a2 a3 d1 d2 d3 -> H1 H2 H3 M1 M2 M3.
    rewrite fetchAllOracles_outcome.
    unfold getProgramAccounts, Oracle.PRICE_ORACLE_SIZE.
    cbn [filter snd owner account_data].
    rewrite equals_refl, H1, H2, H3. cbn [andb Nat.eqb flat_map].
    rewrite (oracle_entry_valid a1), (oracle_entry_corrupt a2),
      (oracle_entry_valid a3) by assumption.
    reflexivity.
Qed.

(** The scenario on the sample ledger, with the decoded fields spelled
    out. *)
Lemma fetchAllOracles_isolation_witness :
  outcome (Oracle.fetchAllOracles oracle_ledger oracle_program) =
    Ok [ (sample_key Byte.x31,
          Oracle.mkPriceOracle Oracle.ORACLE_MAGIC 1 254 alice bob
            50000000000 1700000000 25000);
         (sample_key Byte.x33,
          Oracle.mkPriceOracle Oracle.ORACLE_MAGIC 1 252 alice dave
            (-7) 1700000002 0) ].
Proof.
  rewrite (proj2 (proj2 (proj2 (fetchAllOracles_isolation oracle_ledger oracle_program)))
             (sample_key Byte.x31) (sample_key Byte.x32) (sample_key Byte.x33)
             oracle_1 oracle_2 oracle_3);
    try (vm_compute; reflexivity).
  vm_compute. discriminate.
Defined.

(** ** Governance permission *)

Section Governance.

Variable deserialize : Buffer.t -> result Multisig.MultisigAccount.

#[local] Abbreviation fromAccountAddress := (Multisig.fromAccountAddress deserialize).
#[local] Abbreviation isSquadsMultisig := (Multisig.isSquadsMultisig deserialize).
#[local] Abbreviation isMultisigMember := (Multisig.isMultisigMember deserialize).
#[local] Abbreviation hasGovernancePermission := (Multisig.hasGovernancePermission deserialize).

Lemma existsb_member (k : PublicKey.t) (acc : Multisig.MultisigAccount) :
  existsb (fun member => PublicKey.equals (Multisig.key member) k) (Multisig.members acc) = true
  <-> is_member k acc.
Proof.
  unfold is_member. rewrite existsb_exists, in_map_iff.
  split; intros [m [H1 H2]]; exists m.
  - apply equals_true_iff in H2. auto.
  - split; [exact H2 | now apply equals_true_iff].
Qed.

Lemma isMultisigMember_outcome (c : Connection) (g w : PublicKey.t) :
  outcome (isMultisigMember c g w) =
    Ok match outcome (fromAccountAddress c g) with
       | Ok acc =>
           existsb (fun member => PublicKey.equals (Multisig.key member) w)
             (Multisig.members acc)
       | Throw _ => false
       end.
Proof.
  unfold Multisig.isMultisigMember.
  now destruct (fromAccountAddress c g) as [l [acc | e]].
Qed.

Lemma isSquadsMultisig_outcome (c : Connection) (g : PublicKey.t) :
  outcome (isSquadsMultisig c g) =
    Ok match outcome (fromAccountAddress c g) with
       | Ok _ => true
       | Throw _ => false
       end.
Proof.
  unfold Multisig.isSquadsMultisig.
  now destruct (fromAccountAddress c g) as [l [acc | e]].
Qed.

(** The resolver in one formula: direct equality, or else membership in
    the committee found at the authority address. *)
Lemma hasGovernancePermission_outcome (c : Connection) (g w : PublicKey.t) :
  outcome (hasGovernancePermission c g w) =
    Ok (PublicKey.equals w g
        || match outcome (fromAccountAddress c g) with
           | Ok acc =>
               existsb (fun member => PublicKey.equals (Multisig.key member) w)
                 (Multisig.members acc)
           | Throw _ => false
           end).
Proof.
  unfold Multisig.hasGovernancePermission.
  destruct (PublicKey.equals w g); [reflexivity |].
  rewrite outcome_ebind, isSquadsMultisig_outcome. cbn [orb].
  destruct (outcome (fromAccountAddress c g)) as [acc | e] eqn:E.
  - rewrite isMultisigMember_outcome, E. reflexivity.
  - reflexivity.
Qed.

End Governance.

Lemma retarget_members (f : Z -> Z) (deserialize : Buffer.t -> result Multisig.MultisigAccount)
    (c : Connection) (g w : PublicKey.t) :
  Multisig.isMultisigMember (retarget f deserialize) c g w
    = Multisig.isMultisigMember deserialize c g w /\
  Multisig.hasGovernancePermission (retarget f deserialize) c g w
    = Multisig.hasGovernancePermission deserialize c g w.
Proof.
  unfold Multisig.hasGovernancePermission, Multisig.isSquadsMultisig,
    Multisig.isMultisigMember, Multisig.fromAccountAddress, retarget.
  destruct (getAccountInfo c g) as [info |].
  - destruct (deserialize (account_data info)) as [acc | e]; split; reflexivity.
  - split; reflexivity.
Qed.

(** C10. A candidate equal to the governance address is granted by the
    equality test alone, before any request to the ledger: whatever the
    ledger holds at that address, a committee included, the answer is
    [true] and the log of requests is empty. *)
Theorem authority_itself_is_granted
    (deserialize : Buffer.t -> result Multisig.MultisigAccount)
    (connection : Connection) (governanceAddress : PublicKey.t) :
  Multisig.hasGovernancePermission deserialize connection
    governanceAddress governanceAddress = ([], Ok true).
Proof.
  unfold Multisig.hasGovernancePermission.
  now rewrite equals_refl.
Qed.

(** C4, as stated, fails: on the sample ledger the committee at
    [committee_address] has the members [alice], [bob] and [carol]; the
    committee address is not one of them, [isMultisigMember] denies it, and
    [hasGovernancePermission] grants it. *)
Lemma committee_address_granted_without_membership :
  outcome (Multisig.fromAccountAddress sample_deserialize governance_ledger committee_address)
    = Ok (Multisig.mkMultisigAccount 2
            [Multisig.mkMember alice 7; Multisig.mkMember bob 7; Multisig.mkMember carol 7]
            0 None) /\
  ~ In committee_address [alice; bob; carol] /\
  outcome (Multisig.isMultisigMember sample_deserialize governance_ledger
             committee_address committee_address) = Ok false /\
  outcome (Multisig.hasGovernancePermission sample_deserialize governance_ledger
             committee_address committee_address) = Ok true.
Proof.
  split; [vm_compute; reflexivity |].
  split.
  - cbn [In]. intros [H | [H | [H | []]]];
      apply (f_equal word.unsigned) in H; vm_compute in H; discriminate H.
  - split; vm_compute; reflexivity.
Qed.

(** C4, amended. When nothing at the authority address decodes as a
    committee (no account, or bytes the codec rejects) the authority is a
    single key and permission is granted exactly to the candidate equal to
    it. When a committee decodes there, [isMultisigMember] grants exactly
    its members and [hasGovernancePermission] grants every member and
    denies every non-member other than the authority address itself. Both
    answers are the same whatever the thresholds of the decoded accounts
    are. *)
Theorem governance_permission
    (deserialize : Buffer.t -> result Multisig.MultisigAccount)
    (connection : Connection) (governanceAddress candidate : PublicKey.t) :
  (forall e,
      outcome (Multisig.fromAccountAddress deserialize connection governanceAddress)
        = Throw e ->
      (candidate = governanceAddress ->
       outcome (Multisig.hasGovernancePermission deserialize connection
                  governanceAddress candidate) = Ok true) /\
      (candidate <> governanceAddress ->
       outcome (Multisig.hasGovernancePermission deserialize connection
                  governanceAddress candidate) = Ok false)) /\
  (forall committee,
      outcome (Multisig.fromAccountAddress deserialize connection governanceAddress)
        = Ok committee ->
      (is_member candidate committee ->
       outcome (Multisig.isMultisigMember deserialize connection
                  governanceAddress candidate) = Ok true /\
       outcome (Multisig.hasGovernancePermission deserialize connection
                  governanceAddress candidate) = Ok true) /\
      (~ is_member candidate committee ->
       outcome (Multisig.isMultisigMember deserialize connection
                  governanceAddress candidate) = Ok false /\
       (candidate <> governanceAddress ->
        outcome (Multisig.hasGovernancePermission deserialize connection
                   governanceAddress candidate) = Ok false))) /\
  (forall f : Z -> Z,
      Multisig.isMultisigMember (retarget f deserialize) connection
        governanceAddress candidate
      = Multisig.isMultisigMember deserialize connection governanceAddress candidate /\
      Multisig.hasGovernancePermission (retarget f deserialize) connection
        governanceAddress candidate
      = Multisig.hasGovernancePermission deserialize connection
          governanceAddress candidate).
Proof.
  split; [| split].
  - intros e He. rewrite hasGovernancePermission_outcome, He.
    split; intros H.
    + apply equals_true_iff in H. now rewrite H.
    + apply equals_false_iff in H. now rewrite H.
  - intros committee Hc.
    rewrite hasGovernancePermission_outcome, isMultisigMember_outcome, Hc.
    split; intros H.
    + apply existsb_member in H. rewrite H.
      now rewrite orb_true_r.
    + assert (Hf : existsb
                (fun member => PublicKey.equals (Multisig.key member) candidate)
                (Multisig.members committee) = false).
      { destruct (existsb _ _) eqn:E; [| reflexivity].
        apply existsb_member in E. contradiction. }
      rewrite Hf. split; [reflexivity |].
      intros Hne. apply equals_false_iff in Hne. now rewrite Hne.
  - intros f. apply retarget_members.
Qed.

(** The four verdicts on the sample ledger: [alice] is granted by the
    committee, [dave] is denied by it, and with [dave]'s wallet as the
    authority only [dave] is granted. *)
Lemma governance_permission_witness :
  outcome (Multisig.hasGovernancePermission sample_deserialize governance_ledger
             committee_address alice) = Ok true /\
  outcome (Multisig.hasGovernancePermission sample_deserialize governance_ledger
             committee_address dave) = Ok false /\
  outcome (Multisig.hasGovernancePermission sample_deserialize governance_ledger
             dave dave) = Ok true /\
  outcome (Multisig.hasGovernancePermission sample_deserialize governance_ledger
             dave alice) = Ok false.
Proof.
  split; [| split; [| split]].
  - apply (proj1 (proj2 (governance_permission sample_deserialize governance_ledger
                           committee_address alice))
             (Multisig.mkMultisigAccount 2
                [Multisig.mkMember alice 7; Multisig.mkMember bob 7;
                 Multisig.mkMember carol 7] 0 None)).
    + vm_compute. reflexivity.
    + left. reflexivity.
  - apply (proj1 (proj2 (governance_permission sample_deserialize governance_ledger
                           committee_address dave))
             (Multisig.mkMultisigAccount 2
                [Multisig.mkMember alice 7; Multisig.mkMember bob 7;
                 Multisig.mkMember carol 7] 0 None)).
    + vm_compute. reflexivity.
    + cbn [is_member map Multisig.members Multisig.key In].
      intros [H | [H | [H | []]]];
        apply (f_equal word.unsigned) in H; vm_compute in H; discriminate H.
    + intros H. apply (f_equal word.unsigned) in H. vm_compute in H. discriminate H.
  - apply (proj1 (governance_permission sample_deserialize governance_ledger dave dave)
             Error).
    + vm_compute. reflexivity.
    + reflexivity.
  - apply (proj1 (governance_permission sample_deserialize governance_ledger dave alice)
             Error).
    + vm_compute. reflexivity.
    + intros H. apply (f_equal word.unsigned) in H. vm_compute in H. discriminate H.
Defined.

(** ** The reserve builder *)

(** With a key in the place of the portfolio address and on a
    little-endian host, the seed list the builder writes out is the one of
    [deriveLpSeatPda], and its last component is the context id on four
    little-endian bytes, as [writeUInt32LE] puts it in the payload. *)
Lemma reserveLpSeatSeeds_of_key (pid matcherState portfolio : PublicKey.t)
    (contextId : Z) :
  0 <= contextId < 2 ^ 32 ->
  reserveLpSeatSeeds Buffer.LittleEndian pid matcherState (Key portfolio) contextId
    = Ok (lpSeatSeeds pid matcherState portfolio (le_split 4 contextId)) /\
  contextIdBuffer contextId = Ok (le_split 4 contextId).
Proof.
  intros Hctx. split.
  - unfold reserveLpSeatSeeds, lpSeatSeeds.
    cbn [KeySlot_toBuffer rbind Buffer.from_Uint32Array].
    rewrite Z.mod_small by lia. reflexivity.
  - unfold contextIdBuffer, Buffer.writeUInt32LE.
    rewrite writeLE_Ok by solve_len. reflexivity.
Qed.

(** The reserve builder stops at the [toBuffer] of the portfolio address,
    on every input. *)
Lemma createRouterReserveInstruction_throws (host : Buffer.endianness)
    (user matcherState : PublicKey.t) (amount contextId : Z) (pid : PublicKey.t) :
  createRouterReserveInstruction host user matcherState amount contextId pid
  = Throw TypeError.
Proof.
  unfold createRouterReserveInstruction, reserveLpSeatSeeds. cbv zeta.
  rewrite portfolio_address_toBuffer. reflexivity.
Qed.

(** C3. The reserve builder serialises nothing. On every input and on
    any host it throws a [TypeError] while it evaluates the seed list of
    the LP seat: the portfolio address it calls [toBuffer] on is the
    promise that [createPortfolioAddress] returned, not a key. No seed
    list is completed and no payload is written, so there are no four
    payload bytes to compare with a seed; the sample reservation of
    250_000_000 under the context id 7 is one such call. *)
Theorem reserve_builds_nothing (host : Buffer.endianness)
    (user matcherState : PublicKey.t) (amount contextId : Z) (pid : PublicKey.t) :
  reserveLpSeatSeeds host pid matcherState (createPortfolioAddress user pid) contextId
    = Throw TypeError /\
  createRouterReserveInstruction host user matcherState amount contextId pid
    = Throw TypeError /\
  payload (createRouterReserveInstruction host user matcherState amount contextId pid)
    = None /\
  sample_reserve = Throw TypeError.
Proof.
  assert (Hseeds :
    reserveLpSeatSeeds host pid matcherState (createPortfolioAddress user pid) contextId
    = Throw TypeError).
  { unfold reserveLpSeatSeeds. rewrite portfolio_address_toBuffer. reflexivity. }
  split; [exact Hseeds |].
  rewrite createRouterReserveInstruction_throws.
  split; [reflexivity |]. split; [reflexivity |].
  apply createRouterReserveInstruction_throws.
Qed.

(** ** The cross-slab builder *)

Lemma sol_mint_decodes : PublicKey_of_base58 SOL_MINT = Ok sol_mint.
Proof.
  unfold PublicKey_of_base58.
  replace (Base58.decode SOL_MINT)
    with (Ok (PublicKey.be_split 32
                0x069b8857feab8184fb687f634618c035dac439dc1aeb3b5598a0f00000000001))
    by (vm_compute; reflexivity).
  cbn [rbind]. rewrite be_split_length. cbn [Nat.eqb negb].
  rewrite new_32_bytes_eq by apply be_split_length.
  unfold sol_mint. rewrite be_combine_split. reflexivity.
Qed.

(** C9. The cross-slab builder produces no payload. On every input it
    derives the vault, the registry and the authority, and then throws a
    [TypeError] while it evaluates the seed list of the receipt: the
    portfolio address it calls [toBuffer] on is the promise that
    [createPortfolioAddress] returned, not a key. The writes of the
    discriminator, the split count, the side, the size and the price are
    never reached, whatever the order parameters; the sample order is one
    such call. *)
Theorem cross_slab_builds_nothing (user slab oracle : PublicKey.t)
    (params : PlaceOrderParams) (pid : PublicKey.t) :
  createExecuteCrossSlabInstruction user slab oracle params pid
  = (vault <- deriveVaultPda sol_mint pid ;;
     registry <- deriveRegistryPda pid ;;
     authority <- deriveAuthorityPda pid ;;
     Throw TypeError)%result /\
  payload (createExecuteCrossSlabInstruction user slab oracle params pid) = None /\
  sample_cross_slab = Throw TypeError.
Proof.
  assert (Hix :
    createExecuteCrossSlabInstruction user slab oracle params pid
    = (vault <- deriveVaultPda sol_mint pid ;;
       registry <- deriveRegistryPda pid ;;
       authority <- deriveAuthorityPda pid ;;
       Throw TypeError)%result).
  { unfold createExecuteCrossSlabInstruction. cbv zeta.
    rewrite sol_mint_decodes. cbn [rbind].
    destruct (deriveVaultPda sol_mint pid) as [vault | e]; cbn [rbind]; [| reflexivity].
    destruct (deriveRegistryPda pid) as [registry | e]; cbn [rbind]; [| reflexivity].
    destruct (deriveAuthorityPda pid) as [authority | e]; cbn [rbind]; [| reflexivity].
    rewrite portfolio_address_toBuffer. reflexivity. }
  split; [exact Hix |]. split.
  - rewrite Hix.
    destruct (deriveVaultPda sol_mint pid) as [vault | e]; cbn [rbind]; [| reflexivity].
    destruct (deriveRegistryPda pid) as [registry | e]; cbn [rbind]; [| reflexivity].
    destruct (deriveAuthorityPda pid) as [authority | e]; reflexivity.
  - vm_compute. reflexivity.
Qed.

(** ** Derived addresses *)

Lemma distinct_addresses_inv (a b : result PdaResult) :
  distinct_addresses a b = true ->
  exists r1 r2, a = Ok r1 /\ b = Ok r2 /\ address r1 <> address r2.
Proof.
  destruct a as [r1 |]; [| discriminate].
  destruct b as [r2 |]; [| discriminate].
  cbn [distinct_addresses]. intros H.
  exists r1, r2. repeat split.
  apply equals_false_iff. now destruct (PublicKey.equals (address r1) (address r2)).
Qed.

(** The search returns the highest nonce from its start down to 1 whose
    candidate is accepted, together with that candidate. *)
Lemma find_from_canonical (n : nat) (seeds : list Buffer.t) (pid addr : PublicKey.t)
    (nonce : Z) :
  find_from n seeds pid = Ok (addr, nonce) ->
  1 <= nonce <= Z.of_nat n /\
  createProgramAddressSync (seeds ++ [[byte.of_Z nonce]]) pid = Ok addr /\
  (forall m : Z,
      nonce < m <= Z.of_nat n ->
      is_ok (createProgramAddressSync (seeds ++ [[byte.of_Z m]]) pid) = false).
Proof.
  induction n as [| n IH]; [discriminate |].
  cbn [find_from].
  destruct (createProgramAddressSync (seeds ++ [[byte.of_Z (Z.of_nat (S n))]]) pid)
    as [a | e] eqn:E.
  - intros [= <- <-].
    split; [lia |]. split; [exact E |].
    intros m Hm. lia.
  - intros H.
    assert (H' : find_from n seeds pid = Ok (addr, nonce))
      by (destruct (is_TypeError e); [discriminate H | exact H]).
    destruct (IH H') as (Hr & Hc & Hm).
    split; [lia |]. split; [exact Hc |].
    intros m Hlt.
    destruct (Z.eq_dec m (Z.of_nat (S n))) as [-> | Hne].
    + now rewrite E.
    + apply Hm. lia.
Qed.

(** The seeds enter the hashed bytes in their order: with the user and
    the slab exchanged, the bytes differ for every pair of nonces. *)
Lemma escrow_preimage_order (user slab mint : PublicKey.t) (n n' : byte) :
  user <> slab ->
  concat_seeds
    [ESCROW_SEED; PublicKey.toBuffer user; PublicKey.toBuffer slab;
     PublicKey.toBuffer mint; [n]] []
  <> concat_seeds
       [ESCROW_SEED; PublicKey.toBuffer slab; PublicKey.toBuffer user;
        PublicKey.toBuffer mint; [n']] [].
Proof.
  intros Hne.
  assert (Hdiff : PublicKey.toBuffer user <> PublicKey.toBuffer slab)
    by (intros H; apply Hne, toBuffer_inj, H).
  pose proof (toBuffer_length user) as HU.
  pose proof (toBuffer_length slab) as HS.
  pose proof (toBuffer_length mint) as HM.
  set (ub := PublicKey.toBuffer user) in *.
  set (sb := PublicKey.toBuffer slab) in *.
  set (mb := PublicKey.toBuffer mint) in *.
  clearbody ub sb mb.
  cbn. rewrite HU, HS, HM. cbn.
  intros H. injection H as H.
  apply app_inj_tail in H. destruct H as [H _].
  apply app_inv_tail in H.
  apply (f_equal (firstn 32)) in H.
  rewrite !firstn_app_left, !firstn_all2 in H by lia.
  contradiction.
Qed.

(** C8. The derivation is a function of the program identity and the
    ordered seed list: equal inputs give the same outcome, so two
    successful calls return the same address and the same bump, namely the
    highest nonce between 255 and 1 whose candidate is accepted, with that
    candidate. And order matters: for the escrow of the samples, exchanging
    the user seed and the slab seed leads to a different address. *)
Theorem derive_deterministic_order_sensitive :
  (forall seeds seeds' pid pid',
      seeds = seeds' -> pid = pid' ->
      findProgramAddressSync seeds pid = findProgramAddressSync seeds' pid') /\
  (forall seeds pid addr nonce,
      findProgramAddressSync seeds pid = Ok (addr, nonce) ->
      1 <= nonce <= 255 /\
      createProgramAddressSync (seeds ++ [[byte.of_Z nonce]]) pid = Ok addr /\
      (forall m,
          nonce < m <= 255 ->
          is_ok (createProgramAddressSync (seeds ++ [[byte.of_Z m]]) pid) = false)) /\
  (forall user slab mint pid r1 r2,
      deriveEscrowPda user slab mint pid = Ok r1 ->
      deriveEscrowPda user slab mint pid = Ok r2 ->
      address r1 = address r2 /\ bump r1 = bump r2) /\
  (exists user slab mint pid r1 r2,
      deriveEscrowPda user slab mint pid = Ok r1 /\
      deriveEscrowPda slab user mint pid = Ok r2 /\
      address r1 <> address r2).
Proof.
  split; [| split; [| split]].
  - intros seeds seeds' pid pid' Hs Hp. rewrite Hs, Hp. reflexivity.
  - intros seeds pid addr nonce H.
    apply (find_from_canonical 255) in H.
    destruct H as (Hr & Hc & Hm).
    split; [lia |]. split; [exact Hc |].
    intros m Hlt. apply Hm. lia.
  - intros user slab mint pid r1 r2 H1 H2.
    rewrite H1 in H2. injection H2 as <-. split; reflexivity.
  - exists alice, bob, usdc_mint, router_program.
    apply distinct_addresses_inv. vm_compute. reflexivity.
Qed.

(** The bumps of the two escrows of the samples. *)
Lemma sample_escrow_bumps :
  bump_of (deriveEscrowPda alice bob usdc_mint router_program) = Some 255 /\
  bump_of (deriveEscrowPda bob alice usdc_mint router_program) = Some 252.
Proof. split; vm_compute; reflexivity. Qed.

(** Two derivations of the escrow of [alice] on [bob]: same address, same
    bump. *)
Lemma derive_deterministic_order_sensitive_witness :
  exists r1 r2,
    deriveEscrowPda alice bob usdc_mint router_program = Ok r1 /\
    deriveEscrowPda alice bob usdc_mint router_program = Ok r2 /\
    address r1 = address r2 /\ bump r1 = bump r2.
Proof.
  destruct (is_ok_inv (deriveEscrowPda alice bob usdc_mint router_program))
    as [r E]; [vm_compute; reflexivity |].
  exists r, r. split; [exact E |]. split; [exact E |].
  exact (proj1 (proj2 (proj2 derive_deterministic_order_sensitive))
           alice bob usdc_mint router_program r r E E).
Defined.

(** ** Deposits and withdrawals *)

Lemma u64_check (v : Z) :
  (0 <=? v) && (v <=? 2 ^ 64 - 1) = true <-> 0 <= v < 2 ^ 64.
Proof.
  rewrite andb_true_iff, !Z.leb_le. lia.
Qed.

Lemma u32_check (v : Z) :
  (0 <=? v) && (v <=? 2 ^ 32 - 1) = true <-> 0 <= v < 2 ^ 32.
Proof.
  rewrite andb_true_iff, !Z.leb_le. lia.
Qed.

Lemma writeLE_range (lo hi : Z) (n : nat) (b : Buffer.t) (v : Z) (off : nat) :
  (off + n <= length b)%nat ->
  Buffer.writeLE lo hi n b v off =
    if (lo <=? v) && (v <=? hi) then Ok (Buffer.splice b off (le_split n v))
    else Throw RangeError.
Proof.
  intros H. unfold Buffer.writeLE, Buffer.in_bounds.
  destruct ((lo <=? v) && (v <=? hi)); cbn [negb]; [| reflexivity].
  now replace (off + n <=? length b)%nat with true by (symmetry; apply Nat.leb_le; lia).
Qed.

Lemma createDepositInstruction_run (user : PublicKey.t) (params : DepositParams)
    (pid : PublicKey.t) :
  createDepositInstruction user params pid =
    if (0 <=? amount params) && (amount params <=? 2 ^ 64 - 1)
    then Ok (mkTransactionInstruction pid
               (collateral_keys user (createPortfolioAddress user pid))
               (Byte.x03 :: le_split 8 (amount params)))
    else Throw RangeError.
Proof.
  unfold createDepositInstruction. cbv zeta.
  unfold Buffer.writeUInt8, Buffer.writeBigUInt64LE.
  rewrite writeLE_Ok by solve_len. cbn [rbind].
  rewrite writeLE_range by solve_len.
  destruct ((0 <=? amount params) && (amount params <=? 2 ^ 64 - 1)); reflexivity.
Qed.

Lemma createWithdrawInstruction_run (user : PublicKey.t) (params : WithdrawParams)
    (pid : PublicKey.t) :
  createWithdrawInstruction user params pid =
    if (0 <=? amount params) && (amount params <=? 2 ^ 64 - 1)
    then Ok (mkTransactionInstruction pid
               (collateral_keys user (createPortfolioAddress user pid))
               (Byte.x04 :: le_split 8 (amount params)))
    else Throw RangeError.
Proof.
  unfold createWithdrawInstruction. cbv zeta.
  unfold Buffer.writeUInt8, Buffer.writeBigUInt64LE.
  rewrite writeLE_Ok by solve_len. cbn [rbind].
  rewrite writeLE_range by solve_len.
  destruct ((0 <=? amount params) && (amount params <=? 2 ^ 64 - 1)); reflexivity.
Qed.

Lemma read_u64_payload (tag : byte) (v : Z) :
  0 <= v < 2 ^ 64 ->
  outcome (Buffer.readBigUInt64LE (tag :: le_split 8 v) 1) = Ok v.
Proof.
  intros Hv. unfold Buffer.readBigUInt64LE.
  rewrite readLE_Ok by (cbn [length]; rewrite length_le_split; lia).
  cbn [outcome snd]. f_equal.
  unfold Buffer.window. cbn [skipn].
  rewrite firstn_all2 by (rewrite length_le_split; lia).
  rewrite le_combine_split. apply Z.mod_small. cbn. lia.
Qed.

(** X1. For every 64-bit amount the withdraw builder returns an
    instruction whose payload is nine bytes, the withdraw discriminator at
    offset 0 and the amount read back by [readBigUInt64LE] at offset 1;
    for any other amount it throws a [RangeError] and returns nothing. *)
Theorem withdraw_encode_decode (user : PublicKey.t) (params : WithdrawParams)
    (pid : PublicKey.t) :
  (0 <= amount params < 2 ^ 64 ->
   exists ix,
     createWithdrawInstruction user params pid = Ok ix /\
     length (data ix) = 9%nat /\
     outcome (Buffer.readUInt8 (data ix) 0) = Ok (discriminator Withdraw) /\
     outcome (Buffer.readBigUInt64LE (data ix) 1) = Ok (amount params)) /\
  (~ 0 <= amount params < 2 ^ 64 ->
   createWithdrawInstruction user params pid = Throw RangeError).
Proof.
  rewrite createWithdrawInstruction_run. split.
  - intros Hv. rewrite (proj2 (u64_check _) Hv).
    eexists. split; [reflexivity |]. cbn [data].
    split; [cbn [length]; now rewrite length_le_split |].
    split; [reflexivity |].
    now apply read_u64_payload.
  - intros Hv.
    destruct ((0 <=? amount params) && (amount params <=? 2 ^ 64 - 1)) eqn:E;
      [| reflexivity].
    apply u64_check in E. contradiction.
Qed.

Lemma withdraw_encode_decode_witness :
  (exists ix,
     createWithdrawInstruction alice (mkDepositParams 250000000 usdc_mint)
       router_program = Ok ix /\
     length (data ix) = 9%nat /\
     outcome (Buffer.readUInt8 (data ix) 0) = Ok (discriminator Withdraw) /\
     outcome (Buffer.readBigUInt64LE (data ix) 1) = Ok 250000000) /\
  createWithdrawInstruction alice (mkDepositParams (2 ^ 64) usdc_mint) router_program
    = Throw RangeError.
Proof.
  split.
  - apply (proj1 (withdraw_encode_decode alice (mkDepositParams 250000000 usdc_mint)
                    router_program)).
    cbn. lia.
  - apply (proj2 (withdraw_encode_decode alice (mkDepositParams (2 ^ 64) usdc_mint)
                    router_program)).
    cbn. lia.
Defined.

(** X2. A withdrawal mirrors a deposit: for the same user, parameters
    and program the two builders succeed on the same inputs, name the same
    program and carry the same eight amount bytes after a discriminator of
    3 for the deposit and 4 for the withdrawal; the mint of the parameters
    enters neither instruction. Both name three accounts with the same
    flags. The user, as writable signer, and the system program are keys;
    the first, writable place holds a key in neither instruction: each
    holds a promise, and the two promises settle alike, to a key. *)
Theorem withdraw_mirrors_deposit (user : PublicKey.t) (params : DepositParams)
    (pid : PublicKey.t) :
  is_ok (createWithdrawInstruction user params pid)
    = is_ok (createDepositInstruction user params pid) /\
  (forall dep wd,
      createDepositInstruction user params pid = Ok dep ->
      createWithdrawInstruction user params pid = Ok wd ->
      programId wd = programId dep /\
      data dep = Byte.x03 :: le_split 8 (amount params) /\
      data wd = Byte.x04 :: le_split 8 (amount params) /\
      exists p q,
        keys dep = collateral_keys user (Pending p) /\
        keys wd = collateral_keys user (Pending q) /\
        settled p = settled q /\
        exists key, settled p = Ok key) /\
  (forall params',
      amount params' = amount params ->
      createDepositInstruction user params' pid = createDepositInstruction user params pid /\
      createWithdrawInstruction user params' pid = createWithdrawInstruction user params pid).
Proof.
  split; [| split].
  - rewrite createWithdrawInstruction_run, createDepositInstruction_run.
    destruct ((0 <=? amount params) && (amount params <=? 2 ^ 64 - 1)); reflexivity.
  - intros dep wd. rewrite createWithdrawInstruction_run, createDepositInstruction_run.
    destruct ((0 <=? amount params) && (amount params <=? 2 ^ 64 - 1));
      [| discriminate 1].
    intros Hdep Hwd. apply Ok_inj in Hdep, Hwd. subst dep wd.
    cbn [programId data keys].
    split; [reflexivity |]. split; [reflexivity |]. split; [reflexivity |].
    exists (createWithSeed user "portfolio" pid), (createWithSeed user "portfolio" pid).
    rewrite portfolio_address_pending.
    split; [reflexivity |]. split; [reflexivity |]. split; [reflexivity |].
    apply createWithSeed_total.
  - intros params' Ha.
    rewrite !createDepositInstruction_run, !createWithdrawInstruction_run, Ha.
    split; reflexivity.
Qed.

Lemma withdraw_mirrors_deposit_witness :
  exists dep wd,
    createDepositInstruction alice (mkDepositParams 1000000000 usdc_mint)
      router_program = Ok dep /\
    createWithdrawInstruction alice (mkDepositParams 1000000000 usdc_mint)
      router_program = Ok wd /\
    programId wd = programId dep /\
    data dep = Byte.x03 :: le_split 8 1000000000 /\
    data wd = Byte.x04 :: le_split 8 1000000000 /\
    exists p q,
      keys dep = collateral_keys alice (Pending p) /\
      keys wd = collateral_keys alice (Pending q) /\
      settled p = settled q /\
      exists key, settled p = Ok key.
Proof.
  destruct (is_ok_inv (createDepositInstruction alice
                         (mkDepositParams 1000000000 usdc_mint) router_program))
    as [dep D]; [vm_compute; reflexivity |].
  destruct (is_ok_inv (createWithdrawInstruction alice
                         (mkDepositParams 1000000000 usdc_mint) router_program))
    as [wd W]; [vm_compute; reflexivity |].
  exists dep, wd. split; [exact D |]. split; [exact W |].
  exact (proj1 (proj2 (withdraw_mirrors_deposit alice
                         (mkDepositParams 1000000000 usdc_mint) router_program))
           dep wd D W).
Defined.

(** ** The release of a reservation *)

(** The release builder stops where the reserve builder does: at the
    [toBuffer] of the portfolio address, on every input. *)
Lemma createRouterReleaseInstruction_throws (host : Buffer.endianness)
    (user matcherState : PublicKey.t) (contextId : Z) (pid : PublicKey.t) :
  createRouterReleaseInstruction host user matcherState contextId pid = Throw TypeError.
Proof.
  unfold createRouterReleaseInstruction. cbv zeta.
  rewrite portfolio_address_toBuffer. reflexivity.
Qed.

(** X3. The release builder builds nothing. On every input and on any
    host it throws a [TypeError] at the [toBuffer] of the portfolio
    address, which is a promise: before the LP seat is searched and before
    the payload is written. So it returns no instruction for any context
    id, in the 32-bit range or out of it, a context id out of range is
    never reported as a [RangeError], and it fails exactly as the reserve
    builder does for the same user, matcher state and context id. *)
Theorem release_builds_nothing (host : Buffer.endianness)
    (user matcherState : PublicKey.t) (contextId : Z) (pid : PublicKey.t) :
  createRouterReleaseInstruction host user matcherState contextId pid = Throw TypeError /\
  payload (createRouterReleaseInstruction host user matcherState contextId pid) = None /\
  (forall amount,
      createRouterReserveInstruction host user matcherState amount contextId pid
      = createRouterReleaseInstruction host user matcherState contextId pid).
Proof.
  rewrite createRouterReleaseInstruction_throws.
  split; [reflexivity |]. split; [reflexivity |].
  intros amount. apply createRouterReserveInstruction_throws.
Qed.

(** ** Liquidations and the portfolio account *)

(** A key is recovered from its 32 bytes. *)
Lemma new_toBuffer (k : PublicKey.t) : PublicKey.new (PublicKey.toBuffer k) = Ok k.
Proof.
  rewrite new_32_bytes_eq by apply toBuffer_length.
  f_equal. unfold PublicKey.toBuffer. rewrite be_combine_split.
  change (2 ^ (Z.of_nat 32 * 8)) with (2 ^ 256).
  rewrite Z.mod_small by apply word.unsigned_range.
  apply word.of_Z_unsigned.
Qed.

(** A tag byte followed by a key copied at offset 1 of a 33-byte buffer. *)
Lemma copy_key_payload (tag : Z) (k : PublicKey.t) :
  Buffer.copy (PublicKey.toBuffer k)
    (Buffer.splice (Buffer.alloc 33) 0 (le_split 1 tag)) 1
  = byte.of_Z tag :: PublicKey.toBuffer k.
Proof.
  unfold Buffer.copy.
  replace (length (Buffer.splice (Buffer.alloc 33) 0 (le_split 1 tag))) with 33%nat
    by reflexivity.
  rewrite firstn_all2 by (rewrite toBuffer_length; cbn; lia).
  unfold Buffer.splice at 1. rewrite toBuffer_length.
  cbn. now rewrite app_nil_r.
Qed.

Lemma key_payload_decodes (tag : byte) (k : PublicKey.t) :
  PublicKey.new (Buffer.window (tag :: PublicKey.toBuffer k) 1 32) = Ok k.
Proof.
  unfold Buffer.window. cbn [skipn].
  rewrite firstn_all2 by (rewrite toBuffer_length; lia).
  apply new_toBuffer.
Qed.

(** The liquidation builder in one formula: it has no failure case. *)
Lemma createLiquidateUserInstruction_eq (liquidator targetUser pid : PublicKey.t) :
  createLiquidateUserInstruction liquidator targetUser pid
  = Ok (mkTransactionInstruction pid
          [ mkAccountMeta (createPortfolioAddress liquidator pid) false true;
            mkAccountMeta liquidator true false;
            mkAccountMeta (createPortfolioAddress targetUser pid) false true;
            mkAccountMeta PublicKey.default false false ]
          (Byte.x06 :: PublicKey.toBuffer targetUser)).
Proof.
  unfold createLiquidateUserInstruction. cbv zeta. unfold Buffer.writeUInt8.
  rewrite writeLE_Ok by solve_len. cbn [rbind].
  rewrite copy_key_payload. reflexivity.
Qed.

(** X5. The liquidation builder never throws. Its payload is the
    discriminator 6 followed by the 32 bytes of the target, from which
    [new PublicKey] recovers the target. Of its four accounts two are
    keys, the liquidator as the only signer and the system program; the
    first and the third place, where the portfolios of the liquidator and
    of the target belong, hold no key: each holds the promise that settles
    to [createWithSeed] of that user, the seed "portfolio" and the
    program. *)
Theorem liquidate_names_target (liquidator targetUser pid : PublicKey.t) :
  exists ix p q,
    createLiquidateUserInstruction liquidator targetUser pid = Ok ix /\
    programId ix = pid /\
    keys ix = [ mkAccountMeta (Pending p) false true;
                mkAccountMeta liquidator true false;
                mkAccountMeta (Pending q) false true;
                mkAccountMeta PublicKey.default false false ] /\
    settled p = settled (createWithSeed liquidator "portfolio" pid) /\
    settled q = settled (createWithSeed targetUser "portfolio" pid) /\
    (exists key, settled p = Ok key) /\
    (exists key, settled q = Ok key) /\
    data ix = Byte.x06 :: PublicKey.toBuffer targetUser /\
    length (data ix) = 33%nat /\
    PublicKey.new (Buffer.window (data ix) 1 32) = Ok targetUser.
Proof.
  eexists.
  exists (createWithSeed liquidator "portfolio" pid),
         (createWithSeed targetUser "portfolio" pid).
  split; [apply createLiquidateUserInstruction_eq |].
  cbn [programId keys data]. rewrite !portfolio_address_pending.
  do 4 (split; [reflexivity |]).
  split; [apply createWithSeed_total |].
  split; [apply createWithSeed_total |].
  split; [reflexivity |].
  split; [cbn [length]; rewrite toBuffer_length; reflexivity | apply key_payload_decodes].
Qed.

Section PortfolioAccountFacts.

Variable createAccountWithSeed :
  CreateAccountWithSeedParams.t -> result TransactionInstruction.

(** The builder of the two initialisation instructions in one formula. *)
Lemma createInitializePortfolioInstructions_eq (user pid : PublicKey.t)
    (portfolioSize rentLamports : Z) :
  createInitializePortfolioInstructions createAccountWithSeed
    user pid portfolioSize rentLamports
  = match createAccountWithSeed
            (CreateAccountWithSeedParams.mk user (createPortfolioAddress user pid) user
               "portfolio" rentLamports portfolioSize pid) with
    | Ok createAccountIx =>
        Ok [ createAccountIx;
             mkTransactionInstruction pid
               [ mkAccountMeta (createPortfolioAddress user pid) false true;
                 mkAccountMeta user true true ]
               (Byte.x01 :: PublicKey.toBuffer user) ]
    | Throw e => Throw e
    end.
Proof.
  unfold createInitializePortfolioInstructions. cbv zeta.
  destruct (createAccountWithSeed _) as [createAccountIx | e]; cbn [rbind];
    [| reflexivity].
  unfold Buffer.writeUInt8. rewrite writeLE_Ok by solve_len. cbn [rbind].
  rewrite copy_key_payload. reflexivity.
Qed.

(** X6. The request handed to [SystemProgram.createAccountWithSeed] has
    the user as payer and base, the seed "portfolio" and the router program
    as owner; in the place of its new account it carries no key but a
    promise, one that settles to [createWithSeed] of that base, seed and
    owner. The builder fails only if that encoder does, and otherwise
    returns the encoded creation followed by the initialisation, whose
    payload is the discriminator 1 and the 32 bytes of the user and whose
    first account place holds the same kind of promise. So does the first
    place of every deposit and withdrawal of the user. *)
Theorem initialize_portfolio_account (user pid : PublicKey.t)
    (portfolioSize rentLamports : Z) :
  exists p,
    let request :=
      CreateAccountWithSeedParams.mk user (Pending p) user "portfolio"
        rentLamports portfolioSize pid in
    settled p
    = settled (createWithSeed (CreateAccountWithSeedParams.basePubkey request)
                 (CreateAccountWithSeedParams.seed request)
                 (CreateAccountWithSeedParams.programId request)) /\
    (exists key, settled p = Ok key) /\
    createInitializePortfolioInstructions createAccountWithSeed
      user pid portfolioSize rentLamports
    = match createAccountWithSeed request with
      | Ok createAccountIx =>
          Ok [ createAccountIx;
               mkTransactionInstruction pid
                 [ mkAccountMeta (Pending p) false true; mkAccountMeta user true true ]
                 (Byte.x01 :: PublicKey.toBuffer user) ]
      | Throw e => Throw e
      end /\
    PublicKey.new (Buffer.window (Byte.x01 :: PublicKey.toBuffer user) 1 32) = Ok user /\
    (forall params ix,
        createDepositInstruction user params pid = Ok ix \/
        createWithdrawInstruction user params pid = Ok ix ->
        exists q,
          nth_error (keys ix) 0 = Some (mkAccountMeta (Pending q) false true) /\
          settled q = settled p).
Proof.
  exists (createWithSeed user "portfolio" pid). cbv zeta.
  cbn [CreateAccountWithSeedParams.basePubkey CreateAccountWithSeedParams.seed
       CreateAccountWithSeedParams.programId].
  split; [reflexivity |].
  split; [apply createWithSeed_total |].
  split; [| split].
  - rewrite createInitializePortfolioInstructions_eq, portfolio_address_pending.
    reflexivity.
  - apply key_payload_decodes.
  - intros params ix [H | H].
    + rewrite createDepositInstruction_run in H.
      destruct ((0 <=? amount params) && (amount params <=? 2 ^ 64 - 1));
        [| discriminate H].
      apply Ok_inj in H. subst ix.
      exists (createWithSeed user "portfolio" pid). split; reflexivity.
    + rewrite createWithdrawInstruction_run in H.
      destruct ((0 <=? amount params) && (amount params <=? 2 ^ 64 - 1));
        [| discriminate H].
      apply Ok_inj in H. subst ix.
      exists (createWithSeed user "portfolio" pid). split; reflexivity.
Qed.

End PortfolioAccountFacts.

(** ** Price updates *)

Lemma is_i64_iff (v : Z) : is_i64 v = true <-> - 2 ^ 63 <= v < 2 ^ 63.
Proof.
  unfold is_i64. rewrite andb_true_iff, !Z.leb_le. lia.
Qed.

Lemma to_signed_le_split (v : Z) :
  - 2 ^ 63 <= v < 2 ^ 63 ->
  Buffer.to_signed 8 (le_combine (le_split 8 v)) = v.
Proof.
  intros Hv. rewrite le_combine_split. unfold Buffer.to_signed.
  change (8 * Z.of_nat 8 - 1) with 63. change (8 * Z.of_nat 8) with 64.
  change (Z.of_nat 8 * 8) with 64.
  destruct (Z_lt_le_dec v 0) as [Hneg | Hpos].
  - replace (v mod 2 ^ 64) with (v + 2 ^ 64)
      by (apply Z.mod_unique with (q := -1); lia).
    destruct (v + 2 ^ 64 <? 2 ^ 63) eqn:E; [apply Z.ltb_lt in E |]; lia.
  - rewrite Z.mod_small by lia.
    destruct (v <? 2 ^ 63) eqn:E; [reflexivity | apply Z.ltb_ge in E; lia].
Qed.

(** A signed 64-bit field is read back from the bytes that hold it. *)
Lemma readBigInt64LE_window (b : Buffer.t) (off : nat) (v : Z) :
  (off + 8 <= length b)%nat ->
  Buffer.window b off 8 = le_split 8 v ->
  - 2 ^ 63 <= v < 2 ^ 63 ->
  outcome (Buffer.readBigInt64LE b off) = Ok v.
Proof.
  intros Hlen Hwin Hv. unfold Buffer.readBigInt64LE.
  rewrite readLE_Ok by exact Hlen.
  cbn [ebind ret app outcome snd]. rewrite Hwin.
  f_equal. now apply to_signed_le_split.
Qed.

(** The update builder in one formula. *)
Lemma createUpdatePriceInstruction_eq (oracleAccount authority : PublicKey.t)
    (price confidence : Z) (pid : PublicKey.t) :
  Oracle.createUpdatePriceInstruction oracleAccount authority price confidence pid =
    if is_i64 price && is_i64 confidence
    then Ok (mkTransactionInstruction pid (update_keys oracleAccount authority)
               (Byte.x01 :: le_split 8 price ++ le_split 8 confidence))
    else Throw RangeError.
Proof.
  unfold Oracle.createUpdatePriceInstruction, Buffer.writeUInt8, Buffer.writeBigInt64LE.
  rewrite writeLE_Ok by solve_len. cbn [rbind].
  rewrite writeLE_range by solve_len. fold (is_i64 price).
  destruct (is_i64 price); cbn [rbind andb]; [| reflexivity].
  rewrite writeLE_range by solve_len. fold (is_i64 confidence).
  destruct (is_i64 confidence); reflexivity.
Qed.

(** X7. For a price and a confidence that are 64-bit signed integers,
    negative ones included, the update builder returns an instruction on
    the oracle account (writable) and the authority (signer) whose payload
    is 17 bytes: the discriminator 1, then the price and the confidence,
    each read back by [readBigInt64LE]. If either value is out of range it
    throws a [RangeError]. *)
Theorem update_price_encode_decode (oracleAccount authority : PublicKey.t)
    (price confidence : Z) (pid : PublicKey.t) :
  (- 2 ^ 63 <= price < 2 ^ 63 -> - 2 ^ 63 <= confidence < 2 ^ 63 ->
   exists ix,
     Oracle.createUpdatePriceInstruction oracleAccount authority price confidence pid
       = Ok ix /\
     programId ix = pid /\
     keys ix = [ mkAccountMeta oracleAccount false true;
                 mkAccountMeta authority true false ] /\
     length (data ix) = 17%nat /\
     outcome (Buffer.readUInt8 (data ix) 0)
       = Ok (Oracle.OracleInstruction_value Oracle.UpdatePrice) /\
     outcome (Buffer.readBigInt64LE (data ix) 1) = Ok price /\
     outcome (Buffer.readBigInt64LE (data ix) 9) = Ok confidence) /\
  (~ (- 2 ^ 63 <= price < 2 ^ 63 /\ - 2 ^ 63 <= confidence < 2 ^ 63) ->
   Oracle.createUpdatePriceInstruction oracleAccount authority price confidence pid
     = Throw RangeError).
Proof.
  rewrite createUpdatePriceInstruction_eq. split.
  - intros Hp Hc.
    rewrite (proj2 (is_i64_iff price) Hp), (proj2 (is_i64_iff confidence) Hc).
    eexists. split; [reflexivity |]. cbn [programId keys data andb].
    assert (Hlen : length (Byte.x01 :: le_split 8 price ++ le_split 8 confidence) = 17%nat)
      by (cbn [length]; rewrite length_app, !length_le_split; reflexivity).
    do 4 (split; [first [reflexivity | exact Hlen] |]).
    split.
    + apply readBigInt64LE_window; [rewrite Hlen; lia | | exact Hp].
      unfold Buffer.window. cbn [skipn].
      rewrite firstn_app_left by (rewrite length_le_split; lia).
      apply firstn_all2. rewrite length_le_split. lia.
    + apply readBigInt64LE_window; [rewrite Hlen; lia | | exact Hc].
      reflexivity.
  - intros Hout.
    destruct (is_i64 price) eqn:E1; [| reflexivity].
    destruct (is_i64 confidence) eqn:E2; [| reflexivity].
    apply is_i64_iff in E1, E2. tauto.
Qed.

Lemma update_price_encode_decode_witness :
  (exists ix,
     Oracle.createUpdatePriceInstruction oracle_address alice (-7) 25000 oracle_program
       = Ok ix /\
     programId ix = oracle_program /\
     keys ix = [ mkAccountMeta oracle_address false true;
                 mkAccountMeta alice true false ] /\
     length (data ix) = 17%nat /\
     outcome (Buffer.readUInt8 (data ix) 0)
       = Ok (Oracle.OracleInstruction_value Oracle.UpdatePrice) /\
     outcome (Buffer.readBigInt64LE (data ix) 1) = Ok (-7) /\
     outcome (Buffer.readBigInt64LE (data ix) 9) = Ok 25000) /\
  Oracle.createUpdatePriceInstruction oracle_address alice (2 ^ 63) 25000 oracle_program
    = Throw RangeError.
Proof.
  split.
  - apply (proj1 (update_price_encode_decode oracle_address alice (-7) 25000
                    oracle_program)); lia.
  - apply (proj2 (update_price_encode_decode oracle_address alice (2 ^ 63) 25000
                    oracle_program)). lia.
Defined.

(** ** Batches of price updates *)

Lemma map_result_Ok {A B : Type} (f : A -> result B) (l : list A) (bs : list B) :
  map_result f l = Ok bs <-> Forall2 (fun a b => f a = Ok b) l bs.
Proof.
  revert bs. induction l as [| a l IH]; intros bs; cbn [map_result].
  - split.
    + intros [= <-]. constructor.
    + intros H. inversion H. reflexivity.
  - split.
    + destruct (f a) as [b |] eqn:Ea; cbn [rbind]; [| discriminate 1].
      destruct (map_result f l) as [bs' |]; cbn [rbind]; [| discriminate 1].
      intros [= <-]. constructor; [exact Ea | now apply IH].
    + intros H. inversion H as [| a' b l' bs' Ha Hl]; subst.
      rewrite Ha. cbn [rbind].
      apply IH in Hl. rewrite Hl. reflexivity.
Qed.

Lemma map_result_all_ok {A B : Type} (f : A -> result B) (l : list A) :
  Forall (fun a => is_ok (f a) = true) l ->
  exists bs, map_result f l = Ok bs.
Proof.
  induction 1 as [| a l Ha _ [bs IH]]; cbn [map_result].
  - now exists [].
  - destruct (f a) as [b |]; [| discriminate Ha].
    cbn [rbind]. rewrite IH. cbn [rbind]. eauto.
Qed.

(** The exception of the batch is the one of the first element whose
    callback throws. *)
Lemma map_result_Throw {A B : Type} (f : A -> result B) (l : list A) (e : error) :
  Exists (fun a => is_ok (f a) = false) l ->
  (forall a e', f a = Throw e' -> e' = e) ->
  map_result f l = Throw e.
Proof.
  intros Hex He. induction l as [| a l IH]; [inversion Hex |].
  cbn [map_result].
  destruct (f a) as [b | e'] eqn:Ea; cbn [rbind].
  - inversion Hex as [? ? Hbad | ? ? Hrest]; subst.
    + rewrite Ea in Hbad. discriminate Hbad.
    + rewrite (IH Hrest). reflexivity.
  - f_equal. now apply (He a).
Qed.

Lemma update_instruction_eq (pid : PublicKey.t) (u : Oracle.Update.t) :
  update_instruction pid u =
    if update_in_range u
    then Ok (mkTransactionInstruction pid
               (update_keys (Oracle.Update.oracleAccount u) (Oracle.Update.authority u))
               (Byte.x01 :: le_split 8 (Oracle.Update.price u)
                  ++ le_split 8 (Oracle.Update.confidence u)))
    else Throw RangeError.
Proof. apply createUpdatePriceInstruction_eq. Qed.

(** X8. The batch builder is all or nothing: it returns instructions
    exactly when every update builds one, then one per update in the order
    given; if the price or the confidence of a single update is out of the
    64-bit signed range it throws a [RangeError] and returns no
    instruction at all. *)
Theorem batch_update_all_or_nothing (updates : list Oracle.Update.t) (pid : PublicKey.t) :
  (forall ixs,
      Oracle.createBatchUpdatePriceInstructions updates pid = Ok ixs <->
      Forall2 (fun u ix => update_instruction pid u = Ok ix) updates ixs) /\
  (forallb update_in_range updates = true ->
   exists ixs,
     Oracle.createBatchUpdatePriceInstructions updates pid = Ok ixs /\
     length ixs = length updates) /\
  (forallb update_in_range updates = false ->
   Oracle.createBatchUpdatePriceInstructions updates pid = Throw RangeError).
Proof.
  split; [| split].
  - intros ixs. apply map_result_Ok.
  - intros Hall.
    destruct (map_result_all_ok (update_instruction pid) updates) as [ixs Hixs].
    { rewrite forallb_forall in Hall. apply Forall_forall. intros u Hu.
      rewrite update_instruction_eq, (Hall u Hu). reflexivity. }
    exists ixs. split; [exact Hixs |].
    apply map_result_Ok in Hixs. symmetry. eapply Forall2_length, Hixs.
  - intros Hbad. apply map_result_Throw.
    + apply Exists_exists.
      assert (Hex : exists u, In u updates /\ update_in_range u = false).
      { induction updates as [| u rest IH]; [discriminate Hbad |].
        cbn [forallb] in Hbad. destruct (update_in_range u) eqn:Eu.
        - destruct (IH Hbad) as (u' & Hin & Hu'). exists u'. split; [now right | exact Hu'].
        - exists u. split; [now left | exact Eu]. }
      destruct Hex as (u & Hin & Hu). exists u. split; [exact Hin |].
      change (is_ok (update_instruction pid u) = false).
      rewrite update_instruction_eq, Hu. reflexivity.
    + intros u e' H. change (update_instruction pid u = Throw e') in H.
      rewrite update_instruction_eq in H.
      destruct (update_in_range u); [discriminate H | now injection H].
Qed.

Lemma batch_update_all_or_nothing_witness :
  (exists ixs,
     Oracle.createBatchUpdatePriceInstructions
       [ Oracle.Update.mk oracle_address alice 50000000000 25000;
         Oracle.Update.mk (sample_key Byte.x32) alice (-7) 0 ] oracle_program = Ok ixs /\
     length ixs = 2%nat) /\
  Oracle.createBatchUpdatePriceInstructions
    [ Oracle.Update.mk oracle_address alice 50000000000 25000;
      Oracle.Update.mk (sample_key Byte.x32) alice (2 ^ 63) 0 ] oracle_program
    = Throw RangeError.
Proof.
  split.
  - apply (proj1 (proj2 (batch_update_all_or_nothing
                           [ Oracle.Update.mk oracle_address alice 50000000000 25000;
                             Oracle.Update.mk (sample_key Byte.x32) alice (-7) 0 ]
                           oracle_program))).
    reflexivity.
  - apply (proj2 (proj2 (batch_update_all_or_nothing
                           [ Oracle.Update.mk oracle_address alice 50000000000 25000;
                             Oracle.Update.mk (sample_key Byte.x32) alice (2 ^ 63) 0 ]
                           oracle_program))).
    reflexivity.
Defined.

(** ** The oracle account: creation, layout and single fetch *)

Section OracleAccountFacts.

Variable createAccount : CreateAccountParams.t -> result TransactionInstruction.

(** X9. The oracle account is created with the size the decoder
    expects. The request handed to [SystemProgram.createAccount] has the
    authority as payer, the oracle key as new account, 128 bytes of space
    and the oracle program as owner; the builder fails if that encoder
    does or if the initial price is not a 64-bit signed integer, and
    otherwise returns the creation followed by the initialisation, whose
    ten-byte payload is the discriminator 0, the price and a zero bump. An
    account of the requested size owned by the program passes the size
    filter of the batch fetch; while it is still all zero the decoder
    answers [null] for it. *)
Theorem initialize_oracle_account (oracleKeypair authority instrument : PublicKey.t)
    (initialPrice : Z) (pid : PublicKey.t) (rentLamports : Z) :
  let request :=
    CreateAccountParams.mk authority oracleKeypair rentLamports 128 pid in
  Oracle.createInitializeOracleInstructions createAccount
    oracleKeypair authority instrument initialPrice pid rentLamports
  = match createAccount request with
    | Ok createAccountIx =>
        if is_i64 initialPrice
        then Ok [ createAccountIx;
                  mkTransactionInstruction pid
                    [ mkAccountMeta oracleKeypair false true;
                      mkAccountMeta authority true false;
                      mkAccountMeta instrument false false ]
                    (Byte.x00 :: le_split 8 initialPrice ++ [Byte.x00]) ]
        else Throw RangeError
    | Throw e => Throw e
    end /\
  (- 2 ^ 63 <= initialPrice < 2 ^ 63 ->
   outcome (Buffer.readBigInt64LE (Byte.x00 :: le_split 8 initialPrice ++ [Byte.x00]) 1)
     = Ok initialPrice) /\
  (forall data : Buffer.t,
      Z.of_nat (length data) = CreateAccountParams.space request ->
      getProgramAccounts [(oracleKeypair, mkAccountInfo pid data)] pid
        Oracle.PRICE_ORACLE_SIZE
      = [(oracleKeypair, mkAccountInfo pid data)]) /\
  Oracle.parseOracleData (Buffer.alloc 128) = ([Buffer.mkAccess 128 0 8], Ok None).
Proof.
  cbv zeta. split; [| split; [| split]].
  - unfold Oracle.createInitializeOracleInstructions.
    change (Z.of_nat Oracle.PRICE_ORACLE_SIZE) with 128.
    destruct (createAccount _) as [createAccountIx | e]; cbn [rbind]; [| reflexivity].
    unfold Buffer.writeUInt8, Buffer.writeBigInt64LE.
    rewrite writeLE_Ok by solve_len. cbn [rbind].
    rewrite writeLE_range by solve_len. fold (is_i64 initialPrice).
    destruct (is_i64 initialPrice); cbn [rbind]; [| reflexivity].
    rewrite writeLE_Ok by solve_len. reflexivity.
  - intros Hp. apply readBigInt64LE_window; [| | exact Hp].
    + cbn [length]. rewrite length_app, length_le_split. cbn. lia.
    + unfold Buffer.window. cbn [skipn].
      rewrite firstn_app_left by (rewrite length_le_split; lia).
      apply firstn_all2. rewrite length_le_split. lia.
  - intros data Hlen.
    cbn [CreateAccountParams.space] in Hlen.
    assert (Hsize : (length data =? Oracle.PRICE_ORACLE_SIZE)%nat = true)
      by (apply Nat.eqb_eq; unfold Oracle.PRICE_ORACLE_SIZE; lia).
    unfold getProgramAccounts. cbn [filter snd owner account_data].
    now rewrite Hsize, equals_refl.
  - rewrite parseOracleData_bad_magic.
    + now rewrite length_alloc.
    + unfold Oracle.PRICE_ORACLE_SIZE. rewrite length_alloc. lia.
    + vm_compute. discriminate.
Qed.

End OracleAccountFacts.

(** ** One oracle against the batch *)

Lemma getAccountInfo_In (c : Connection) (a : PublicKey.t) (acc : AccountInfo) :
  unique_addresses c = true -> In (a, acc) c -> getAccountInfo c a = Some acc.
Proof.
  unfold getAccountInfo.
  induction c as [| [a' acc'] rest IH]; intros Hu Hin; [contradiction |].
  cbn [unique_addresses fst] in Hu. apply andb_true_iff in Hu. destruct Hu as [Hfresh Hu].
  cbn [find fst]. destruct Hin as [[= -> ->] | Hin].
  - now rewrite equals_refl.
  - destruct (PublicKey.equals a' a) eqn:E; [| now apply IH].
    apply equals_true_iff in E. subst a'.
    apply negb_true_iff in Hfresh.
    assert (Hex : existsb (fun other => PublicKey.equals (fst other) a) rest = true).
    { apply existsb_exists. exists (a, acc). split; [exact Hin | apply equals_refl]. }
    rewrite Hex in Hfresh. discriminate Hfresh.
Qed.

Lemma oracle_entry_In (entry : PublicKey.t * AccountInfo) (a : PublicKey.t)
    (r : Oracle.PriceOracle) :
  In (a, r) (oracle_entry entry) ->
  a = fst entry /\
  outcome (Oracle.parseOracleData (account_data (snd entry))) = Ok (Some r).
Proof.
  unfold oracle_entry.
  destruct (outcome (Oracle.parseOracleData (account_data (snd entry)))) as [[r' |] | e];
    cbn [In]; try contradiction.
  intros [[= <- <-] | []]. split; reflexivity.
Qed.

Lemma fetchOracle_outcome (c : Connection) (addr : PublicKey.t) :
  outcome (Oracle.fetchOracle c addr) =
    Ok match getAccountInfo c addr with
       | Some account => decodeOracle (account_data account)
       | None => None
       end.
Proof.
  unfold Oracle.fetchOracle.
  destruct (getAccountInfo c addr) as [account |]; [| reflexivity].
  apply parseOracleData_outcome.
Qed.

(** X10. The single fetch agrees with the batch. It never throws, never
    reads outside the account data, and answers [null] without reading
    anything when no account is at the address. On a ledger without
    duplicate addresses, every oracle the batch fetch lists is returned by
    the single fetch at its address, with the same record. The single
    fetch does not look at the owner of the account. *)
Theorem fetchOracle_agrees_with_batch (c : Connection) (pid : PublicKey.t) :
  (forall addr,
      getAccountInfo c addr = None -> Oracle.fetchOracle c addr = ([], Ok None)) /\
  (forall addr,
      is_ok (outcome (Oracle.fetchOracle c addr)) = true /\
      Forall Buffer.within (events (Oracle.fetchOracle c addr))) /\
  (unique_addresses c = true ->
   forall oracles,
     outcome (Oracle.fetchAllOracles c pid) = Ok oracles ->
     Forall (fun entry => outcome (Oracle.fetchOracle c (fst entry)) = Ok (Some (snd entry)))
       oracles) /\
  (forall addr o o' d,
      Oracle.fetchOracle ((addr, mkAccountInfo o d) :: c) addr
      = Oracle.fetchOracle ((addr, mkAccountInfo o' d) :: c) addr).
Proof.
  split; [| split; [| split]].
  - intros addr H. unfold Oracle.fetchOracle. now rewrite H.
  - intros addr. split.
    + now rewrite fetchOracle_outcome.
    + unfold Oracle.fetchOracle.
      destruct (getAccountInfo c addr) as [account |];
        [apply parseOracleData_within | constructor].
  - intros Hu oracles H. rewrite fetchAllOracles_outcome in H. injection H as <-.
    apply Forall_forall. intros [a r] Hin. cbn [fst snd].
    apply in_flat_map in Hin. destruct Hin as (entry & Hentry & Hin).
    apply oracle_entry_In in Hin. destruct Hin as [-> Hparse].
    unfold getProgramAccounts in Hentry. apply filter_In in Hentry.
    destruct Hentry as [Hentry _]. destruct entry as [a acc].
    unfold Oracle.fetchOracle. cbn [fst snd] in *.
    now rewrite (getAccountInfo_In c a acc Hu Hentry).
  - intros addr o o' d. unfold Oracle.fetchOracle, getAccountInfo.
    cbn [find fst]. now rewrite equals_refl.
Qed.

Lemma fetchOracle_agrees_with_batch_witness :
  Forall
    (fun entry =>
       outcome (Oracle.fetchOracle oracle_ledger (fst entry)) = Ok (Some (snd entry)))
    (flat_map oracle_entry
       (getProgramAccounts oracle_ledger oracle_program Oracle.PRICE_ORACLE_SIZE)).
Proof.
  apply (proj1 (proj2 (proj2 (fetchOracle_agrees_with_batch oracle_ledger oracle_program)))).
  - vm_compute. reflexivity.
  - apply fetchAllOracles_outcome.
Defined.

(** The single fetch asks for neither the owner nor the exact size: an
    oracle image held by an account of another program is decoded, while
    the batch of the oracle program does not list it. *)
Lemma fetchOracle_foreign_account :
  outcome (Oracle.fetchOracle [(oracle_address, mkAccountInfo alice oracle_1)] oracle_address)
    = Ok (Some (layout_record oracle_1)) /\
  outcome (Oracle.fetchAllOracles [(oracle_address, mkAccountInfo alice oracle_1)]
             oracle_program) = Ok [].
Proof.
  split.
  - rewrite fetchOracle_outcome. unfold getAccountInfo. cbn [find fst].
    rewrite equals_refl. cbn [option_map snd account_data].
    unfold oracle_1. now rewrite oracle_image_decodes.
  - rewrite fetchAllOracles_outcome. unfold getProgramAccounts.
    cbn [filter snd owner].
    replace (PublicKey.equals alice oracle_program) with false
      by (vm_compute; reflexivity).
    reflexivity.
Qed.

(** ** The layout of the oracle record *)

Lemma window_app_drop (a r : Buffer.t) (m off n : nat) :
  length a = m -> (m <= off)%nat ->
  Buffer.window (a ++ r) off n = Buffer.window r (off - m) n.
Proof.
  intros Hm Hoff. unfold Buffer.window. f_equal.
  rewrite skipn_app, Hm.
  rewrite skipn_all2 by lia. reflexivity.
Qed.

Lemma window_app_take (a r : Buffer.t) (n : nat) :
  length a = n -> Buffer.window (a ++ r) 0 n = a.
Proof.
  intros Hn. unfold Buffer.window. cbn [skipn].
  rewrite firstn_app_left by lia. apply firstn_all2. lia.
Qed.

Lemma key_of_toBuffer (k : PublicKey.t) :
  word.of_Z (PublicKey.be_combine (PublicKey.toBuffer k)) = k.
Proof.
  pose proof (new_toBuffer k) as H.
  rewrite new_32_bytes_eq in H by apply toBuffer_length.
  now injection H.
Qed.

Lemma le_combine_le_split_small (n : nat) (v : Z) :
  0 <= v < 2 ^ (Z.of_nat n * 8) -> le_combine (le_split n v) = v.
Proof.
  intros Hv. rewrite le_combine_split. now apply Z.mod_small.
Qed.

Lemma length_oracle_layout (r : Oracle.PriceOracle) (pad1 pad2 : list byte) :
  length (oracle_layout r pad1 pad2) = (98 + length pad1 + length pad2)%nat.
Proof.
  unfold oracle_layout.
  rewrite !length_app, !toBuffer_length, !length_le_split. lia.
Qed.

Ltac layout_drop :=
  match goal with
  | |- Buffer.window (?a ++ ?r) ?off ?n = _ =>
      lazymatch a with
      | le_split ?k ?v =>
          rewrite (window_app_drop a r k off n (length_le_split k v)) by lia
      | PublicKey.toBuffer ?key =>
          rewrite (window_app_drop a r 32 off n (toBuffer_length key)) by lia
      | _ =>
          match goal with
          | H : length a = ?m |- _ => rewrite (window_app_drop a r m off n H) by lia
          end
      end;
      cbn [Nat.sub]
  end.

Ltac layout_field :=
  unfold oracle_layout;
  repeat layout_drop;
  apply window_app_take;
  first [ apply length_le_split | apply toBuffer_length ].

Lemma layout_record_oracle_layout (r : Oracle.PriceOracle) (pad1 pad2 : list byte) :
  length pad1 = 6%nat ->
  oracle_record_ok r ->
  layout_record (oracle_layout r pad1 pad2) = r.
Proof.
  intros Hpad (Hmagic & Hversion & Hbump & Hprice & Htime & Hconf).
  unfold layout_record.
  replace (Buffer.window (oracle_layout r pad1 pad2) 0 8)
    with (le_split 8 (Oracle.magic r)) by (symmetry; layout_field).
  replace (Buffer.window (oracle_layout r pad1 pad2) 8 1)
    with (le_split 1 (Oracle.version r)) by (symmetry; layout_field).
  replace (Buffer.window (oracle_layout r pad1 pad2) 9 1)
    with (le_split 1 (Oracle.bump r)) by (symmetry; layout_field).
  replace (Buffer.window (oracle_layout r pad1 pad2) 16 32)
    with (PublicKey.toBuffer (Oracle.authority r)) by (symmetry; layout_field).
  replace (Buffer.window (oracle_layout r pad1 pad2) 48 32)
    with (PublicKey.toBuffer (Oracle.instrument r)) by (symmetry; layout_field).
  replace (Buffer.window (oracle_layout r pad1 pad2) 80 8)
    with (le_split 8 (Oracle.price r)) by (symmetry; layout_field).
  replace (Buffer.window (oracle_layout r pad1 pad2) 88 8)
    with (le_split 8 (Oracle.timestamp r)) by (symmetry; layout_field).
  replace (Buffer.window (oracle_layout r pad1 pad2) 96 8)
    with (le_split 8 (Oracle.confidence r)) by (symmetry; layout_field).
  rewrite !key_of_toBuffer, !to_signed_le_split by assumption.
  rewrite !le_combine_le_split_small
    by (first [ exact Hversion | exact Hbump
              | rewrite Hmagic; unfold Oracle.ORACLE_MAGIC; cbn; lia ]).
  now destruct r.
Qed.

(** X11. Decoding inverts the layout. For every record with the magic of
    the program, a one-byte version and bump and 64-bit signed price,
    timestamp and confidence, the bytes that hold its fields at the
    offsets of the layout, with any six bytes of padding at 10..15 and any
    24 or more bytes after offset 104, decode to that very record, in
    eight reads. *)
Theorem oracle_layout_round_trip (r : Oracle.PriceOracle) (pad1 pad2 : list byte) :
  length pad1 = 6%nat ->
  (24 <= length pad2)%nat ->
  oracle_record_ok r ->
  Oracle.parseOracleData (oracle_layout r pad1 pad2)
  = (oracle_accesses (104 + length pad2), Ok (Some r)).
Proof.
  intros Hpad1 Hpad2 Hr.
  assert (Hlen : length (oracle_layout r pad1 pad2) = (104 + length pad2)%nat)
    by (rewrite length_oracle_layout; lia).
  rewrite parseOracleData_good.
  - now rewrite Hlen, layout_record_oracle_layout.
  - unfold Oracle.PRICE_ORACLE_SIZE. lia.
  - replace (Buffer.window (oracle_layout r pad1 pad2) 0 8)
      with (le_split 8 (Oracle.magic r)) by (symmetry; layout_field).
    destruct Hr as (Hmagic & _). rewrite Hmagic. reflexivity.
Qed.

Lemma oracle_layout_round_trip_witness :
  Oracle.parseOracleData
    (oracle_layout
       (Oracle.mkPriceOracle Oracle.ORACLE_MAGIC 1 254 alice bob (-7) 1700000002 0)
       (repeat Byte.xff 6) (repeat Byte.xff 24))
  = (oracle_accesses (104 + length (repeat Byte.xff 24)),
     Ok (Some (Oracle.mkPriceOracle Oracle.ORACLE_MAGIC 1 254 alice bob
                 (-7) 1700000002 0))).
Proof.
  apply (oracle_layout_round_trip
           (Oracle.mkPriceOracle Oracle.ORACLE_MAGIC 1 254 alice bob (-7) 1700000002 0)
           (repeat Byte.xff 6) (repeat Byte.xff 24)).
  - reflexivity.
  - cbn. lia.
  - unfold oracle_record_ok. cbn. lia.
Defined.

Lemma window_skipn (b : Buffer.t) (off n e : nat) :
  (off + n = e)%nat ->
  Buffer.window b off n ++ skipn e b = skipn off b.
Proof.
  intros <-. unfold Buffer.window.
  rewrite (Nat.add_comm off n), <- skipn_skipn.
  apply firstn_skipn.
Qed.

Lemma to_signed_range (u : Z) :
  0 <= u < 2 ^ 64 -> - 2 ^ 63 <= Buffer.to_signed 8 u < 2 ^ 63.
Proof.
  intros Hu. unfold Buffer.to_signed.
  change (8 * Z.of_nat 8 - 1) with 63. change (8 * Z.of_nat 8) with 64.
  destruct (u <? 2 ^ 63) eqn:E; [apply Z.ltb_lt in E | apply Z.ltb_ge in E]; lia.
Qed.

Lemma le_split_to_signed (bs : list byte) :
  length bs = 8%nat -> le_split 8 (Buffer.to_signed 8 (le_combine bs)) = bs.
Proof.
  intros Hlen.
  pose proof (le_combine_bound bs) as Hb. rewrite Hlen in Hb.
  change (2 ^ (8 * Z.of_nat 8)) with (2 ^ 64) in Hb.
  rewrite <- (split_le_combine' bs 8 Hlen) at 2.
  unfold Buffer.to_signed.
  change (8 * Z.of_nat 8 - 1) with 63. change (8 * Z.of_nat 8) with 64.
  destruct (le_combine bs <? 2 ^ 63); [reflexivity |].
  rewrite (le_split_mod (le_combine bs - 2 ^ 64)), (le_split_mod (le_combine bs)).
  f_equal. change (2 ^ (Z.of_nat 8 * 8)) with (2 ^ 64).
  rewrite <- (Z.mod_add (le_combine bs - 2 ^ 64) 1 (2 ^ 64)) by lia.
  f_equal. lia.
Qed.

Lemma toBuffer_of_bytes (bs : list byte) :
  length bs = 32%nat ->
  PublicKey.toBuffer (word.of_Z (PublicKey.be_combine bs)) = bs.
Proof.
  intros Hlen. destruct (new_32_bytes bs Hlen) as (k & Hk & Hbs).
  rewrite new_32_bytes_eq in Hk by exact Hlen.
  injection Hk as <-. exact Hbs.
Qed.

(** What a successful decode tells about the buffer. *)
Lemma decodeOracle_Some (data : Buffer.t) (r : Oracle.PriceOracle) :
  decodeOracle data = Some r ->
  (128 <= length data)%nat /\
  le_combine (Buffer.window data 0 8) = Oracle.ORACLE_MAGIC /\
  r = layout_record data.
Proof.
  unfold decodeOracle, Oracle.PRICE_ORACLE_SIZE.
  destruct (length data <? 128)%nat eqn:Hlen; [discriminate 1 |].
  apply Nat.ltb_ge in Hlen.
  destruct (le_combine (Buffer.window data 0 8) =? Oracle.ORACLE_MAGIC) eqn:Hm;
    [| discriminate 1].
  apply Z.eqb_eq in Hm. intros [= <-]. auto.
Qed.

(** X12. A decoded record determines the account bytes up to the
    padding: whenever the decoder returns a record, the record has the
    magic of the program, a one-byte version and bump and 64-bit signed
    price, timestamp and confidence, and the buffer is the layout of that
    record around its own bytes 10..15 and its own bytes from 104 on. *)
Theorem oracle_decode_determines_bytes (data : Buffer.t) (r : Oracle.PriceOracle) :
  outcome (Oracle.parseOracleData data) = Ok (Some r) ->
  oracle_record_ok r /\
  data = oracle_layout r (Buffer.window data 10 6) (skipn 104 data).
Proof.
  rewrite parseOracleData_outcome. intros [= H].
  apply decodeOracle_Some in H. destruct H as (Hlen & Hmagic & ->).
  assert (Hw : forall off n, (off + n <= 128)%nat ->
                 length (Buffer.window data off n) = n)
    by (intros off n Hn; apply length_window; lia).
  assert (Hb : forall off, (off + 8 <= 128)%nat ->
                 0 <= le_combine (Buffer.window data off 8) < 2 ^ 64).
  { intros off Hoff. pose proof (le_combine_bound (Buffer.window data off 8)) as Hb.
    rewrite Hw in Hb by exact Hoff. exact Hb. }
  assert (Hb1 : forall off, (off + 1 <= 128)%nat ->
                  0 <= le_combine (Buffer.window data off 1) < 256).
  { intros off Hoff. pose proof (le_combine_bound (Buffer.window data off 1)) as Hb1.
    rewrite Hw in Hb1 by exact Hoff. exact Hb1. }
  split.
  - unfold oracle_record_ok, layout_record.
    cbn [Oracle.magic Oracle.version Oracle.bump Oracle.price Oracle.timestamp
         Oracle.confidence].
    split; [exact Hmagic |].
    split; [apply Hb1; lia |].
    split; [apply Hb1; lia |].
    repeat split; apply to_signed_range, Hb; lia.
  - unfold oracle_layout, layout_record.
    cbn [Oracle.magic Oracle.version Oracle.bump Oracle.authority Oracle.instrument
         Oracle.price Oracle.timestamp Oracle.confidence].
    rewrite !le_split_to_signed by (apply Hw; lia).
    rewrite !toBuffer_of_bytes by (apply Hw; lia).
    rewrite (split_le_combine' (Buffer.window data 0 8) 8) by (apply Hw; lia).
    rewrite (split_le_combine' (Buffer.window data 8 1) 1) by (apply Hw; lia).
    rewrite (split_le_combine' (Buffer.window data 9 1) 1) by (apply Hw; lia).
    rewrite (window_skipn data 96 8 104) by reflexivity.
    rewrite (window_skipn data 88 8 96) by reflexivity.
    rewrite (window_skipn data 80 8 88) by reflexivity.
    rewrite (window_skipn data 48 32 80) by reflexivity.
    rewrite (window_skipn data 16 32 48) by reflexivity.
    rewrite (window_skipn data 10 6 16) by reflexivity.
    rewrite (window_skipn data 9 1 10) by reflexivity.
    rewrite (window_skipn data 8 1 9) by reflexivity.
    rewrite (window_skipn data 0 8 8) by reflexivity.
    reflexivity.
Qed.

Lemma oracle_decode_determines_bytes_witness :
  oracle_record_ok (layout_record oracle_1) /\
  oracle_1 = oracle_layout (layout_record oracle_1)
               (Buffer.window oracle_1 10 6) (skipn 104 oracle_1).
Proof.
  apply (oracle_decode_determines_bytes oracle_1 (layout_record oracle_1)).
  rewrite parseOracleData_outcome. unfold oracle_1.
  now rewrite oracle_image_decodes.
Defined.

(** ** The ten derived addresses *)

Lemma derive_request_seeds (q : PdaRequest) (pid : PublicKey.t) :
  derive q pid =
    (seeds <- request_seeds q ;; pdaResult (findProgramAddressSync seeds pid))%result.
Proof.
  destruct q; cbn [derive request_seeds rbind];
    unfold deriveAuthorityPda, deriveRouterSignerPda, deriveInsuranceVaultPda,
      deriveVaultPda, deriveEscrowPda, deriveCapPda, derivePortfolioPda,
      deriveRegistryPda, deriveLpSeatPda, deriveVenuePnlPda;
    try reflexivity.
  - destruct (nonceBuffer nonce); reflexivity.
  - destruct (contextIdBuffer contextId); reflexivity.
Qed.

Lemma nonceBuffer_eq (nonce : Z) :
  nonceBuffer nonce =
    if (0 <=? nonce) && (nonce <=? 2 ^ 64 - 1) then Ok (le_split 8 nonce)
    else Throw RangeError.
Proof.
  unfold nonceBuffer, Buffer.writeBigUInt64LE.
  rewrite writeLE_range by solve_len.
  destruct ((0 <=? nonce) && (nonce <=? 2 ^ 64 - 1)); reflexivity.
Qed.

Lemma contextIdBuffer_eq (contextId : Z) :
  contextIdBuffer contextId =
    if (0 <=? contextId) && (contextId <=? 2 ^ 32 - 1) then Ok (le_split 4 contextId)
    else Throw RangeError.
Proof.
  unfold contextIdBuffer, Buffer.writeUInt32LE.
  rewrite writeLE_range by solve_len.
  destruct ((0 <=? contextId) && (contextId <=? 2 ^ 32 - 1)); reflexivity.
Qed.

(** Seeds of at most 32 bytes are appended one after the other. *)
Lemma concat_seeds_short (seeds : list Buffer.t) (buffer : Buffer.t) :
  Forall (fun seed => (length seed <= 32)%nat) seeds ->
  concat_seeds seeds buffer = Ok (buffer ++ concat seeds).
Proof.
  intros H. revert buffer.
  induction H as [| seed rest Hs _ IH]; intros buffer; cbn [concat_seeds concat].
  - now rewrite app_nil_r.
  - replace (MAX_SEED_LENGTH <? length seed)%nat with false
      by (symmetry; apply Nat.ltb_ge; exact Hs).
    rewrite IH. now rewrite app_assoc.
Qed.

(** The seed list never throws a [TypeError]: it throws on an integer out
    of range only. *)
Lemma request_seeds_cases (q : PdaRequest) :
  match request_seeds q with
  | Ok seeds =>
      Forall (fun seed => (length seed <= 32)%nat) seeds /\
      concat seeds = request_bytes q
  | Throw e => e = RangeError
  end.
Proof.
  destruct q; cbn [request_seeds request_bytes];
    try (split; [repeat constructor; rewrite ?toBuffer_length; cbn; lia
                | cbn [concat]; now rewrite ?app_nil_r, <- ?app_assoc]).
  - rewrite nonceBuffer_eq.
    destruct ((0 <=? nonce) && (nonce <=? 2 ^ 64 - 1)); cbn [rbind]; [| reflexivity].
    split; [repeat constructor; rewrite ?toBuffer_length, ?length_le_split; cbn; lia |].
    cbn [concat]. now rewrite ?app_nil_r, <- ?app_assoc.
  - rewrite contextIdBuffer_eq.
    destruct ((0 <=? contextId) && (contextId <=? 2 ^ 32 - 1)); cbn [rbind]; [| reflexivity].
    split; [repeat constructor; rewrite ?toBuffer_length, ?length_le_split; cbn; lia |].
    unfold lpSeatSeeds. cbn [concat]. now rewrite ?app_nil_r, <- ?app_assoc.
Qed.

(** What an accepted candidate is: the digest of the seeds, the program
    and the marker, and not a point of the curve. *)
Lemma createProgramAddressSync_Ok (seeds : list Buffer.t) (pid addr : PublicKey.t) :
  Forall (fun seed => (length seed <= 32)%nat) seeds ->
  createProgramAddressSync seeds pid = Ok addr ->
  PublicKey.toBuffer addr = Sha256.sha256 (pda_preimage (concat seeds) pid) /\
  Ed25519.isOnCurve (PublicKey.toBuffer addr) = false.
Proof.
  intros Hs. unfold createProgramAddressSync.
  rewrite concat_seeds_short by exact Hs. cbn [rbind app].
  destruct (Ed25519.isOnCurve _) eqn:E; [discriminate 1 |].
  intros H.
  destruct (new_32_bytes _ (sha256_length (pda_preimage (concat seeds) pid)))
    as (k & Hk & Hbytes).
  rewrite Hk in H. injection H as <-.
  rewrite Hbytes. split; [reflexivity | exact E].
Qed.

(** The search throws a [TypeError] only if a candidate does. *)
Lemma find_from_error (n : nat) (seeds : list Buffer.t) (pid : PublicKey.t) (e : error) :
  Forall (fun seed => (length seed <= 32)%nat) seeds ->
  find_from n seeds pid = Throw e -> e = Error.
Proof.
  intros Hs. induction n as [| n IH]; cbn [find_from]; [now intros [= <-] |].
  unfold createProgramAddressSync at 1.
  rewrite concat_seeds_short
    by (apply Forall_app; split; [exact Hs | repeat constructor; cbn; lia]).
  cbn [rbind].
  destruct (Ed25519.isOnCurve _); cbn [is_TypeError]; [exact IH |].
  destruct (new_32_bytes _ (sha256_length
              (pda_preimage ([] ++ concat (seeds ++ [[byte.of_Z (Z.of_nat (S n))]])) pid)))
    as (k & Hk & _).
  rewrite Hk. discriminate 1.
Qed.



Lemma app_inj_length {A : Type} (a a' r r' : list A) :
  length a = length a' -> a ++ r = a' ++ r' -> a = a' /\ r = r'.
Proof.
  revert a'. induction a as [| x a IH]; intros [| x' a'] Hlen H;
    try discriminate Hlen.
  - split; [reflexivity | exact H].
  - injection Hlen as Hlen. injection H as -> H.
    destruct (IH a' Hlen H) as [-> ->]. split; reflexivity.
Qed.

Lemma key_app_inj (k k' : PublicKey.t) (r r' : list byte) :
  PublicKey.toBuffer k ++ r = PublicKey.toBuffer k' ++ r' -> k = k' /\ r = r'.
Proof.
  intros H. apply app_inj_length in H; [| now rewrite !toBuffer_length].
  destruct H as [H ->]. split; [now apply toBuffer_inj | reflexivity].
Qed.

Lemma key_inj_nil (k k' : PublicKey.t) :
  PublicKey.toBuffer k = PublicKey.toBuffer k' -> k = k'.
Proof. apply toBuffer_inj. Qed.

Lemma le_split_inj (n : nat) (a b : Z) :
  0 <= a < 2 ^ (Z.of_nat n * 8) -> 0 <= b < 2 ^ (Z.of_nat n * 8) ->
  le_split n a = le_split n b -> a = b.
Proof.
  intros Ha Hb H. apply (f_equal le_combine) in H.
  rewrite !le_combine_split, !Z.mod_small in H by assumption. exact H.
Qed.

Lemma length_request_bytes (q : PdaRequest) :
  length (request_bytes q) =
    match q with
    | AuthorityPda => 9
    | RouterSignerPda => 13
    | InsuranceVaultPda => 15
    | VaultPda _ => 37
    | EscrowPda _ _ _ => 102
    | CapPda _ _ _ _ => 107
    | PortfolioPda _ => 41
    | RegistryPda => 8
    | LpSeatPda _ _ _ _ => 107
    | VenuePnlPda _ _ => 73
    end%nat.
Proof.
  destruct q; cbn [request_bytes];
    rewrite ?length_app, ?toBuffer_length, ?length_le_split; reflexivity.
Qed.

Lemma hd_request_bytes (q : PdaRequest) :
  hd Byte.x00 (request_bytes q) =
    match q with
    | AuthorityPda => Byte.x61
    | RouterSignerPda => Byte.x72
    | InsuranceVaultPda => Byte.x69
    | VaultPda _ => Byte.x76
    | EscrowPda _ _ _ => Byte.x65
    | CapPda _ _ _ _ => Byte.x63
    | PortfolioPda _ => Byte.x70
    | RegistryPda => Byte.x72
    | LpSeatPda _ _ _ _ => Byte.x6c
    | VenuePnlPda _ _ => Byte.x76
    end.
Proof. destruct q; reflexivity. Qed.

(** A request whose seed list is built has its integer in range. *)
Lemma request_seeds_range (q : PdaRequest) :
  is_ok (request_seeds q) = true ->
  match q with
  | CapPda _ _ _ nonce => 0 <= nonce < 2 ^ 64
  | LpSeatPda _ _ _ contextId => 0 <= contextId < 2 ^ 32
  | _ => True
  end.
Proof.
  destruct q; cbn [request_seeds]; try (intros _; exact I).
  - rewrite nonceBuffer_eq.
    destruct ((0 <=? nonce) && (nonce <=? 2 ^ 64 - 1)) eqn:E; [| discriminate 1].
    intros _. now apply u64_check.
  - rewrite contextIdBuffer_eq.
    destruct ((0 <=? contextId) && (contextId <=? 2 ^ 32 - 1)) eqn:E; [| discriminate 1].
    intros _. now apply u32_check.
Qed.

Lemma request_bytes_inj (q1 q2 : PdaRequest) :
  is_ok (request_seeds q1) = true ->
  is_ok (request_seeds q2) = true ->
  request_bytes q1 = request_bytes q2 -> q1 = q2.
Proof.
  intros H1 H2 H.
  apply request_seeds_range in H1, H2.
  pose proof (f_equal (@length byte) H) as Hlen.
  pose proof (f_equal (hd Byte.x00) H) as Hhd.
  rewrite !length_request_bytes in Hlen. rewrite !hd_request_bytes in Hhd.
  destruct q1, q2; try discriminate Hlen; try discriminate Hhd;
    clear Hlen Hhd; cbn [request_bytes] in H;
    try reflexivity;
    apply app_inv_head in H;
    repeat match type of H with
           | PublicKey.toBuffer _ ++ _ = PublicKey.toBuffer _ ++ _ =>
               apply key_app_inj in H; destruct H as [-> H]
           | PublicKey.toBuffer _ = PublicKey.toBuffer _ =>
               apply key_inj_nil in H; rewrite H
           end;
    try reflexivity.
  - f_equal. now apply (le_split_inj 8).
  - f_equal. now apply (le_split_inj 4).
Qed.

(** X14. The seeds of the ten derivation helpers never collide: if two
    requests, each with a bump candidate, lead to the same hashed bytes,
    then they are the same kind of request with the same arguments and the
    same bump. Two distinct derived accounts can therefore share an
    address only through a collision of SHA-256. *)
Theorem seed_encoding_injective (q1 q2 : PdaRequest) (seeds1 seeds2 : list Buffer.t)
    (n1 n2 : byte) (buffer : Buffer.t) :
  request_seeds q1 = Ok seeds1 ->
  request_seeds q2 = Ok seeds2 ->
  concat_seeds (seeds1 ++ [[n1]]) [] = Ok buffer ->
  concat_seeds (seeds2 ++ [[n2]]) [] = Ok buffer ->
  q1 = q2 /\ n1 = n2.
Proof.
  intros Hs1 Hs2 Hb1 Hb2.
  pose proof (request_seeds_cases q1) as Hq1. rewrite Hs1 in Hq1.
  pose proof (request_seeds_cases q2) as Hq2. rewrite Hs2 in Hq2.
  destruct Hq1 as [Hshort1 Hbytes1]. destruct Hq2 as [Hshort2 Hbytes2].
  rewrite concat_seeds_short in Hb1, Hb2
    by (apply Forall_app; split; [assumption | repeat constructor; cbn; lia]).
  rewrite concat_app in Hb1, Hb2. cbn [app concat] in Hb1, Hb2.
  rewrite Hbytes1 in Hb1. rewrite Hbytes2 in Hb2.
  rewrite <- Hb2 in Hb1. injection Hb1 as Hb.
  apply app_inj_tail in Hb. destruct Hb as [Hb ->].
  split; [| reflexivity].
  apply request_bytes_inj; [now rewrite Hs1 | now rewrite Hs2 | exact Hb].
Qed.

Lemma seed_encoding_injective_witness :
  CapPda alice bob usdc_mint 7 = CapPda alice bob usdc_mint 7 /\ Byte.xff = Byte.xff.
Proof.
  apply (seed_encoding_injective
           (CapPda alice bob usdc_mint 7) (CapPda alice bob usdc_mint 7)
           [CAP_SEED; PublicKey.toBuffer alice; PublicKey.toBuffer bob;
            PublicKey.toBuffer usdc_mint; le_split 8 7]
           [CAP_SEED; PublicKey.toBuffer alice; PublicKey.toBuffer bob;
            PublicKey.toBuffer usdc_mint; le_split 8 7]
           Byte.xff Byte.xff
           (request_bytes (CapPda alice bob usdc_mint 7) ++ [Byte.xff]));
    try reflexivity;
    (rewrite concat_seeds_short;
     [ cbn [concat request_bytes app]; now rewrite ?app_nil_r, <- ?app_assoc
     | repeat constructor; rewrite ?toBuffer_length; cbn; lia ]).
Defined.

(** ** The multisig helpers *)

Section MultisigFacts.

Variable deserialize : Buffer.t -> result Multisig.MultisigAccount.
Variable proposalAccounts :
  Connection -> PublicKey.t -> result (list (PublicKey.t * AccountInfo)).

#[local] Abbreviation fromAccountAddress := (Multisig.fromAccountAddress deserialize).
#[local] Abbreviation isSquadsMultisig := (Multisig.isSquadsMultisig deserialize).
#[local] Abbreviation isMultisigMember := (Multisig.isMultisigMember deserialize).
#[local] Abbreviation hasGovernancePermission := (Multisig.hasGovernancePermission deserialize).
#[local] Abbreviation getMultisigInfo := (Multisig.getMultisigInfo deserialize).
#[local] Abbreviation getPendingProposals :=
  (Multisig.getPendingProposals deserialize proposalAccounts).

Lemma fromAccountAddress_events (c : Connection) (g : PublicKey.t) :
  events (fromAccountAddress c g) = [g].
Proof. reflexivity. Qed.

Lemma fromAccountAddress_split (c : Connection) (g : PublicKey.t) :
  fromAccountAddress c g = ([g], outcome (fromAccountAddress c g)).
Proof. reflexivity. Qed.

Lemma member_copies (ms : list Multisig.Member) :
  map (fun member => Multisig.mkMember (Multisig.key member) (Multisig.permissions member)) ms
  = ms.
Proof.
  induction ms as [| [k p] ms IH]; [reflexivity |].
  cbn [map Multisig.key Multisig.permissions]. now rewrite IH.
Qed.

Lemma getMultisigInfo_eq (c : Connection) (g : PublicKey.t) :
  getMultisigInfo c g
  = ([g],
     Ok match outcome (fromAccountAddress c g) with
        | Ok acc =>
            Some (Multisig.MultisigInfo.mk g (Multisig.threshold acc)
                    (map (fun member =>
                            Multisig.mkMember (Multisig.key member)
                              (Multisig.permissions member))
                       (Multisig.members acc))
                    (Multisig.transactionIndex acc) (Multisig.rentCollector acc))
        | Throw _ => None
        end).
Proof.
  unfold Multisig.getMultisigInfo. rewrite (fromAccountAddress_split c g).
  now destruct (outcome (fromAccountAddress c g)).
Qed.

(** X15. [getMultisigInfo] makes one request, for the address given,
    and never throws; it answers [null] exactly when [isSquadsMultisig]
    answers false. The information it returns carries the address asked
    for and the threshold, members, transaction index and rent collector
    of the decoded account, and [isMultisigMember] and
    [hasGovernancePermission] answer for a wallet what its member list
    says; when it answers [null], nobody is a member and only the address
    itself has governance permission. *)
Theorem getMultisigInfo_agrees (c : Connection) (g : PublicKey.t) :
  events (getMultisigInfo c g) = [g] /\
  (exists answer, outcome (getMultisigInfo c g) = Ok answer /\
     outcome (isSquadsMultisig c g)
       = Ok match answer with Some _ => true | None => false end) /\
  (forall info,
      outcome (getMultisigInfo c g) = Ok (Some info) ->
      Multisig.MultisigInfo.address info = g /\
      outcome (fromAccountAddress c g)
        = Ok (Multisig.mkMultisigAccount
                (Multisig.MultisigInfo.threshold info)
                (Multisig.MultisigInfo.members info)
                (Multisig.MultisigInfo.transactionIndex info)
                (Multisig.MultisigInfo.rentCollector info)) /\
      forall w,
        outcome (isMultisigMember c g w)
          = Ok (existsb (fun member => PublicKey.equals (Multisig.key member) w)
                  (Multisig.MultisigInfo.members info)) /\
        outcome (hasGovernancePermission c g w)
          = Ok (PublicKey.equals w g
                || existsb (fun member => PublicKey.equals (Multisig.key member) w)
                     (Multisig.MultisigInfo.members info))) /\
  (outcome (getMultisigInfo c g) = Ok None ->
   forall w,
     outcome (isMultisigMember c g w) = Ok false /\
     outcome (hasGovernancePermission c g w) = Ok (PublicKey.equals w g)).
Proof.
  rewrite getMultisigInfo_eq. cbn [events outcome fst snd].
  split; [reflexivity |]. split; [| split].
  - rewrite isSquadsMultisig_outcome.
    destruct (outcome (fromAccountAddress c g)) as [acc | e]; eexists;
      split; reflexivity.
  - intros info H.
    destruct (outcome (fromAccountAddress c g)) as [acc | e] eqn:E;
      [| discriminate H].
    injection H as <-.
    cbn [Multisig.MultisigInfo.address Multisig.MultisigInfo.threshold
         Multisig.MultisigInfo.members Multisig.MultisigInfo.transactionIndex
         Multisig.MultisigInfo.rentCollector].
    rewrite member_copies.
    split; [reflexivity |]. split; [now destruct acc |].
    intros w. rewrite isMultisigMember_outcome, hasGovernancePermission_outcome, E.
    split; reflexivity.
  - intros H w.
    destruct (outcome (fromAccountAddress c g)) as [acc | e] eqn:E;
      [discriminate H |].
    rewrite isMultisigMember_outcome, hasGovernancePermission_outcome, E.
    now rewrite orb_false_r.
Qed.

(** The loop ends at once on an empty array, and throws at its first
    account otherwise. *)
Lemma pendingLoop_eq (proposals : list (PublicKey.t * AccountInfo))
    (w : PublicKey.t) (required : Z) (pending : list Multisig.PendingProposal.t) :
  Multisig.pendingLoop proposals w required pending
  = match proposals with
    | [] => Ok pending
    | _ :: _ => Throw TypeError
    end.
Proof. destruct proposals as [| [pubkey account] rest]; reflexivity. Qed.

(** The listing in one formula. *)
Lemma getPendingProposals_eq (c : Connection) (g w : PublicKey.t) :
  getPendingProposals c g w
  = (if is_ok (outcome (fromAccountAddress c g)) then [g; g] else [g], Ok []).
Proof.
  unfold Multisig.getPendingProposals. rewrite (fromAccountAddress_split c g).
  destruct (outcome (fromAccountAddress c g)) as [acc | e]; [| reflexivity].
  destruct (proposalAccounts c g) as [proposals | e]; [| reflexivity].
  rewrite pendingLoop_eq. destruct proposals; reflexivity.
Qed.

(** X16. [getPendingProposals] never throws and never lists a proposal:
    its answer is the empty array on every ledger, for every account codec
    and whatever accounts the proposal query returns. It makes one request
    when the multisig account cannot be fetched and two otherwise. The
    accounts the query returns are not decoded: with none the loop has
    nothing to list, and with one or more it throws at the first, whose
    [status] is [undefined], and the exception is turned into the empty
    array. *)
Theorem getPendingProposals_lists_nothing (c : Connection) (g w : PublicKey.t) :
  outcome (getPendingProposals c g w) = Ok [] /\
  events (getPendingProposals c g w)
    = (if is_ok (outcome (fromAccountAddress c g)) then [g; g] else [g]) /\
  (forall account,
      Multisig.get (Multisig.account_object account) "status" = Ok Multisig.Undefined) /\
  Multisig.get Multisig.Undefined "__kind" = Throw TypeError /\
  (forall first rest required,
      Multisig.pendingLoop (first :: rest) w required [] = Throw TypeError) /\
  (forall required, Multisig.pendingLoop [] w required [] = Ok []).
Proof.
  rewrite getPendingProposals_eq. cbn [outcome events fst snd].
  split; [reflexivity |]. split; [reflexivity |].
  split; [intros account; reflexivity |]. split; [reflexivity |].
  split; [intros first rest required; apply pendingLoop_eq | reflexivity].
Qed.

(** X17. The governance check asks the ledger about the governance
    address only: it makes no request at all when the wallet is the
    governance address, and otherwise one request when the address holds
    no multisig and two when it does. *)
Theorem governance_check_requests (c : Connection) (g w : PublicKey.t) :
  Forall (fun asked => asked = g) (events (hasGovernancePermission c g w)) /\
  (w = g -> events (hasGovernancePermission c g w) = []) /\
  (w <> g ->
   events (hasGovernancePermission c g w)
     = if is_ok (outcome (fromAccountAddress c g)) then [g; g] else [g]).
Proof.
  assert (Hcases :
    events (hasGovernancePermission c g w)
      = if PublicKey.equals w g then []
        else if is_ok (outcome (fromAccountAddress c g)) then [g; g] else [g]).
  { unfold Multisig.hasGovernancePermission.
    destruct (PublicKey.equals w g); [reflexivity |].
    unfold Multisig.isSquadsMultisig, Multisig.isMultisigMember.
    rewrite (fromAccountAddress_split c g).
    now destruct (outcome (fromAccountAddress c g)). }
  rewrite Hcases. split; [| split].
  - destruct (PublicKey.equals w g); [constructor |].
    destruct (is_ok _); repeat constructor.
  - intros ->. now rewrite equals_refl.
  - intros Hne. apply equals_false_iff in Hne. now rewrite Hne.
Qed.

End MultisigFacts.

Lemma getMultisigInfo_agrees_witness :
  exists info,
    outcome (Multisig.getMultisigInfo sample_deserialize governance_ledger committee_address)
      = Ok (Some info) /\
    Multisig.MultisigInfo.address info = committee_address /\
    forall w,
      outcome (Multisig.isMultisigMember sample_deserialize governance_ledger
                 committee_address w)
      = Ok (existsb (fun member => PublicKey.equals (Multisig.key member) w)
              (Multisig.MultisigInfo.members info)).
Proof.
  destruct (proj1 (proj2 (getMultisigInfo_agrees sample_deserialize governance_ledger
                            committee_address))) as (answer & Hanswer & Hsquads).
  destruct answer as [info |].
  - exists info. split; [exact Hanswer |].
    destruct (proj1 (proj2 (proj2 (getMultisigInfo_agrees sample_deserialize
                                      governance_ledger committee_address)))
                info Hanswer) as (Haddr & _ & Hw).
    split; [exact Haddr |]. intros w. exact (proj1 (Hw w)).
  - exfalso.
    assert (Hs : outcome (Multisig.isSquadsMultisig sample_deserialize governance_ledger
                            committee_address) = Ok true)
      by (vm_compute; reflexivity).
    rewrite Hs in Hsquads. discriminate Hsquads.
Defined.

(** ** The client *)

Section ClientFacts.

Import PercolatorClient.

Variable minimumBalanceForRentExemption : Z -> Z.
Variable confirm : Transaction -> list Signer -> result string.
Variable createAccountWithSeed :
  CreateAccountWithSeedParams.t -> result TransactionInstruction.
Variable host : Buffer.endianness.

#[local] Abbreviation initializePortfolio :=
  (PercolatorClient.initializePortfolio minimumBalanceForRentExemption confirm
     createAccountWithSeed).
#[local] Abbreviation deposit := (PercolatorClient.deposit confirm).
#[local] Abbreviation withdraw := (PercolatorClient.withdraw confirm).
#[local] Abbreviation placeOrder := (PercolatorClient.placeOrder confirm).
#[local] Abbreviation addLiquidity := (PercolatorClient.addLiquidity confirm host).
#[local] Abbreviation removeLiquidity := (PercolatorClient.removeLiquidity confirm host).
#[local] Abbreviation liquidateUser := (PercolatorClient.liquidateUser confirm).
#[local] Abbreviation run :=
  (perform minimumBalanceForRentExemption confirm createAccountWithSeed host).

(** The portfolio address the client computes is a promise: the
    connection, handed it, throws before it asks anything. *)
Lemma portfolioExists_throws (client : t) (user : PublicKey.t) :
  portfolioExists client user = ([], Throw TypeError).
Proof. reflexivity. Qed.

(** A method that builds one instruction without any check. *)
Lemma unguarded_send (client : t) (signer : Signer)
    (built : result TransactionInstruction) :
  (instruction <~ lift built ;;
   transaction <~ lift (add Transaction_new [instruction]) ;;
   sendAndConfirmTransaction confirm client transaction [signer])%eff
  = match built with
    | Ok ix =>
        ([SendAndConfirmTransaction (single ix) [signer] (commitment client)],
         confirm (single ix) [signer])
    | Throw e => ([], Throw e)
    end.
Proof. destruct built as [ix | e]; reflexivity. Qed.

(** X18. [getPortfolioAddress] returns no key but a promise, one that
    settles to a key. [portfolioExists] and [getPortfolio] hand it to the
    connection as it is: whatever the ledger holds, they make no request
    and throw a [TypeError]. Neither ever answers, and the placeholder
    portfolio is never returned. Asked for a key, the connection makes
    exactly one request. *)
Theorem getPortfolio_never_asks (client : t) (user : PublicKey.t) :
  exists p,
    getPortfolioAddress client user = Pending p /\
    (exists key, settled p = Ok key) /\
    portfolioExists client user = ([], Throw TypeError) /\
    getPortfolio client user = ([], Throw TypeError) /\
    (forall key,
        requestAccountInfo client (Key key)
        = ([GetAccountInfo key (commitment client)],
           Ok (getAccountInfo (connection client) key))).
Proof.
  exists (createWithSeed user "portfolio" (routerProgramId client)).
  split; [reflexivity |].
  split; [apply createWithSeed_total |].
  split; [reflexivity |].
  split; [reflexivity |].
  intros key. reflexivity.
Qed.

(** X19. Deposits and withdrawals of the client stop at the existence
    check. For every ledger, signer and amount they make no request, send
    nothing and throw the [TypeError] of the check: neither the error of a
    missing portfolio nor the [RangeError] of an amount out of range can
    arise, and no signature is ever returned. *)
Theorem deposit_stops_at_check (client : t) (signer : Signer) (params : DepositParams) :
  deposit client signer params = ([], Throw TypeError) /\
  withdraw client signer params = ([], Throw TypeError) /\
  sent (events (deposit client signer params)) = [] /\
  sent (events (withdraw client signer params)) = [].
Proof.
  assert (Hd : deposit client signer params = ([], Throw TypeError)).
  { unfold PercolatorClient.deposit. cbv zeta.
    rewrite portfolioExists_throws. reflexivity. }
  assert (Hw : withdraw client signer params = ([], Throw TypeError)).
  { unfold PercolatorClient.withdraw. cbv zeta.
    rewrite portfolioExists_throws. reflexivity. }
  rewrite Hd, Hw. repeat split.
Qed.

(** X20. Initialisation stops at the existence check too: for every
    ledger and signer it makes no request and throws a [TypeError]. It
    never asks the rent of the portfolio account, never calls the builder
    of the two instructions, sends nothing, and never reports that a
    portfolio already exists. *)
Theorem initializePortfolio_stops_at_check (client : t) (signer : Signer) :
  initializePortfolio client signer = ([], Throw TypeError) /\
  sent (events (initializePortfolio client signer)) = [] /\
  Forall
    (fun request =>
       forall dataLength commitment,
         request <> GetMinimumBalanceForRentExemption dataLength commitment)
    (events (initializePortfolio client signer)).
Proof.
  assert (Hi : initializePortfolio client signer = ([], Throw TypeError)).
  { unfold PercolatorClient.initializePortfolio. cbv zeta.
    rewrite portfolioExists_throws. reflexivity. }
  rewrite Hi. repeat split. constructor.
Qed.

(** X21. Removing liquidity and liquidating make no existence check and
    read nothing from the ledger. [removeLiquidity] never sends: the
    release builder throws a [TypeError] on every input, so the method
    throws it too, whatever the matcher state, the removal parameters,
    the context id and the ledger. [liquidateUser] always hands one
    transaction to [sendAndConfirmTransaction], signed by the liquidator
    alone and holding the one instruction of the liquidation builder, in
    whose first and third account place there is a promise and no key. *)
Theorem removeLiquidity_never_sends (client : t) (signer : Signer)
    (matcherState : PublicKey.t) (params : RemoveLiquidityParams.t)
    (contextId : option Z) :
  createRouterReleaseInstruction host (publicKey signer) matcherState
    match contextId with Some c => c | None => 0 end (routerProgramId client)
    = Throw TypeError /\
  removeLiquidity client signer matcherState params contextId = ([], Throw TypeError) /\
  (forall targetUser,
      exists ix p q,
        createLiquidateUserInstruction (publicKey signer) targetUser (routerProgramId client)
          = Ok ix /\
        map pubkey (keys ix)
          = [Pending p; Key (publicKey signer); Pending q; Key PublicKey.default] /\
        liquidateUser client signer targetUser
        = ([SendAndConfirmTransaction (single ix) [signer] (commitment client)],
           confirm (single ix) [signer])).
Proof.
  split; [apply createRouterReleaseInstruction_throws |]. split.
  - unfold PercolatorClient.removeLiquidity. cbv zeta.
    rewrite createRouterReleaseInstruction_throws. reflexivity.
  - intros targetUser. eexists.
    exists (createWithSeed (publicKey signer) "portfolio" (routerProgramId client)),
           (createWithSeed targetUser "portfolio" (routerProgramId client)).
    split; [apply createLiquidateUserInstruction_eq |].
    split; [reflexivity |].
    unfold PercolatorClient.liquidateUser.
    rewrite unguarded_send, createLiquidateUserInstruction_eq. reflexivity.
Qed.

(** What the log and the outcome of an operation are. *)
Lemma perform_eq (client : t) (signer : Signer) (op : Operation) :
  run client signer op
  = match op with
    | DoLiquidateUser targetUser =>
        match createLiquidateUserInstruction (publicKey signer) targetUser
                (routerProgramId client) with
        | Ok ix =>
            ([SendAndConfirmTransaction (single ix) [signer] (commitment client)],
             confirm (single ix) [signer])
        | Throw e => ([], Throw e)
        end
    | _ => ([], Throw TypeError)
    end.
Proof.
  destruct op; cbn [perform].
  - unfold PercolatorClient.initializePortfolio. cbv zeta.
    rewrite portfolioExists_throws. reflexivity.
  - unfold PercolatorClient.deposit. cbv zeta.
    rewrite portfolioExists_throws. reflexivity.
  - unfold PercolatorClient.withdraw. cbv zeta.
    rewrite portfolioExists_throws. reflexivity.
  - unfold PercolatorClient.placeOrder. cbv zeta.
    rewrite portfolioExists_throws. reflexivity.
  - unfold PercolatorClient.addLiquidity. cbv zeta.
    rewrite portfolioExists_throws. reflexivity.
  - unfold PercolatorClient.removeLiquidity. cbv zeta.
    rewrite createRouterReleaseInstruction_throws. reflexivity.
  - unfold PercolatorClient.liquidateUser. apply unguarded_send.
Qed.


End ClientFacts.

(** ** The oracle monitor *)

Lemma round53_small (z : Z) : Z.abs z < 2 ^ 53 -> OracleMonitor.round53 z = z.
Proof.
  intros H. unfold OracleMonitor.round53. cbv zeta.
  now replace (Z.abs z <? 2 ^ 53) with true by (symmetry; apply Z.ltb_lt; exact H).
Qed.

(** The status as a function of an integer age. *)
Lemma classifyStatus_Finite (a : Z) :
  OracleMonitor.classifyStatus (OracleMonitor.Finite a)
  = if a <? 0 then OracleMonitor.error_
    else if a <=? 30 then OracleMonitor.healthy
    else if a <=? 60 then OracleMonitor.warning
    else OracleMonitor.stale.
Proof. reflexivity. Qed.

(** X23. What the oracle monitor shows, for a clock and a timestamp below
    2^53. The timestamp shown is the one of the record. A timestamp of
    zero or less is shown as stale with the age -1. A positive timestamp
    is shown with the seconds elapsed as age, as an error when it lies in
    the future, healthy up to 30 seconds, a warning up to 60 and stale
    beyond. The stale flag is set exactly for the stale status. *)
Theorem display_status (now : Z) (address : PublicKey.t) (data : Oracle.PriceOracle) :
  0 <= now < 2 ^ 53 ->
  - 2 ^ 53 < Oracle.timestamp data < 2 ^ 53 ->
  let shown := OracleMonitor.displayOracle now (address, data) in
  let elapsed := now - Oracle.timestamp data in
  OracleMonitor.timestamp shown = Oracle.timestamp data /\
  (Oracle.timestamp data <= 0 ->
   OracleMonitor.status shown = OracleMonitor.stale /\
   OracleMonitor.age shown = OracleMonitor.Finite (-1)) /\
  (0 < Oracle.timestamp data ->
   OracleMonitor.age shown = OracleMonitor.Finite elapsed /\
   (OracleMonitor.status shown = OracleMonitor.error_ <-> elapsed < 0) /\
   (OracleMonitor.status shown = OracleMonitor.healthy <-> 0 <= elapsed <= 30) /\
   (OracleMonitor.status shown = OracleMonitor.warning <-> 30 < elapsed <= 60) /\
   (OracleMonitor.status shown = OracleMonitor.stale <-> 60 < elapsed)) /\
  (OracleMonitor.isStale shown = true <->
   OracleMonitor.status shown = OracleMonitor.stale) /\
  (OracleMonitor.isStale shown = true <->
   Oracle.timestamp data <= 0 \/ 60 < elapsed).
Proof.
  intros Hnow Hts. cbv zeta.
  unfold OracleMonitor.displayOracle.
  rewrite (round53_small (Oracle.timestamp data)) by lia.
  cbn [OracleMonitor.timestamp OracleMonitor.status OracleMonitor.age
       OracleMonitor.isStale].
  split; [reflexivity |].
  destruct (0 <? Oracle.timestamp data) eqn:Epos;
    [apply Z.ltb_lt in Epos | apply Z.ltb_ge in Epos].
  - rewrite round53_small by lia. rewrite classifyStatus_Finite.
    destruct (now - Oracle.timestamp data <? 0) eqn:E0;
      [apply Z.ltb_lt in E0 | apply Z.ltb_ge in E0];
      [| destruct (now - Oracle.timestamp data <=? 30) eqn:E1;
         [apply Z.leb_le in E1 | apply Z.leb_gt in E1];
         [| destruct (now - Oracle.timestamp data <=? 60) eqn:E2;
            [apply Z.leb_le in E2 | apply Z.leb_gt in E2]]];
      cbn [OracleMonitor.Status_eqb];
      intuition (try reflexivity; try discriminate; try lia).
  - cbn [OracleMonitor.classifyStatus OracleMonitor.ltb OracleMonitor.leb
         OracleMonitor.Status_eqb].
    split; [intros _; split; reflexivity |].
    split; [intros H; lia |].
    split; [split; reflexivity |].
    split; [intros _; left; lia | reflexivity].
Qed.

Lemma display_status_witness :
  let shown :=
    OracleMonitor.displayOracle 1700000061
      (oracle_address,
       Oracle.mkPriceOracle Oracle.ORACLE_MAGIC 1 254 alice bob 50000000000 1700000000
         25000) in
  OracleMonitor.age shown = OracleMonitor.Finite 61 /\
  (OracleMonitor.status shown = OracleMonitor.stale <-> 60 < 61).
Proof.
  cbv zeta.
  destruct (display_status 1700000061 oracle_address
              (Oracle.mkPriceOracle Oracle.ORACLE_MAGIC 1 254 alice bob 50000000000
                 1700000000 25000))
    as (_ & _ & H & _); [cbn; lia | cbn; lia |].
  destruct H as (Hage & _ & _ & _ & Hstale); [cbn; lia |].
  split; [exact Hage | exact Hstale].
Defined.

(** The age shown does not tell the status: an oracle that was never
    updated and one stamped a second ahead of the clock both show the age
    -1, the first as stale and the second as an error. *)
Lemma display_age_is_ambiguous (address : PublicKey.t) (data data' : Oracle.PriceOracle) :
  Oracle.timestamp data = 0 ->
  Oracle.timestamp data' = 1700000001 ->
  let never := OracleMonitor.displayOracle 1700000000 (address, data) in
  let ahead := OracleMonitor.displayOracle 1700000000 (address, data') in
  OracleMonitor.age never = OracleMonitor.age ahead /\
  OracleMonitor.status never = OracleMonitor.stale /\
  OracleMonitor.status ahead = OracleMonitor.error_ /\
  OracleMonitor.isStale ahead = false.
Proof.
  intros H0 H1. cbv zeta. unfold OracleMonitor.displayOracle.
  rewrite H0, H1. repeat split.
Qed.

(** ** The permission guard and the confirmation modal *)

Lemma is_authority_true (wallet : PublicKey.t) (authority : option PublicKey.t) :
  PermissionGuard.is_authority wallet authority = true <-> authority = Some wallet.
Proof.
  destruct authority as [a |]; cbn [PermissionGuard.is_authority].
  - rewrite equals_true_iff. split; [intros -> | intros [= ->]]; reflexivity.
  - split; discriminate 1.
Qed.

(** The state the effect leaves, in one formula. *)
Lemma checkPermission_eq (env : PermissionGuard.Env) (publicKey : option PublicKey.t)
    (required : PermissionGuard.Permission) (st : PermissionGuard.State) :
  PermissionGuard.checkPermission env publicKey required st
  = PermissionGuard.mkState
      match required, publicKey with
      | PermissionGuard.PUBLIC, _ => true
      | _, None => false
      | _, Some wallet =>
          match PermissionGuard.env_key (PermissionGuard.NEXT_PUBLIC_GOVERNANCE_WALLET env),
                PermissionGuard.env_key (PermissionGuard.NEXT_PUBLIC_INSURANCE_AUTHORITY env)
          with
          | Ok governanceWallet, Ok insuranceAuthority =>
              PermissionGuard.is_authority wallet
                match required with
                | PermissionGuard.INSURANCE => insuranceAuthority
                | _ => governanceWallet
                end
          | _, _ => false
          end
      end
      false.
Proof.
  unfold PermissionGuard.checkPermission.
  destruct required; [reflexivity | |];
    (destruct publicKey as [wallet |]; [| reflexivity];
     destruct (PermissionGuard.env_key (PermissionGuard.NEXT_PUBLIC_GOVERNANCE_WALLET env));
     [| reflexivity];
     destruct (PermissionGuard.env_key (PermissionGuard.NEXT_PUBLIC_INSURANCE_AUTHORITY env));
     reflexivity).
Qed.

(** X24. The permission guard. The effect always ends the loading state,
    and its result does not depend on the state it starts from. Public
    content is always allowed; other content is refused without a wallet.
    Governance content is allowed exactly when the governance setting
    decodes to the key of the wallet and the insurance setting is unset or
    decodes too, and symmetrically for insurance content: a setting that
    does not decode locks both out. The children are rendered exactly
    when permission was granted, and the flags of the hook agree with the
    guard. *)
Theorem permission_guard (env : PermissionGuard.Env) (publicKey : option PublicKey.t)
    (required : PermissionGuard.Permission) (st : PermissionGuard.State) :
  let final := PermissionGuard.checkPermission env publicKey required st in
  let governance :=
    PermissionGuard.env_key (PermissionGuard.NEXT_PUBLIC_GOVERNANCE_WALLET env) in
  let insurance :=
    PermissionGuard.env_key (PermissionGuard.NEXT_PUBLIC_INSURANCE_AUTHORITY env) in
  PermissionGuard.loading final = false /\
  final = PermissionGuard.checkPermission env publicKey required PermissionGuard.initial /\
  (required = PermissionGuard.PUBLIC -> PermissionGuard.hasPermission final = true) /\
  (required <> PermissionGuard.PUBLIC -> publicKey = None ->
   PermissionGuard.hasPermission final = false) /\
  (required = PermissionGuard.GOVERNANCE ->
   (PermissionGuard.hasPermission final = true <->
    exists wallet, publicKey = Some wallet /\
                   governance = Ok (Some wallet) /\ is_ok insurance = true)) /\
  (required = PermissionGuard.INSURANCE ->
   (PermissionGuard.hasPermission final = true <->
    exists wallet, publicKey = Some wallet /\
                   insurance = Ok (Some wallet) /\ is_ok governance = true)) /\
  (forall hasFallback,
      PermissionGuard.render hasFallback final = PermissionGuard.Children <->
      PermissionGuard.hasPermission final = true) /\
  (forall wallet,
      publicKey = Some wallet ->
      let badge := PermissionGuard.checkPermissions env publicKey in
      (required = PermissionGuard.GOVERNANCE ->
       PermissionGuard.isGovernance badge = PermissionGuard.hasPermission final) /\
      (required = PermissionGuard.INSURANCE ->
       PermissionGuard.isInsuranceAuth badge = PermissionGuard.hasPermission final)).
Proof.
  cbv zeta. rewrite !checkPermission_eq.
  cbn [PermissionGuard.loading PermissionGuard.hasPermission].
  split; [reflexivity |]. split; [reflexivity |].
  split; [intros ->; reflexivity |].
  split; [intros Hreq ->; destruct required; [contradiction | |]; reflexivity |].
  split; [| split; [| split]].
  - intros ->. destruct publicKey as [wallet |].
    + destruct (PermissionGuard.env_key _) as [g |];
        [| split; [discriminate 1 | intros (w & _ & H & _); discriminate H]].
      destruct (PermissionGuard.env_key _) as [i |];
        [| split; [discriminate 1 | intros (w & _ & _ & H); discriminate H]].
      rewrite is_authority_true. split.
      * intros ->. exists wallet. repeat split.
      * intros (w & [= <-] & [= ->] & _). reflexivity.
    + split; [discriminate 1 | intros (w & H & _); discriminate H].
  - intros ->. destruct publicKey as [wallet |].
    + destruct (PermissionGuard.env_key (PermissionGuard.NEXT_PUBLIC_GOVERNANCE_WALLET env))
        as [g |];
        [| split; [discriminate 1 | intros (w & _ & _ & H); discriminate H]].
      destruct (PermissionGuard.env_key _) as [i |];
        [| split; [discriminate 1 | intros (w & _ & H & _); discriminate H]].
      rewrite is_authority_true. split.
      * intros ->. exists wallet. repeat split.
      * intros (w & [= <-] & [= ->] & _). reflexivity.
    + split; [discriminate 1 | intros (w & H & _); discriminate H].
  - intros hasFallback. unfold PermissionGuard.render.
    cbn [PermissionGuard.loading PermissionGuard.hasPermission].
    match goal with |- context [negb ?b] => destruct b end; cbn [negb].
    + split; reflexivity.
    + destruct hasFallback; split; discriminate 1.
  - intros wallet ->. unfold PermissionGuard.checkPermissions.
    destruct (PermissionGuard.env_key (PermissionGuard.NEXT_PUBLIC_GOVERNANCE_WALLET env))
      as [g |]; cbn [rbind].
    + destruct (PermissionGuard.env_key _) as [i |]; cbn [rbind];
        split; intros ->; reflexivity.
    + split; intros ->; reflexivity.
Qed.

Lemma env_key_sol_mint : PermissionGuard.env_key (Some SOL_MINT) = Ok (Some sol_mint).
Proof.
  unfold PermissionGuard.env_key.
  replace (String.eqb SOL_MINT EmptyString) with false by reflexivity.
  now rewrite sol_mint_decodes.
Qed.

(** The governance wallet is let in; with an insurance setting that does
    not decode ("0" is not a character of the alphabet), it is locked out. *)
Lemma permission_guard_witness :
  PermissionGuard.hasPermission
    (PermissionGuard.checkPermission (PermissionGuard.mkEnv (Some SOL_MINT) None)
       (Some sol_mint) PermissionGuard.GOVERNANCE PermissionGuard.initial) = true /\
  PermissionGuard.hasPermission
    (PermissionGuard.checkPermission (PermissionGuard.mkEnv (Some SOL_MINT) (Some "0"%string))
       (Some sol_mint) PermissionGuard.GOVERNANCE PermissionGuard.initial) = false.
Proof.
  split.
  - apply (proj1 (proj2 (proj2 (proj2 (proj2
             (permission_guard (PermissionGuard.mkEnv (Some SOL_MINT) None)
                (Some sol_mint) PermissionGuard.GOVERNANCE PermissionGuard.initial)))))
             eq_refl).
    exists sol_mint. split; [reflexivity |]. split; [apply env_key_sol_mint | reflexivity].
  - destruct (PermissionGuard.hasPermission _) eqn:E; [| reflexivity].
    apply (proj1 (proj2 (proj2 (proj2 (proj2
             (permission_guard (PermissionGuard.mkEnv (Some SOL_MINT) (Some "0"%string))
                (Some sol_mint) PermissionGuard.GOVERNANCE PermissionGuard.initial)))))
             eq_refl) in E.
    destruct E as (w & _ & _ & H). vm_compute in H. discriminate H.
Defined.

(** X25. The confirmation modal. The action is invoked exactly when
    confirmation is enabled, which under a required text means that the
    text typed equals it; the modal is closed exactly when the action was
    invoked and did not throw. An enabled confirmation resets the typed
    text and the loading flag, a disabled one changes nothing, and after
    a confirmation under a required text a second click does nothing
    until the text is typed again. *)
Theorem confirmation_requires_typing (requireTyping : option string)
    (onConfirm : result unit) (st : ConfirmationModal.State) :
  let enabled := ConfirmationModal.isConfirmEnabled requireTyping st in
  let invoked := fst (ConfirmationModal.handleConfirm requireTyping onConfirm st) in
  let final := snd (ConfirmationModal.handleConfirm requireTyping onConfirm st) in
  (In ConfirmationModal.OnConfirm invoked <-> enabled = true) /\
  (In ConfirmationModal.OnClose invoked <-> enabled = true /\ is_ok onConfirm = true) /\
  (forall text,
      requireTyping = Some text -> text <> EmptyString ->
      (enabled = true <-> ConfirmationModal.typedText st = text)) /\
  (enabled = true -> final = ConfirmationModal.initial) /\
  (enabled = false -> invoked = [] /\ final = st) /\
  (forall text again,
      requireTyping = Some text -> text <> EmptyString ->
      enabled = true ->
      fst (ConfirmationModal.handleConfirm requireTyping again final) = []).
Proof.
  cbv zeta. unfold ConfirmationModal.handleConfirm.
  destruct (ConfirmationModal.isConfirmEnabled requireTyping st) eqn:E;
    cbn [negb fst snd].
  - split; [destruct onConfirm; cbn [In]; intuition discriminate |].
    split; [destruct onConfirm; cbn [In is_ok]; intuition discriminate |].
    split.
    { intros text -> Hne. unfold ConfirmationModal.isConfirmEnabled in E.
      apply String.eqb_neq in Hne. rewrite Hne in E.
      apply String.eqb_eq in E. split; [intros _; exact E | reflexivity]. }
    split; [reflexivity |]. split; [discriminate 1 |].
    intros text again -> Hne _.
    unfold ConfirmationModal.isConfirmEnabled.
    cbn [ConfirmationModal.typedText].
    apply String.eqb_neq in Hne. rewrite Hne.
    rewrite String.eqb_sym, Hne. reflexivity.
  - split; [cbn [In]; intuition discriminate |].
    split; [cbn [In]; intuition discriminate |].
    split.
    { intros text -> Hne. unfold ConfirmationModal.isConfirmEnabled in E.
      apply String.eqb_neq in Hne. rewrite Hne in E.
      apply String.eqb_neq in E. split; [discriminate 1 | intros H; contradiction]. }
    split; [discriminate 1 |]. split; [intros _; split; reflexivity |].
    discriminate 3.
Qed.

Lemma confirmation_requires_typing_witness :
  fst (ConfirmationModal.handleConfirm (Some "HAIRCUT"%string) (Ok tt)
         (ConfirmationModal.setTypedText "HAIRCUT" ConfirmationModal.initial))
    = [ConfirmationModal.OnConfirm; ConfirmationModal.OnClose] /\
  fst (ConfirmationModal.handleConfirm (Some "HAIRCUT"%string) (Ok tt)
         (snd (ConfirmationModal.handleConfirm (Some "HAIRCUT"%string) (Ok tt)
                 (ConfirmationModal.setTypedText "HAIRCUT" ConfirmationModal.initial))))
    = [].
Proof.
  split; [reflexivity |].
  apply (proj2 (proj2 (proj2 (proj2 (proj2
           (confirmation_requires_typing (Some "HAIRCUT"%string) (Ok tt)
              (ConfirmationModal.setTypedText "HAIRCUT" ConfirmationModal.initial))))))
           "HAIRCUT"%string (Ok tt) eq_refl).
  - discriminate 1.
  - reflexivity.
Defined.

(** ** The scenarios of the client, the multisig and the accounts *)

Lemma sol_mint_encodes : PublicKey_toBase58 sol_mint = SOL_MINT.
Proof. vm_compute. reflexivity. Qed.

Lemma initialize_oracle_account_witness :
  outcome (Buffer.readBigInt64LE (Byte.x00 :: le_split 8 50000000000 ++ [Byte.x00]) 1)
    = Ok 50000000000 /\
  getProgramAccounts [(oracle_address, mkAccountInfo oracle_program oracle_1)]
    oracle_program Oracle.PRICE_ORACLE_SIZE
  = [(oracle_address, mkAccountInfo oracle_program oracle_1)].
Proof.
  destruct (initialize_oracle_account sample_createAccount oracle_address alice bob
              50000000000 oracle_program (sample_rent 128)) as (_ & Hread & Hlisted & _).
  split.
  - apply Hread. lia.
  - apply Hlisted. vm_compute. reflexivity.
Defined.

(** On the sample the committee has three proposal accounts, and none is
    listed for [alice]. *)
Lemma sample_pending_proposals :
  Multisig.getPendingProposals sample_deserialize sample_proposals governance_ledger
    committee_address alice
  = ([committee_address; committee_address], Ok []).
Proof. vm_compute. reflexivity. Qed.

Lemma governance_check_requests_witness :
  events (Multisig.hasGovernancePermission sample_deserialize governance_ledger
            committee_address alice)
  = if is_ok (outcome (Multisig.fromAccountAddress sample_deserialize governance_ledger
                         committee_address))
    then [committee_address; committee_address]
    else [committee_address].
Proof.
  apply (proj2 (proj2 (governance_check_requests sample_deserialize governance_ledger
                         committee_address alice))).
  intros H. apply (f_equal word.unsigned) in H. vm_compute in H. discriminate H.
Defined.

(** A deposit of [alice] on a ledger that holds an account of the router
    program at her own address, and one of an amount out of range. *)
Lemma deposit_stops_at_check_witness :
  PercolatorClient.deposit sample_confirm
    (client_on [(alice, mkAccountInfo router_program [])]) alice_signer
    (mkDepositParams 1000000000 usdc_mint)
  = ([], Throw TypeError) /\
  PercolatorClient.deposit sample_confirm (client_on []) alice_signer
    (mkDepositParams (2 ^ 64) usdc_mint)
  = ([], Throw TypeError).
Proof.
  split.
  - exact (proj1 (deposit_stops_at_check sample_confirm
                    (client_on [(alice, mkAccountInfo router_program [])]) alice_signer
                    (mkDepositParams 1000000000 usdc_mint))).
  - exact (proj1 (deposit_stops_at_check sample_confirm (client_on []) alice_signer
                    (mkDepositParams (2 ^ 64) usdc_mint))).
Defined.
